(** * BRAPI wrapper: response routing, ticker fan-out, statement tabulation
      and series alignment

    A shallow embedding of [brapi_wrapper.py].  Python values that travel
    through the wrapper (JSON payloads, ticker arguments) are an inductive
    type; code that may raise runs in a small error monad; the remote
    provider and the few library operations whose behaviour lies outside
    the repository are the fields of a class.

    Conventions of the embedding:
    - Python [str] is [string]; a non-ASCII code point is its UTF-8 bytes
      (the patterns the code looks for, [.SA], [_], [,], are ASCII);
    - a Python [int] is an integer and a [float] the rational it holds; the
      one arithmetic operation of the wrapper, [value / 1000], rounds to
      binary64 and overflows as Python does; infinities and NaN payloads of
      the provider are not modelled; a missing or coerced cell (NaN) is
      [None];
    - a datetime index is the list of its instants together with whether it
      is timezone-aware;
    - a Python [dict] is an association list in insertion order, looked up by
      first match; the dicts Python builds have distinct keys, and a
      statement that needs this of its input says so;
    - the provider is a function of the request: within one call it answers
      the same endpoint the same way. *)

From Stdlib Require Import String Ascii List ZArith QArith Bool Lia.
From Stdlib Require Import Sorted Permutation.
From Stdlib Require OrderedTypeEx.
Import ListNotations.
Set Warnings "-register-all".
Local Open Scope string_scope.
Local Open Scope list_scope.

(* ================================================================== *)
(** ** Python values *)
(* ================================================================== *)

Module Py.

Inductive value : Type :=
| VNone
| VBool (b : bool)
| VInt (z : Z)
| VFloat (q : Q)
| VStr (s : string)
| VList (l : list value)
| VTuple (l : list value)
| VDict (d : list (string * value)).

(** Exceptions the modelled code can raise. *)
Inductive exc : Type :=
| ValueError
| TypeError
| AttributeError
| KeyError
| IndexError
| OverflowError
| PandasError.

(** A computation that returns or raises. *)
Inductive res (A : Type) : Type :=
| Ok (a : A)
| Raise (e : exc).

Arguments Ok {A} a.
Arguments Raise {A} e.

Definition bind {A B} (c : res A) (k : A -> res B) : res B :=
match c with
| Ok a => k a
| Raise e => Raise e
end.

(** [try: c  except Exception: return fallback] *)
Definition try_except {A} (c : res A) (fallback : A) : res A :=
match c with
| Ok a => Ok a
| Raise _ => Ok fallback
end.

(** A [for] loop whose body updates an accumulator and may raise. *)
Fixpoint for_each {A S} (body : S -> A -> res S) (xs : list A) (s : S) : res S :=
match xs with
| [] => Ok s
| x :: xs' => bind (body s x) (for_each body xs')
end.

(** *** Dictionaries *)

Section Dict.
Context {V : Type}.

Fixpoint dict_get (k : string) (d : list (string * V)) : option V :=
  match d with
  | [] => None
  | (k', v) :: d' => if k' =? k then Some v else dict_get k d'
  end.

(** [k in d] *)
Definition dict_mem (k : string) (d : list (string * V)) : bool :=
  match dict_get k d with Some _ => true | None => false end.

(** [d[k] = v]: an existing key keeps its position. *)
Fixpoint dict_set (k : string) (v : V) (d : list (string * V)) : list (string * V) :=
  match d with
  | [] => [(k, v)]
  | (k', v') :: d' => if k' =? k then (k', v) :: d' else (k', v') :: dict_set k v d'
  end.

Definition dict_keys (d : list (string * V)) : list string := map fst d.

End Dict.

(** *** Truthiness, [isinstance], [.get], iteration *)

Definition truthy (v : value) : bool :=
match v with
| VNone => false
| VBool b => b
| VInt z => negb (z =? 0)%Z
| VFloat q => negb (Qeq_bool q 0)
| VStr s => negb (s =? "")
| VList l | VTuple l => match l with [] => false | _ :: _ => true end
| VDict d => match d with [] => false | _ :: _ => true end
end.

Definition is_dict (v : value) : bool :=
match v with VDict _ => true | _ => false end.

Definition is_list (v : value) : bool :=
match v with VList _ => true | _ => false end.

Definition is_str (v : value) : bool :=
match v with VStr _ => true | _ => false end.

(** [v.get(k, default)]: only a dict has [.get]. *)
Definition py_get (v : value) (k : string) (default : value) : res value :=
match v with
| VDict d => Ok (match dict_get k d with Some x => x | None => default end)
| _ => Raise AttributeError
end.

(** [v[0]] *)
Definition py_first (v : value) : res value :=
match v with
| VList (x :: _) | VTuple (x :: _) => Ok x
| VList [] | VTuple [] => Raise IndexError
| VStr (String c _) => Ok (VStr (String c ""))
| VStr "" => Raise IndexError
| VDict _ => Raise KeyError
| _ => Raise TypeError
end.

Fixpoint chars (s : string) : list value :=
match s with
| "" => []
| String c s' => VStr (String c "") :: chars s'
end.

(** [for x in v] *)
Definition py_iter (v : value) : res (list value) :=
match v with
| VList l | VTuple l => Ok l
| VDict d => Ok (map (fun kv => VStr (fst kv)) d)
| VStr s => Ok (chars s)
| _ => Raise TypeError
end.

(** *** Strings *)

(** [p in s] for strings. *)
Fixpoint str_contains (p s : string) : bool :=
prefix p s ||
match s with
| "" => false
| String _ s' => str_contains p s'
end.

(** [s.replace('.SA', '')]: every non-overlapping occurrence, scanning from
  the left. *)
Definition is_dot_S_A (c1 c2 c3 : ascii) : bool :=
Ascii.eqb c1 "." && Ascii.eqb c2 "S" && Ascii.eqb c3 "A".

Fixpoint replace_SA (s : string) : string :=
match s with
| "" => ""
| String c1 rest =>
    match rest with
    | String c2 (String c3 rest3) =>
        if is_dot_S_A c1 c2 c3 then replace_SA rest3
        else String c1 (replace_SA rest)
    | _ => String c1 (replace_SA rest)
    end
end.

(** [s.replace(old, '')] for a one-character [old]. *)
Fixpoint remove_char (old : ascii) (s : string) : string :=
match s with
| "" => ""
| String c rest =>
    if Ascii.eqb c old then remove_char old rest else String c (remove_char old rest)
end.

End Py.

Export Py.

Notation "x <- c ;; k" := (bind c (fun x => k))
  (at level 61, c at next level, right associativity).

(* ================================================================== *)
(** ** Ticker canonicalisation *)
(* ================================================================== *)

(** [ticker.replace('.SA', '') + '.SA'] *)
Definition ticker_sa (ticker : string) : string :=
  replace_SA ticker ++ ".SA".

(** The rule as the specification words it: strip the [.SA] suffix when
    there is one, then append [.SA]. *)
Fixpoint removesuffix_SA (s : string) : string :=
  match s with
  | "" => ""
  | String c rest => if s =? ".SA" then "" else String c (removesuffix_SA rest)
  end.

Definition canonical_by_suffix (ticker : string) : string :=
  removesuffix_SA ticker ++ ".SA".

(* ================================================================== *)
(** ** Transport adapter and envelope router: [make_request] *)
(* ================================================================== *)

(** What [requests.get] followed by [response.json()] can deliver. *)
Inductive http_reply : Type :=
| RequestFailed                     (* requests.get raised RequestException *)
| Reply (status_code : Z) (json : option value).
                                    (* [None]: response.json() raised ValueError *)

Definition BASE_URL : string := "https://brapi.dev/".

(** The tail of [make_request] (the [isinstance(json_response, dict)] block
    and the final [return json_response]). *)
Definition route_response (json_response : value) : value :=
  match json_response with
  | VDict d =>
      match dict_get "results" d with
      | Some v => v
      | None =>
      match dict_get "stocks" d with
      | Some v => v
      | None =>
      match dict_get "currency" d with
      | Some v => v
      | None =>
      match dict_get "inflation" d with
      | Some v => v
      | None =>
      match dict_get "prime-rate" d with
      | Some v => v
      | None =>
      match dict_get "coins" d with
      | Some v => v
      | None => json_response
      end end end end end end
  | _ => json_response
  end.

(** The router as the specification words it: the value of the first
    present key of an ordered candidate list, else the payload itself. *)
Definition candidate_keys : list string :=
  ["results"; "stocks"; "currency"; "inflation"; "prime-rate"; "coins"].

Definition first_present (keys : list string) (d : list (string * value)) : option value :=
  match find (fun k => dict_mem k d) keys with
  | Some k => dict_get k d
  | None => None
  end.

Definition route_by_priority (payload : value) : value :=
  match payload with
  | VDict d =>
      match first_present candidate_keys d with
      | Some v => v
      | None => payload
      end
  | _ => payload
  end.

(** Everything the wrapper takes from outside the repository: process
    configuration, the remote provider, and the pandas parsers whose
    behaviour on arbitrary payloads is pandas' own. *)
Class Externals : Type := {
  (** [os.getenv("BRAPI_TOKEN")] *)
  API_KEY : option string;
  (** [requests.get(url, params=params)] and [response.json()] *)
  http_get : string -> list (string * value) -> http_reply;
  (** what [pd.to_numeric(..., errors='coerce')] makes of a [str] cell *)
  str_to_float : string -> option Q;
  (** [pd.to_datetime(v).strftime('%Y-%m-%d')] *)
  end_date_label : value -> res string;
  (** [pd.to_datetime(label)] of a column label, then localised to UTC
      when it carries no timezone: the instant *)
  to_datetime : string -> res Z;
  (** the per-ticker table of [fetch_quote]: [pd.DataFrame(historical_data)]
      with its date index, fundamentals and dividends joined *)
  QuoteFrame : Type;
  quote_frame : value -> value -> string -> bool -> bool -> res QuoteFrame;
  (** [pd.DataFrame(historical_data)], [pd.to_datetime(df['date'], unit='s',
      utc=True)], [set_index('date')], [df[field]]: the field's cells by
      date; a record without the field has [VNone] there *)
  history_series : string -> value -> res (list (Z * value));
  (** [s.title()] of a string with code points outside ASCII: the case
      mapping of the Unicode database *)
  unicode_title : string -> string;
  (** [Index.union] of two different non-empty datetime indexes of which
      one repeats a date: the multiplicities of the result are pandas' own *)
  union_with_repeats : list Z -> list Z -> list Z
}.

Section Transport.
Context {ext : Externals}.

Definition with_token (params : list (string * value)) : list (string * value) :=
  match API_KEY with
  | Some k => if k =? "" then params else dict_set "token" (VStr k) params
  | None => params
  end.

(** [make_request(endpoint, params)]; every failure is [None]. *)
Definition make_request (endpoint : string) (params : list (string * value)) : value :=
  match http_get (BASE_URL ++ endpoint) (with_token params) with
  | RequestFailed => VNone
  | Reply status_code json =>
      if (status_code =? 400)%Z then VNone
      else if (status_code =? 401)%Z then VNone
      else if (status_code =? 402)%Z then VNone
      else if (status_code =? 404)%Z then VNone
      else if (status_code =? 417)%Z then VNone
      else if negb (status_code =? 200)%Z then VNone
      else
        match json with
        | None => VNone
        | Some json_response =>
            let error_flag :=
              match json_response with
              | VDict d =>
                  match dict_get "error" d with
                  | Some e => truthy e
                  | None => false
                  end
              | _ => false
              end in
            if error_flag then VNone else route_response json_response
        end
  end.

End Transport.

(* ================================================================== *)
(** ** Tables *)
(* ================================================================== *)

(** A numeric cell: [None] is NaN. *)
Definition cell : Type := option Q.

(** A date-indexed table, row by row: [pd.DataFrame] with a datetime index
    and one column per ticker. *)
Record frame (C : Type) : Type := {
  tz_aware : bool;                 (* [df.index.tz is not None] *)
  columns : list string;
  rows : list (Z * list C)
}.

Arguments tz_aware {C} f.
Arguments columns {C} f.
Arguments rows {C} f.

(** [pd.DataFrame()] *)
Definition empty_frame {C} : frame C :=
  {| tz_aware := false; columns := []; rows := [] |}.

Definition index {C} (f : frame C) : list Z := map fst (rows f).

(** A metric-by-period table: the result of the statement fetchers. *)
Record MetricMatrix : Type := {
  mm_columns : list string;               (* period labels, ascending *)
  mm_rows : list (string * list cell)     (* metric label, one cell per period *)
}.

(** What a fetch function hands back: [None], one table, or a dict of
    tables by ticker. *)
Inductive fetched (F : Type) : Type :=
| Null
| Single (df : F)
| Mapping (results : list (string * F)).

Arguments Null {F}.
Arguments Single {F} df.
Arguments Mapping {F} results.

(** *** Numbers *)

(** [isinstance(value, (int, float))] and the number then held; Python's
    [bool] is a subclass of [int]. *)
Definition py_number (v : value) : option Q :=
  match v with
  | VBool b => Some (if b then 1 else 0)%Q
  | VInt z => Some (inject_Z z)
  | VFloat q => Some q
  | _ => None
  end.

(** *** Binary64 division

    Python's [/] on an [int] or a [float] gives the binary64 number nearest
    to the exact quotient, ties going to the even significand, and raises
    [OverflowError] when an [int] quotient lies beyond the finite range.  A
    binary64 number has 53 significant bits and is a multiple of 2^-1074. *)

(** [floor (log2 (a / d))] for positive [a] and [d]. *)
Definition floor_log2 (a d : Z) : Z :=
  let k := (Z.log2 a - Z.log2 d)%Z in
  let below := if (0 <=? k)%Z then (a <? d * 2 ^ k)%Z
               else (a * 2 ^ (- k) <? d)%Z in
  if below then (k - 1)%Z else k.

(** The integer nearest to [n / d] for positive [d], ties to the even one. *)
Definition round_half_even (n d : Z) : Z :=
  let q := (n / d)%Z in
  match (2 * (n mod d) ?= d)%Z with
  | Lt => q
  | Eq => if Z.even q then q else (q + 1)%Z
  | Gt => (q + 1)%Z
  end.

(** The largest finite binary64 is 2^1024 - 2^971; a magnitude of
    2^1024 - 2^970 or more rounds beyond it. *)
Definition binary64_overflow : Z := (2 ^ 1024 - 2 ^ 970)%Z.

(** The binary64 number nearest to a rational; [None] on overflow. *)
Definition binary64_nearest (q : Q) : option Q :=
  let a := Z.abs (Qnum q) in
  let d := Zpos (Qden q) in
  if (a =? 0)%Z then Some 0%Q
  else if (binary64_overflow * d <=? a)%Z then None
  else
    let e := Z.max (floor_log2 a d - 52) (-1074) in
    let r := if (0 <=? e)%Z
             then inject_Z (round_half_even a (d * 2 ^ e) * 2 ^ e)
             else Qmake (round_half_even (a * 2 ^ (- e)) d) (Z.to_pos (2 ^ (- e))) in
    Some (Qred (if (Qnum q <? 0)%Z then - r else r)).


(** [value / 1000 if isinstance(value, (int, float)) else value] *)
Definition per_thousand (v : value) : res value :=
  match py_number v with
  | Some q =>
      match binary64_nearest (q / 1000) with
      | Some r => Ok (VFloat r)
      | None => Raise OverflowError
      end
  | None => Ok v
  end.

(** One cell under [pd.to_numeric(..., errors='coerce')]. *)
Definition to_numeric_coerce {ext : Externals} (v : value) : cell :=
  match v with
  | VStr s => str_to_float s
  | _ => py_number v
  end.

(** *** Labels *)

Definition is_upper (c : ascii) : bool :=
  (65 <=? nat_of_ascii c)%nat && (nat_of_ascii c <=? 90)%nat.

Definition is_lower (c : ascii) : bool :=
  (97 <=? nat_of_ascii c)%nat && (nat_of_ascii c <=? 122)%nat.

Definition to_upper (c : ascii) : ascii :=
  if is_lower c then ascii_of_nat (nat_of_ascii c - 32) else c.

Definition to_lower (c : ascii) : ascii :=
  if is_upper c then ascii_of_nat (nat_of_ascii c + 32) else c.

(** Every character is an ASCII one. *)
Fixpoint is_ascii (s : string) : bool :=
  match s with
  | "" => true
  | String c rest => (nat_of_ascii c <? 128)%nat && is_ascii rest
  end.

(** [str.title()] on ASCII text: a letter after a non-letter is
    upper-cased, a letter after a letter lower-cased. *)
Fixpoint title_from (previous_is_cased : bool) (s : string) : string :=
  match s with
  | "" => ""
  | String c rest =>
      if is_upper c || is_lower c
      then String (if previous_is_cased then to_lower c else to_upper c)
                  (title_from true rest)
      else String c (title_from false rest)
  end.

Fixpoint replace_underscore (s : string) : string :=
  match s with
  | "" => ""
  | String c rest =>
      String (if Ascii.eqb c "_" then " "%char else c) (replace_underscore rest)
  end.

(** [idx.replace('_', ' ').title()] *)
Definition metric_label {ext : Externals} (idx : string) : string :=
  let spaced := replace_underscore idx in
  if is_ascii spaced then title_from false spaced else unicode_title spaced.

(** Labels in ascending order, each once: the union of the period labels
    after [sort_index(axis=1)]. *)
Fixpoint insert_label (x : string) (l : list string) : list string :=
  match l with
  | [] => [x]
  | y :: l' =>
      match String.compare x y with
      | Lt => x :: l
      | Eq => l
      | Gt => y :: insert_label x l'
      end
  end.

Definition sorted_labels (l : list string) : list string :=
  fold_right insert_label [] l.

(** The same for instants. *)
Fixpoint insert_date (x : Z) (l : list Z) : list Z :=
  match l with
  | [] => [x]
  | y :: l' =>
      match (x ?= y)%Z with
      | Lt => x :: l
      | Eq => l
      | Gt => y :: insert_date x l'
      end
  end.

Definition sorted_dates (l : list Z) : list Z :=
  fold_right insert_date [] l.

Fixpoint has_duplicates (l : list Z) : bool :=
  match l with
  | [] => false
  | x :: l' => existsb (Z.eqb x) l' || has_duplicates l'
  end.

(* ================================================================== *)
(** ** Ticker fan-out: [fetch_quote] *)
(* ================================================================== *)

(** [str(flag).lower()] for a [bool] flag. *)
Definition lower_str_of_bool (b : bool) : string :=
  if b then "true" else "false".

(** [results[key]] where [key] is an element of the caller's list. *)
Definition results_getitem {F} (results : list (string * F)) (key : value) : res F :=
  match key with
  | VStr k =>
      match dict_get k results with
      | Some df => Ok df
      | None => Raise KeyError
      end
  | VList _ | VDict _ => Raise TypeError        (* unhashable *)
  | _ => Raise KeyError
  end.

Section FetchQuote.
Context {ext : Externals}.

Variables (range interval : string) (fundamental dividends : bool) (modules : value).

Definition quote_params : list (string * value) :=
  let params := [("range", VStr range);
                 ("interval", VStr interval);
                 ("fundamental", VStr (lower_str_of_bool fundamental));
                 ("dividends", VStr (lower_str_of_bool dividends))] in
  if truthy modules then dict_set "modules" modules params else params.

(** One turn of [for ticker in tickers]. *)
Definition fetch_quote_step (results : list (string * QuoteFrame)) (ticker : value)
  : res (list (string * QuoteFrame)) :=
  match ticker with
  | VStr t =>
      let response := make_request ("api/quote/" ++ ticker_sa t) quote_params in
      if negb (truthy response) then Ok results
      else
        historical_data <-
          match response with
          | VDict _ => py_get response "historicalDataPrice" (VList [])
          | VList (first :: _) => py_get first "historicalDataPrice" (VList [])
          | _ => Ok VNone
          end ;;
        if truthy historical_data then
          df <- quote_frame response historical_data interval fundamental dividends ;;
          Ok (dict_set t df results)
        else Ok results
  | _ => Ok results                      (* "Skipping invalid ticker" *)
  end.

(** The body of the [try] block. *)
Definition fetch_quote_body (tickers : value) : res (fetched QuoteFrame) :=
  tickers <-
    match tickers with
    | VStr _ => Ok [tickers]
    | VList l | VTuple l => Ok l
    | _ => Raise ValueError
    end ;;
  results <- for_each fetch_quote_step tickers [] ;;
  if (1 <? length tickers)%nat then Ok (Mapping results)
  else
    match results with
    | [] => Ok Null
    | _ :: _ =>
        first <- py_first (VList tickers) ;;
        df <- results_getitem results first ;;
        Ok (Single df)
    end.

(** [fetch_quote(tickers, range, interval, fundamental, dividends, modules)] *)
Definition fetch_quote (tickers : value) : res (fetched QuoteFrame) :=
  try_except (fetch_quote_body tickers) Null.

End FetchQuote.

(* ================================================================== *)
(** ** Statement tabulation: the four statement fetchers *)
(* ================================================================== *)

(** ['endDate' in statement] *)
Definition py_contains_str (k : string) (v : value) : res bool :=
  match v with
  | VDict d => Ok (dict_mem k d)
  | VStr s => Ok (str_contains k s)
  | VList l | VTuple l =>
      Ok (existsb (fun x => match x with VStr s => s =? k | _ => false end) l)
  | _ => Raise TypeError
  end.

(** [if key not in data_dict: data_dict[key] = {}] then
    [data_dict[key][date] = v] *)
Definition record_cell (key date : string) (v : value)
    (data_dict : list (string * list (string * value)))
  : list (string * list (string * value)) :=
  let by_date := match dict_get key data_dict with
                 | Some by_date => by_date
                 | None => []
                 end in
  dict_set key (dict_set date v by_date) data_dict.

Section Statements.
Context {ext : Externals}.

(** The balance-sheet fetchers store [value / 1000]; the income-statement
    fetchers store [value]. *)
Variable thousands : bool.

Definition rescale (v : value) : res value :=
  if thousands then per_thousand v else Ok v.

(** One turn of [for key, value in statement.items()]. *)
Definition record_field (date : string)
    (data_dict : list (string * list (string * value))) (kv : string * value)
  : res (list (string * list (string * value))) :=
  if fst kv =? "endDate" then Ok data_dict
  else
    v <- rescale (snd kv) ;;
    Ok (record_cell (fst kv) date v data_dict).

(** [for key, value in statement.items()] *)
Definition record_statement (date : string) (fields : list (string * value))
    (data_dict : list (string * list (string * value)))
  : res (list (string * list (string * value))) :=
  for_each (record_field date) fields data_dict.

(** One turn of [for statement in balance_sheet_data]. *)
Definition pivot_statement (data_dict : list (string * list (string * value)))
    (statement : value) : res (list (string * list (string * value))) :=
  has_end_date <- py_contains_str "endDate" statement ;;
  if has_end_date then
    match statement with
    | VDict fields =>
        raw <- match dict_get "endDate" fields with
               | Some raw => Ok raw
               | None => Raise KeyError
               end ;;
        date <- end_date_label raw ;;
        record_statement date fields data_dict
    | _ => Raise TypeError          (* statement['endDate'] on a str or list *)
    end
  else Ok data_dict.

(** [pd.DataFrame(data_dict).transpose()], [apply(pd.to_numeric,
    errors='coerce')], [sort_index(axis=1)] and the relabelled index. *)
Definition tabulate (data_dict : list (string * list (string * value))) : MetricMatrix :=
  let dates := sorted_labels (flat_map (fun kv => dict_keys (snd kv)) data_dict) in
  {| mm_columns := dates;
     mm_rows :=
       map (fun kv =>
              (metric_label (fst kv),
               map (fun date =>
                      match dict_get date (snd kv) with
                      | Some v => to_numeric_coerce v
                      | None => None
                      end)
                   dates))
           data_dict |}.

Variables (module_key statements_key : string).

(** The statement sequence of a routed response:
    [response.get(module_key, {}).get(statements_key, [])]. *)
Definition statements_of (response : list (string * value)) : res value :=
  py_get (match dict_get module_key response with
          | Some history => history
          | None => VDict []
          end)
         statements_key (VList []).

(** One turn of [for ticker in tickers]. *)
Definition fetch_statements_step (results : list (string * MetricMatrix))
    (ticker : value) : res (list (string * MetricMatrix)) :=
  match ticker with
  | VStr t =>
      let response :=
        make_request ("api/quote/" ++ ticker_sa t)
                     [("fundamental", VStr "true"); ("modules", VStr module_key)] in
      if negb (truthy response) then Ok results
      else
        let response :=
          match response with
          | VList (first :: _) => first
          | VList [] => VDict []
          | _ => response
          end in
        match response with
        | VDict d =>
            statements <- statements_of d ;;
            if truthy statements then
              statements <- py_iter statements ;;
              data_dict <- for_each pivot_statement statements [] ;;
              Ok (dict_set t (tabulate data_dict) results)
            else Ok results
        | _ => Ok results
        end
  | _ => Ok results                      (* "Skipping invalid ticker" *)
  end.

Definition fetch_statements_body (tickers : value) : res (fetched MetricMatrix) :=
  tickers <-
    match tickers with
    | VStr _ => Ok [tickers]
    | VList l | VTuple l => Ok l
    | _ => Raise ValueError
    end ;;
  results <- for_each fetch_statements_step tickers [] ;;
  match results with
  | [] => Ok Null
  | _ :: _ => Ok (Mapping results)
  end.

Definition fetch_statements (tickers : value) : res (fetched MetricMatrix) :=
  try_except (fetch_statements_body tickers) Null.

End Statements.

Section StatementFetchers.
Context {ext : Externals}.

Definition fetch_balance_sheet_history :=
  fetch_statements true "balanceSheetHistory" "balanceSheetStatements".

Definition fetch_balance_sheet_history_quarterly :=
  fetch_statements true "balanceSheetHistoryQuarterly" "balanceSheetStatements".

Definition fetch_income_statement_history :=
  fetch_statements false "incomeStatementHistory" "incomeStatementHistory".

Definition fetch_income_statement_history_quarterly :=
  fetch_statements false "incomeStatementHistoryQuarterly" "incomeStatementHistory".

End StatementFetchers.

(* ================================================================== *)
(** ** Date-indexed tables: the pandas operations the wrapper relies on *)
(* ================================================================== *)

Fixpoint map_res {A B} (f : A -> res B) (l : list A) : res (list B) :=
  match l with
  | [] => Ok []
  | a :: l' => b <- f a ;; bs <- map_res f l' ;; Ok (b :: bs)
  end.

Section FrameOps.
Context {ext : Externals} {C : Type}.

(** The cell [missing] stands where a series has no value. *)
Variable missing : C.

Fixpoint series_get (d : Z) (s : list (Z * C)) : option C :=
  match s with
  | [] => None
  | (d', c) :: s' => if (d' =? d)%Z then Some c else series_get d s'
  end.

Definition same_index (i j : list Z) : bool :=
  if list_eq_dec Z.eq_dec i j then true else false.

(** Rows of series that share one index, position by position. *)
Fixpoint zip_rows (idx : list Z) (cells : list (list C)) : list (Z * list C) :=
  match idx with
  | [] => []
  | d :: idx' => (d, map (hd missing) cells) :: zip_rows idx' (map (@tl C) cells)
  end.

(** [index.union(other)] as the table constructor takes it: an empty or
    equal [other] leaves the index as it is, an empty index gives [other];
    two indexes without a repeated date give their dates in ascending
    order, each once. *)
Definition index_union (idx other : list Z) : list Z :=
  match other with
  | [] => idx
  | _ :: _ =>
      if same_index idx other then idx
      else
        match idx with
        | [] => other
        | _ :: _ =>
            if has_duplicates idx || has_duplicates other
            then union_with_repeats idx other
            else sorted_dates (idx ++ other)
        end
  end.

(** [series.reindex(idx)]: a series that already has the index is taken
    as it is; one without a repeated date is looked up date by date and is
    absent ([missing]) at the dates it lacks; any other cannot be
    reindexed. *)
Definition align_series (idx : list Z) (series : list (Z * C)) : res (list C) :=
  if same_index (map fst series) idx then Ok (map snd series)
  else if has_duplicates (map fst series) then Raise ValueError
  else Ok (map (fun d => match series_get d series with
                         | Some c => c
                         | None => missing
                         end)
               idx).

(** [pd.DataFrame(all_data)] for a dict of series whose indexes are all
    timezone-aware or all naive ([tz]): one column per key over the union
    of the indexes, taken from the first on, every series reindexed to
    it. *)
Definition frame_of_series (tz : bool) (all_data : list (string * list (Z * C)))
  : res (frame C) :=
  match map (fun kv => map fst (snd kv)) all_data with
  | [] => Ok empty_frame
  | first :: others =>
      let idx := fold_left index_union others first in
      cells <- map_res (align_series idx) (map snd all_data) ;;
      Ok {| tz_aware := tz;
            columns := dict_keys all_data;
            rows := zip_rows idx cells |}
  end.

(** Position of a column label. *)
Fixpoint column_position (name : string) (cols : list string) : option nat :=
  match cols with
  | [] => None
  | c :: cols' =>
      if c =? name then Some O
      else match column_position name cols' with
           | Some n => Some (S n)
           | None => None
           end
  end.

(** [df[names]]: the named columns in the order asked; a name the table
    lacks is a [KeyError]. *)
Fixpoint column_positions (names cols : list string) : res (list nat) :=
  match names with
  | [] => Ok []
  | n :: names' =>
      match column_position n cols with
      | Some p => ps <- column_positions names' cols ;; Ok (p :: ps)
      | None => Raise KeyError
      end
  end.

Definition select_columns (names : list string) (f : frame C) : res (frame C) :=
  ps <- column_positions names (columns f) ;;
  Ok {| tz_aware := tz_aware f;
        columns := names;
        rows := map (fun r => (fst r, map (fun p => nth p (snd r) missing) ps)) (rows f) |}.

(** [df.sort_index()]: rows by ascending date, equal dates in their
    former order. *)
Fixpoint insert_row (r : Z * list C) (l : list (Z * list C)) : list (Z * list C) :=
  match l with
  | [] => [r]
  | r' :: l' => if (fst r <? fst r')%Z then r :: l else r' :: insert_row r l'
  end.

Definition sort_index (f : frame C) : frame C :=
  {| tz_aware := tz_aware f;
     columns := columns f;
     rows := fold_right insert_row [] (rows f) |}.

(** The row that [method='ffill'] picks for a date: the last row of an
    ascending table dated at or before it. *)
Fixpoint pad_row (d : Z) (l : list (Z * list C)) : option (list C) :=
  match l with
  | [] => None
  | r :: l' =>
      if (fst r <=? d)%Z then
        match pad_row d l' with
        | Some later => Some later
        | None => Some (snd r)
        end
      else None
  end.

(** [df.reindex(target, method='ffill')] of an ascending table, [target]
    being a datetime index that is timezone-aware or not ([target_tz]):
    each target date takes the row picked by [pad_row], cells as they stand
    in that row; with no row at or before the date every cell is
    [missing].  An index with a repeated date can only be reindexed to
    itself, and a timezone-aware index cannot be compared with a naive
    one. *)
Definition reindex_ffill (target_tz : bool) (target : list Z) (f : frame C)
  : res (frame C) :=
  if has_duplicates (index f) then
    if Bool.eqb (tz_aware f) target_tz && same_index (index f) target then Ok f
    else Raise ValueError
  else if negb (Bool.eqb (tz_aware f) target_tz) then Raise TypeError
  else
    Ok {| tz_aware := target_tz;
          columns := columns f;
          rows :=
            map (fun d =>
                   (d, match pad_row d (rows f) with
                       | Some cells => cells
                       | None => map (fun _ => missing) (columns f)
                       end))
                target |}.

End FrameOps.

(* ================================================================== *)
(** ** Price series extraction: [fetch_quote_open] and its siblings *)
(* ================================================================== *)

Section PriceFields.
Context {ext : Externals}.

(** [_convert_to_float64(df)] *)
Definition _convert_to_float64 (df : frame value) : frame cell :=
  {| tz_aware := tz_aware df;
     columns := columns df;
     rows := map (fun r => (fst r, map to_numeric_coerce (snd r))) (rows df) |}.

Variables (field range interval : string).

(** One turn of [for ticker in tickers]. *)
Definition fetch_field_step (all_data : list (string * list (Z * value)))
    (ticker : value) : res (list (string * list (Z * value))) :=
  match ticker with
  | VStr t =>
      let response :=
        make_request ("api/quote/" ++ ticker_sa t)
                     [("range", VStr range); ("interval", VStr interval)] in
      if negb (truthy response) then Ok all_data
      else
        historical_data <-
          match response with
          | VDict _ =>
              results <- py_get response "results" (VList [VDict []]) ;;
              first <- py_first results ;;
              py_get first "historicalDataPrice" (VList [])
          | VList (first :: _) => py_get first "historicalDataPrice" (VList [])
          | _ => Ok VNone
          end ;;
        if truthy historical_data then
          series <- history_series field historical_data ;;
          Ok (dict_set t series all_data)
        else Ok all_data
  | _ => Raise AttributeError            (* ticker.replace on a non-str *)
  end.

Definition fetch_field_body (tickers : value) : res (fetched (frame cell)) :=
  tickers <-
    match tickers with
    | VStr _ => Ok [tickers]
    | _ => py_iter tickers
    end ;;
  all_data <- for_each fetch_field_step tickers [] ;;
  match all_data with
  | [] => Ok (Single empty_frame)
  | _ :: _ =>
      df <- frame_of_series VNone true all_data ;;   (* utc=True *)
      Ok (Single (_convert_to_float64 df))
  end.

Definition fetch_quote_field (tickers : value) : res (fetched (frame cell)) :=
  try_except (fetch_field_body tickers) (Single empty_frame).

End PriceFields.

Section PriceFetchers.
Context {ext : Externals}.

Definition fetch_quote_open := fetch_quote_field "open".
Definition fetch_quote_high := fetch_quote_field "high".
Definition fetch_quote_low := fetch_quote_field "low".
Definition fetch_quote_close := fetch_quote_field "close".
Definition fetch_quote_volume := fetch_quote_field "volume".

End PriceFetchers.

(* ================================================================== *)
(** ** Series alignment: [extract_common_stock_data] *)
(* ================================================================== *)

Definition possible_names : list string :=
  ["Commonstock"; "Common Stock"; "CommonStock"].

(** [bs_df.loc[stock_row]]: the cells of the one row so labelled.  A label
    carried by several rows selects a table, not a series, and the date
    conversion that follows fails on it. *)
Definition loc_row (label : string) (bs_df : MetricMatrix) : res (list cell) :=
  match filter (fun r => fst r =? label) (mm_rows bs_df) with
  | [r] => Ok (snd r)
  | _ => Raise PandasError
  end.

Section Align.
Context {ext : Externals}.

Variable stock_data_df : frame cell.

(** One turn of [for ticker, bs_df in bs_data_dict.items()]. *)
Definition common_stock_step (common_stock_data : list (string * list (Z * cell)))
    (entry : string * MetricMatrix) : res (list (string * list (Z * cell))) :=
  let ticker := fst entry in
  let bs_df := snd entry in
  let clean_ticker := replace_SA ticker in
  match find (fun name => existsb (fun r => fst r =? name) (mm_rows bs_df))
             possible_names with
  | None => Ok common_stock_data         (* "No common stock data found" *)
  | Some stock_row =>
      common_stock_series <- loc_row stock_row bs_df ;;
      dates <- map_res to_datetime (mm_columns bs_df) ;;
      first_column <- match columns stock_data_df with
                      | c :: _ => Ok c
                      | [] => Raise IndexError
                      end ;;
      let ticker_key :=
        if str_contains ".SA" first_column then (clean_ticker ++ ".SA")%string
        else clean_ticker in
      Ok (dict_set ticker_key (combine dates common_stock_series) common_stock_data)
  end.

Definition extract_common_stock_body (bs_data_dict : list (string * MetricMatrix))
  : res (frame cell) :=
  common_stock_data <- for_each common_stock_step bs_data_dict [] ;;
  match common_stock_data with
  | [] => Ok empty_frame
  | _ :: _ =>
      result_df <- frame_of_series None true common_stock_data ;;
      result_df <- select_columns None (columns stock_data_df) result_df ;;
      let result_df := sort_index result_df in
      reindex_ffill None (tz_aware stock_data_df) (index stock_data_df) result_df
  end.

(** [extract_common_stock_data(bs_data_dict, stock_data_df)] *)
Definition extract_common_stock_data (bs_data_dict : list (string * MetricMatrix))
  : res (frame cell) :=
  try_except (extract_common_stock_body bs_data_dict) empty_frame.

End Align.

(* ================================================================== *)
(** ** Vocabulary of the properties *)
(* ================================================================== *)

(** The keys of a returned mapping; a result that is no mapping has none. *)
Definition mapping_keys {F} (r : res (fetched F)) : list string :=
  match r with
  | Ok (Mapping results) => dict_keys results
  | _ => []
  end.

(** The tickers argument as the fetchers normalise it: a single string is
    a one-element list. *)
Definition given_tickers (tickers : value) : list value :=
  match tickers with
  | VStr _ => [tickers]
  | VList l | VTuple l => l
  | _ => []
  end.

(** The caller's collection with every string ticker canonicalised. *)
Definition canonical_tickers (tickers : list value) : list string :=
  flat_map (fun v => match v with VStr t => [ticker_sa t] | _ => [] end) tickers.

(** A call that returned [None] or one table. *)
Definition null_or_single {F} (r : res (fetched F)) : Prop :=
  match r with
  | Ok Null | Ok (Single _) => True
  | _ => False
  end.

(** A tickers argument that is neither a string nor a list or tuple. *)
Definition bad_tickers_type (tickers : value) : bool :=
  match tickers with
  | VStr _ | VList _ | VTuple _ => false
  | _ => true
  end.

(** The value recorded for a metric at a period, if any. *)
Definition cell_of (data_dict : list (string * list (string * value)))
    (key date : string) : option value :=
  match dict_get key data_dict with
  | Some by_date => dict_get date by_date
  | None => None
  end.



(** The record a statement fetcher reads for a ticker: the routed response,
    or its first element when it is a list. *)
Definition entity_record {ext : Externals} (module_key ticker : string) : value :=
  match make_request ("api/quote/" ++ ticker_sa ticker)
                     [("fundamental", VStr "true"); ("modules", VStr module_key)] with
  | VList (first :: _) => first
  | response => response
  end.


(** Forward fill as the specification words it: the value a sparse series
    holds at its latest date at or before [d]; nothing when the series
    starts after [d]. *)
Fixpoint latest_at_or_before {C} (d : Z) (series : list (Z * C)) : option (Z * C) :=
  match series with
  | [] => None
  | (d0, c) :: series' =>
      let later := latest_at_or_before d series' in
      if (d0 <=? d)%Z then
        match later with
        | Some (d1, c1) => if (d0 <? d1)%Z then Some (d1, c1) else Some (d0, c)
        | None => Some (d0, c)
        end
      else later
  end.

Definition forward_fill (reference : list Z) (series : list (Z * cell)) : list cell :=
  map (fun d => match latest_at_or_before d series with
                | Some (_, c) => c
                | None => None
                end)
      reference.

(** One column of a table, top to bottom. *)
Definition column {C} (missing : C) (name : string) (f : frame C) : list C :=
  match column_position name (columns f) with
  | Some p => map (fun r => nth p (snd r) missing) (rows f)
  | None => []
  end.


(** The cell of a row under a period label. *)
Fixpoint row_cell (date : string) (periods : list string) (cells : list cell)
  : option cell :=
  match periods, cells with
  | p :: periods', c :: cells' =>
      if p =? date then Some c else row_cell date periods' cells'
  | _, _ => None
  end.

(** Rows in ascending date order. *)
Definition ascending {C} (l : list (Z * list C)) : Prop :=
  StronglySorted (fun r r' => (fst r <= fst r')%Z) l.

(* ================================================================== *)
(** ** A sample provider, for concrete runs *)
(* ================================================================== *)

Module Sample.

(** Decimal digits, most significant first. *)
Definition digit_of (c : ascii) : option Z :=
  let n := nat_of_ascii c in
  if ((48 <=? n) && (n <=? 57))%nat then Some (Z.of_nat (n - 48)) else None.

Fixpoint digits_from (acc : Z) (s : string) : option Z :=
  match s with
  | "" => Some acc
  | String c rest =>
      match digit_of c with
      | Some d => digits_from (10 * acc + d) rest
      | None => None
      end
  end.

Definition digits (s : string) : option Z :=
  match s with
  | "" => None
  | _ => digits_from 0 s
  end.

(** Unsigned decimal integers only; pandas reads these the same way. *)
Definition read_unsigned (s : string) : option Q :=
  match digits s with
  | Some z => Some (inject_Z z)
  | None => None
  end.

(** ISO-8601 strings keep their first ten characters, [YYYY-MM-DD]. *)
Definition iso_day (v : value) : res string :=
  match v with
  | VStr s => if (10 <=? String.length s)%nat then Ok (substring 0 10 s)
              else Raise ValueError
  | _ => Raise TypeError
  end.

(** Days since 1970-01-01 of a proleptic Gregorian date. *)
Definition days_from_civil (y m d : Z) : Z :=
  let y := (if m <=? 2 then y - 1 else y)%Z in
  let era := (y / 400)%Z in
  let yoe := (y - era * 400)%Z in
  let doy := ((153 * (if m <=? 2 then m + 9 else m - 3) + 2) / 5 + d - 1)%Z in
  let doe := (yoe * 365 + yoe / 4 - yoe / 100 + doy)%Z in
  (era * 146097 + doe - 719468)%Z.

(** [YYYY-MM-DD] as seconds since the epoch, midnight UTC. *)
Definition iso_instant (label : string) : res Z :=
  match digits (substring 0 4 label),
        digits (substring 5 2 label),
        digits (substring 8 2 label) with
  | Some y, Some m, Some d =>
      if (String.length label =? 10)%nat then Ok (86400 * days_from_civil y m d)%Z
      else Raise ValueError
  | _, _, _ => Raise ValueError
  end.

(** The historical records themselves stand for the quote table. *)
Definition records_as_table (response historical_data : value) (interval : string)
    (fundamental dividends : bool) : res (list value) :=
  match historical_data with
  | VList records => Ok records
  | _ => Raise PandasError
  end.

Fixpoint insert_sorted (x : Z) (l : list Z) : list Z :=
  match l with
  | [] => [x]
  | y :: l' => if (x <=? y)%Z then x :: l else y :: insert_sorted x l'
  end.

(** Records that carry an integer [date]: the field's value by date. *)
Definition field_by_date (field : string) (historical_data : value)
  : res (list (Z * value)) :=
  match historical_data with
  | VList records =>
      map_res (fun r =>
                 match r with
                 | VDict d =>
                     match dict_get "date" d with
                     | Some (VInt z) =>
                         Ok (z, match dict_get field d with
                                | Some v => v
                                | None => VNone
                                end)
                     | _ => Raise KeyError
                     end
                 | _ => Raise PandasError
                 end)
              records
  | _ => Raise PandasError
  end.

(** The dates of the first index, then those of the second it lacks, in
    ascending order. *)
Definition merge_dates (idx other : list Z) : list Z :=
  fold_right insert_sorted []
    (idx ++ filter (fun d => negb (existsb (Z.eqb d) idx)) other).

Definition externals (server : string -> http_reply) : Externals :=
  {| API_KEY := None;
     http_get := fun url _ => server url;
     str_to_float := read_unsigned;
     end_date_label := iso_day;
     to_datetime := iso_instant;
     QuoteFrame := list value;
     quote_frame := records_as_table;
     history_series := field_by_date;
     unicode_title := fun s => s;
     union_with_repeats := merge_dates |}.

(** One quote result as the provider sends it: a [results] envelope around
    a single record with prices and balance-sheet statements. *)
Definition quote_payload (statements : list value) : value :=
  VDict
    [("results",
      VList
        [VDict
           [("balanceSheetHistory",
             VDict [("balanceSheetStatements", VList statements)]);
            ("historicalDataPrice",
             VList [VDict [("date", VInt 1704067200);
                           ("open", VFloat 10);
                           ("close", VFloat 11)]])]]);
     ("requestedAt", VStr "2024-01-02T10:00:00.000Z")].

Definition one_statement : value :=
  VDict [("endDate", VStr "2023-12-31T00:00:00.000Z");
         ("cash", VInt 5000);
         ("auditor", VStr "N/A")].

(** PETR4 and VALE3 have one statement, EMPT3 has none, anything else
    is unknown to the provider. *)
Definition server (url : string) : http_reply :=
  if (url =? "https://brapi.dev/api/quote/PETR4.SA")
     || (url =? "https://brapi.dev/api/quote/VALE3.SA")
  then Reply 200 (Some (quote_payload [one_statement]))
  else if url =? "https://brapi.dev/api/quote/EMPT3.SA"
  then Reply 200 (Some (quote_payload []))
  else Reply 404 None.

Definition online : Externals := externals server.

(** A provider that cannot be reached. *)
Definition offline : Externals := externals (fun _ => RequestFailed).

(** Reference dates 2024-01-01, 2024-01-02, 2024-01-03, in a
    timezone-aware index as the price extractors build it. *)
Definition d1 : Z := 1704067200.
Definition d2 : Z := 1704153600.
Definition d3 : Z := 1704240000.

Definition reference (tickers : list string) : frame cell :=
  {| tz_aware := true;
     columns := tickers;
     rows := map (fun d => (d, map (fun _ => Some 1%Q) tickers)) [d1; d2; d3] |}.

(** The same dates in a naive index, as [fetch_quote] builds it. *)
Definition naive_reference (tickers : list string) : frame cell :=
  {| tz_aware := false;
     columns := tickers;
     rows := map (fun d => (d, map (fun _ => Some 1%Q) tickers)) [d1; d2; d3] |}.

(** A balance sheet whose only row is the common stock at one date. *)
Definition common_stock_at (date : string) (amount : Q) : MetricMatrix :=
  {| mm_columns := [date]; mm_rows := [("Common Stock", [Some amount])] |}.

End Sample.

(** A provider with unusual balance sheets. *)
Module SampleOdd.

Definition statement_with_cash (cash : Z) : value :=
  VDict [("endDate", VStr "2023-12-31T00:00:00.000Z"); ("cash", VInt cash)].

Definition price_payload (records : list value) : value :=
  VDict [("results", VList [VDict [("historicalDataPrice", VList records)]])].

Definition price_record (date open : Z) : value :=
  VDict [("date", VInt date); ("open", VInt open)].

(** WIDE3's cash needs 54 bits; HUGE3's is 10^400; ODD3 has a number
    where a statement record should be; TWICE3 has two prices at one
    instant, ONCE3 one. *)
Definition server (url : string) : http_reply :=
  if url =? "https://brapi.dev/api/quote/TWICE3.SA"
  then Reply 200 (Some (price_payload [price_record 1704067200 1;
                                       price_record 1704067200 2]))
  else if url =? "https://brapi.dev/api/quote/ONCE3.SA"
  then Reply 200 (Some (price_payload [price_record 1704067200 3]))
  else if url =? "https://brapi.dev/api/quote/WIDE3.SA"
  then Reply 200 (Some (Sample.quote_payload [statement_with_cash 9007199254740993]))
  else if url =? "https://brapi.dev/api/quote/HUGE3.SA"
  then Reply 200 (Some (Sample.quote_payload [statement_with_cash (10 ^ 400)]))
  else if url =? "https://brapi.dev/api/quote/ODD3.SA"
  then Reply 200 (Some (Sample.quote_payload [VInt 7]))
  else Reply 404 None.

Definition online : Externals := Sample.externals server.

End SampleOdd.

(* ================================================================== *)
(** ** Profile tables: key statistics, financial data, company profile *)
(* ================================================================== *)

(** [pd.DataFrame(all_stats)] after [set_index('ticker')]: one row per
    collected record, indexed by the record's [ticker] entry; a record
    without a column's key has a missing cell there. *)
Record RecordTable (C : Type) : Type := {
  rt_index : list value;
  rt_columns : list string;
  rt_rows : list (list C)
}.

Arguments rt_index {C} r.
Arguments rt_columns {C} r.
Arguments rt_rows {C} r.

(** [stats['ticker'] = ticker]: only a dict takes a string key. *)
Definition set_ticker (stats : value) (ticker : string) : res (list (string * value)) :=
  match stats with
  | VDict d => Ok (dict_set "ticker" (VStr ticker) d)
  | _ => Raise TypeError
  end.

(** Column labels of a table built from records: their keys in order of
    first appearance. *)
Definition add_key (acc : list string) (k : string) : list string :=
  if existsb (String.eqb k) acc then acc else acc ++ [k].

Definition union_keys (records : list (list (string * value))) : list string :=
  fold_left (fun acc d => fold_left add_key (dict_keys d) acc) records [].

(** [df = pd.DataFrame(all_stats)]; [df.set_index('ticker', inplace=True)] *)
Definition records_by_ticker (all_stats : list (list (string * value)))
  : res (RecordTable (option value)) :=
  let labels := union_keys all_stats in
  if existsb (String.eqb "ticker") labels then
    let cols := filter (fun c => negb (c =? "ticker")) labels in
    Ok {| rt_index := map (fun d => match dict_get "ticker" d with
                                    | Some t => t
                                    | None => VNone
                                    end) all_stats;
          rt_columns := cols;
          rt_rows := map (fun d => map (fun c => dict_get c d) cols) all_stats |}
  else Raise KeyError.

(** [for col in df.columns: df[col] = pd.to_numeric(df[col], errors='coerce')] *)
Definition numeric_columns {ext : Externals} (df : RecordTable (option value))
  : RecordTable cell :=
  {| rt_index := rt_index df;
     rt_columns := rt_columns df;
     rt_rows := map (map (fun c => match c with
                                   | Some v => to_numeric_coerce v
                                   | None => None
                                   end))
                    (rt_rows df) |}.

Section Profiles.
Context {ext : Externals}.

Variable T : Type.
(** What the fetcher does to the indexed table before returning it. *)
Variable finish : RecordTable (option value) -> T.
Variable module_key : string.

(** One turn of [for ticker in tickers]. *)
Definition fetch_profiles_step (all_stats : list (list (string * value)))
    (ticker : value) : res (list (list (string * value))) :=
  match ticker with
  | VStr t =>
      let response :=
        make_request ("api/quote/" ++ ticker_sa t)
                     [("fundamental", VStr "true"); ("modules", VStr module_key)] in
      if negb (truthy response) then Ok all_stats
      else
        let response :=
          match response with
          | VList (first :: _) => first
          | VList [] => VDict []
          | _ => response
          end in
        match response with
        | VDict d =>
            let stats := match dict_get module_key d with
                         | Some stats => stats
                         | None => VDict []
                         end in
            if truthy stats then
              stats <- set_ticker stats t ;;
              Ok (all_stats ++ [stats])
            else Ok all_stats
        | _ => Ok all_stats
        end
  | _ => Ok all_stats                    (* "Skipping invalid ticker" *)
  end.

Definition fetch_profiles_body (tickers : value) : res (fetched T) :=
  tickers <-
    match tickers with
    | VStr _ => Ok [tickers]
    | VList l | VTuple l => Ok l
    | _ => Raise ValueError
    end ;;
  all_stats <- for_each fetch_profiles_step tickers [] ;;
  match all_stats with
  | [] => Ok Null
  | _ :: _ =>
      df <- records_by_ticker all_stats ;;
      Ok (Single (finish df))
  end.

Definition fetch_profiles (tickers : value) : res (fetched T) :=
  try_except (fetch_profiles_body tickers) Null.

End Profiles.

Section ProfileFetchers.
Context {ext : Externals}.

Definition fetch_default_key_statistics :=
  fetch_profiles (RecordTable cell) numeric_columns "defaultKeyStatistics".

Definition fetch_financial_data :=
  fetch_profiles (RecordTable cell) numeric_columns "financialData".

Definition fetch_summary_profile :=
  fetch_profiles (RecordTable (option value)) (fun df => df) "summaryProfile".

End ProfileFetchers.

(* ================================================================== *)
(** ** Listings and exchange rates *)
(* ================================================================== *)

(** The tables these functions build straight from a response; their
    contents are pandas' own. *)
Class Pandas : Type := {
  Table : Type;
  (** [pd.DataFrame()] *)
  empty_table : Table;
  (** [pd.DataFrame(response)] *)
  records_table : value -> res Table;
  (** [df.columns] *)
  table_columns : Table -> list string;
  (** [fetch_available_tickers]: the column selection and renaming, the
      numeric conversion, the sort by [stock] and the index reset, on a
      table that has a [stock] column *)
  tidy_listing : Table -> res Table
}.

(** [if option: params[key] = option] *)
Definition add_if_truthy (key : string) (option : value)
    (params : list (string * value)) : list (string * value) :=
  if truthy option then dict_set key option params else params.

Section Listings.
Context {ext : Externals} {pd : Pandas}.

Definition quote_list_params (search sortBy sortOrder limit sector : value)
  : list (string * value) :=
  add_if_truthy "sector" sector
    (add_if_truthy "limit" limit
       (add_if_truthy "sortOrder" sortOrder
          (add_if_truthy "sortBy" sortBy
             (add_if_truthy "search" search [])))).

(** [fetch_quote_list(search, sortBy, sortOrder, limit, sector)]; the
    result is the dict [{'stocks': df}]. *)
Definition fetch_quote_list (search sortBy sortOrder limit sector : value)
  : res (list (string * Table)) :=
  try_except
    (let response :=
       make_request "api/quote/list"
                    (quote_list_params search sortBy sortOrder limit sector) in
     if truthy response then
       df <- records_table response ;;
       Ok [("stocks", df)]
     else Ok [("stocks", empty_table)])
    [("stocks", empty_table)].

(** [fetch_available_tickers(search)] *)
Definition fetch_available_tickers (search : value) : res Table :=
  try_except
    (let response :=
       make_request "/api/quote/list" (add_if_truthy "search" search []) in
     if truthy response && is_list response then
       df <- records_table response ;;
       if existsb (String.eqb "stock") (table_columns df)
       then tidy_listing df
       else Raise KeyError                 (* df.sort_values('stock') *)
     else Ok empty_table)
    empty_table.

(** The shared body of [fetch_currency] and [fetch_crypto].  When the
    table has a [date] column the code calls [.strftime] on the series
    that [pd.to_datetime] returns; a series has no such method, so that
    branch raises (if the parsing did not raise before). *)
Definition fetch_rates (endpoint : string) (params : list (string * value))
  : res (option Table) :=
  try_except
    (let response := make_request endpoint params in
     if truthy response && is_list response then
       df <- records_table response ;;
       if existsb (String.eqb "date") (table_columns df)
       then Raise AttributeError
       else Ok (Some df)
     else Ok None)
    None.

(** [fetch_currency(currencies, token)] *)
Definition fetch_currency (currencies token : value) : res (option Table) :=
  fetch_rates "/api/v2/currency"
              (add_if_truthy "token" token [("currency", currencies)]).

(** [fetch_crypto(coins, currency)] *)
Definition fetch_crypto (coins currency : value) : res (option Table) :=
  fetch_rates "/api/v2/crypto" [("coin", coins); ("currency", currency)].

(** [get_available_currencies(search)] and its siblings: no handler of
    their own around [make_request]. *)
Definition get_available_currencies (search : value) : value :=
  make_request "api/v2/currency/available" (add_if_truthy "search" search []).

Definition get_available_cryptos (search : value) : value :=
  make_request "api/v2/crypto/available" (add_if_truthy "search" search []).

Definition get_available_countries (search : value) : value :=
  make_request "api/v2/inflation/available" (add_if_truthy "search" search []).

End Listings.

(* ================================================================== *)
(** ** Vocabulary of the further properties *)
(* ================================================================== *)

(** The table a ticker's own turn of a statement loop produces, if it
    produces one. *)
Definition own_table {ext : Externals} (thousands : bool)
    (module_key statements_key : string) (t : string) : option MetricMatrix :=
  match fetch_statements_step thousands module_key statements_key [] (VStr t) with
  | Ok ((_, df) :: _) => Some df
  | _ => None
  end.

(** The value is the string [t]. *)
Definition is_ticker (t : string) (v : value) : bool :=
  match v with
  | VStr s => s =? t
  | _ => false
  end.

(** Period labels in strictly ascending order. *)
Definition label_lt (a b : string) : Prop := String.compare a b = Lt.

(** The column name under which [extract_common_stock_data] files a
    ticker's series: with or without [.SA] as the first column of the
    reference table has it or not. *)
Definition reconciled_key (stock_data_df : frame cell) (ticker : string) : string :=
  match columns stock_data_df with
  | first_column :: _ =>
      if str_contains ".SA" first_column then (replace_SA ticker ++ ".SA")%string
      else replace_SA ticker
  | [] => replace_SA ticker
  end.



(* ================================================================== *)
(** ** More of the sample provider *)
(* ================================================================== *)

Module SampleMore.

(** A provider that wants the configured key as [token]. *)
Definition guarded (url : string) (params : list (string * value)) : http_reply :=
  match dict_get "token" params with
  | Some (VStr "k3y") => Sample.server url
  | _ => Reply 401 None
  end.

Definition keyed : Externals :=
  {| API_KEY := Some "k3y";
     http_get := guarded;
     str_to_float := Sample.read_unsigned;
     end_date_label := Sample.iso_day;
     to_datetime := Sample.iso_instant;
     QuoteFrame := list value;
     quote_frame := Sample.records_as_table;
     history_series := Sample.field_by_date;
     unicode_title := fun s => s;
     union_with_repeats := Sample.merge_dates |}.

(** Profiles for PETR4 and VALE3, a listing, exchange rates without a date
    and coin prices with one. *)
Definition profile_payload (sector : string) : value :=
  VDict [("results",
          VList [VDict [("summaryProfile", VDict [("sector", VStr sector)]);
                        ("defaultKeyStatistics",
                         VDict [("beta", VInt 2); ("note", VStr "n/a")])]])].

Definition server (url : string) : http_reply :=
  if url =? "https://brapi.dev/api/quote/PETR4.SA"
  then Reply 200 (Some (profile_payload "Energy"))
  else if url =? "https://brapi.dev/api/quote/VALE3.SA"
  then Reply 200 (Some (profile_payload "Mining"))
  else if (url =? "https://brapi.dev/api/quote/list")
          || (url =? "https://brapi.dev//api/quote/list")
  then Reply 200 (Some (VDict [("stocks",
                                VList [VDict [("stock", VStr "PETR4");
                                              ("close", VInt 10)]])]))
  else if url =? "https://brapi.dev//api/v2/currency"
  then Reply 200 (Some (VDict [("currency",
                                VList [VDict [("fromCurrency", VStr "USD");
                                              ("bidPrice", VStr "5")]])]))
  else if url =? "https://brapi.dev//api/v2/crypto"
  then Reply 200 (Some (VDict [("coins",
                                VList [VDict [("coin", VStr "BTC");
                                              ("date", VStr "2024-01-01")]])]))
  else Reply 404 None.

Definition online : Externals := Sample.externals server.

(** Tables as the list of their records. *)
Definition as_records (response : value) : res (list (list (string * value))) :=
  match response with
  | VList records =>
      map_res (fun r => match r with
                        | VDict d => Ok d
                        | _ => Raise PandasError
                        end)
              records
  | _ => Raise ValueError
  end.

Definition pandas : Pandas :=
  {| Table := list (list (string * value));
     empty_table := [];
     records_table := as_records;
     table_columns := union_keys;
     tidy_listing := fun df => Ok df |}.

End SampleMore.

(* ================================================================== *)
(** * Properties *)
(* ================================================================== *)

(** ** Dictionaries and loops *)

Section DictFacts.
Context {V : Type}.

Lemma dict_get_set_same (k : string) (v : V) (d : list (string * V)) :
  dict_get k (dict_set k v d) = Some v.
Proof.
  induction d as [|[k' v'] d IH]; simpl.
  - now rewrite String.eqb_refl.
  - destruct (k' =? k) eqn:E; simpl; rewrite E; auto.
Qed.

Lemma dict_get_set_other (k k' : string) (v : V) (d : list (string * V)) :
  k' <> k -> dict_get k' (dict_set k v d) = dict_get k' d.
Proof.
  intros Hne.
  induction d as [|[k0 v0] d IH]; simpl.
  - apply String.eqb_neq in Hne. rewrite String.eqb_sym. now rewrite Hne.
  - destruct (k0 =? k) eqn:E; simpl.
    + apply String.eqb_eq in E; subst k0.
      assert (Hf : (k =? k') = false)
        by (apply String.eqb_neq; congruence).
      now rewrite Hf.
    + destruct (k0 =? k'); auto.
Qed.

Lemma dict_keys_set (k k' : string) (v : V) (d : list (string * V)) :
  In k' (dict_keys (dict_set k v d)) -> k' = k \/ In k' (dict_keys d).
Proof.
  unfold dict_keys.
  induction d as [|[k0 v0] d IH]; simpl.
  - intros [H|[]]; auto.
  - destruct (k0 =? k) eqn:E; simpl.
    + intros [H|H]; auto.
    + intros [H|H]; auto. destruct (IH H); auto.
Qed.

Lemma dict_get_in_keys (k : string) (v : V) (d : list (string * V)) :
  dict_get k d = Some v -> In k (dict_keys d).
Proof.
  unfold dict_keys.
  induction d as [|[k0 v0] d IH]; simpl; [discriminate|].
  destruct (k0 =? k) eqn:E.
  - apply String.eqb_eq in E. auto.
  - auto.
Qed.

Lemma dict_set_not_nil (k : string) (v : V) (d : list (string * V)) :
  dict_set k v d <> [].
Proof.
  destruct d as [|[k0 v0] d]; simpl; [discriminate|].
  destruct (k0 =? k); discriminate.
Qed.

End DictFacts.

(** A property of the accumulator that every turn of the loop keeps holds
    when the loop ends. *)
Lemma for_each_invariant {A S} (P : S -> Prop) (body : S -> A -> res S)
    (xs : list A) :
  (forall s x s', In x xs -> P s -> body s x = Ok s' -> P s') ->
  forall s s', P s -> for_each body xs s = Ok s' -> P s'.
Proof.
  induction xs as [|x xs IH]; simpl; intros Hstep s s' Hs Hrun.
  - now inversion Hrun; subst.
  - destruct (body s x) as [s1|e] eqn:E; simpl in Hrun; [|discriminate].
    apply IH with (s := s1); eauto.
Qed.

Lemma for_each_app {A S} (body : S -> A -> res S) (xs ys : list A) (s : S) :
  for_each body (xs ++ ys) s = bind (for_each body xs s) (for_each body ys).
Proof.
  revert s. induction xs as [|x xs IH]; intros s; cbn [for_each app bind]; [reflexivity|].
  destruct (body s x) as [s1|e]; cbn [bind]; [apply IH | reflexivity].
Qed.

(** A turn that changes nothing can be left out. *)
Lemma for_each_filter {A S} (body : S -> A -> res S) (keep : A -> bool) (xs : list A) :
  (forall s x, keep x = false -> body s x = Ok s) ->
  forall s, for_each body xs s = for_each body (filter keep xs) s.
Proof.
  intros Hskip. induction xs as [|x xs IH]; intros s; cbn [for_each filter]; [reflexivity|].
  destruct (keep x) eqn:E.
  - cbn [for_each]. destruct (body s x); cbn [bind]; [apply IH | reflexivity].
  - rewrite (Hskip s x E). cbn [bind]. apply IH.
Qed.

(** A turn that raises ends the loop with that exception. *)
Lemma for_each_raises {A S} (body : S -> A -> res S) (xs : list A) (x : A) :
  In x xs ->
  (forall s, exists e, body s x = Raise e) ->
  forall s, exists e, for_each body xs s = Raise e.
Proof.
  induction xs as [|y xs IH]; simpl; intros Hin Hx s; [contradiction|].
  destruct (body s y) as [s1|e] eqn:E; simpl.
  - destruct Hin as [->|Hin].
    + destruct (Hx s) as [e He]. congruence.
    + now apply IH.
  - eauto.
Qed.

(** ** Envelope router *)

(** C1.  For every payload the routing tail of [make_request] returns what
    the specification describes: for an object, the value of the first
    present key among [results], [stocks], [currency], [inflation],
    [prime-rate], [coins], or the object itself when none is present; a
    payload that is not an object comes back unchanged. *)
Theorem route_response_first_present_candidate :
  forall payload : value, route_response payload = route_by_priority payload.
Proof.
  intros [ | b | z | q | s | l | l | d]; try reflexivity.
  unfold route_response, route_by_priority, first_present, candidate_keys, dict_mem.
  cbn [find].
  destruct (dict_get "results" d) eqn:E1; [now rewrite E1|].
  destruct (dict_get "stocks" d) eqn:E2; [now rewrite E2|].
  destruct (dict_get "currency" d) eqn:E3; [now rewrite E3|].
  destruct (dict_get "inflation" d) eqn:E4; [now rewrite E4|].
  destruct (dict_get "prime-rate" d) eqn:E5; [now rewrite E5|].
  destruct (dict_get "coins" d) eqn:E6; [now rewrite E6|].
  reflexivity.
Qed.

(** The router is what a successful, error-free reply goes through. *)
Lemma make_request_routes {ext : Externals} (endpoint : string)
    (params : list (string * value)) (payload : value) :
  http_get (BASE_URL ++ endpoint) (with_token params) = Reply 200 (Some payload) ->
  (forall d e, payload = VDict d -> dict_get "error" d = Some e -> truthy e = false) ->
  make_request endpoint params = route_response payload.
Proof.
  intros Hget Herr. unfold make_request. rewrite Hget. cbn.
  destruct payload as [ | b | z | q | s | l | l | d]; try reflexivity.
  destruct (dict_get "error" d) as [e|] eqn:E; [|reflexivity].
  now rewrite (Herr d e eq_refl E).
Qed.

(** The scenarios of the specification. *)
Example route_results (records : list value) :
  route_response (VDict [("results", VList records)]) = VList records.
Proof. reflexivity. Qed.

Example route_coins (records : list value) :
  route_response (VDict [("coins", VList records)]) = VList records.
Proof. reflexivity. Qed.

Example route_unrelated :
  route_response (VDict [("unrelated", VInt 1)]) = VDict [("unrelated", VInt 1)].
Proof. reflexivity. Qed.

Example route_priority :
  route_response (VDict [("coins", VInt 1); ("stocks", VInt 2)]) = VInt 2.
Proof. reflexivity. Qed.

(** ** Ticker canonicalisation *)

Lemma replace_SA_cons3 (c1 c2 c3 : ascii) (rest : string) :
  replace_SA (String c1 (String c2 (String c3 rest))) =
  if is_dot_S_A c1 c2 c3 then replace_SA rest
  else String c1 (replace_SA (String c2 (String c3 rest))).
Proof. reflexivity. Qed.

(** Appending [.SA] creates no occurrence that straddles the seam, so the
    scan removes the appended suffix and treats the rest as before. *)
Lemma replace_SA_app_suffix (r : string) :
  replace_SA (r ++ ".SA") = replace_SA r.
Proof.
  remember (String.length r) as n eqn:Hn.
  revert r Hn.
  induction n as [n IH] using lt_wf_ind.
  intros [|c1 [|c2 [|c3 rest]]] Hn.
  - reflexivity.
  - cbn. unfold is_dot_S_A. cbn. now rewrite andb_false_r.
  - cbn. unfold is_dot_S_A. cbn. now rewrite !andb_false_r.
  - change ((String c1 (String c2 (String c3 rest)) ++ ".SA")%string)
      with (String c1 (String c2 (String c3 (rest ++ ".SA")))).
    rewrite !replace_SA_cons3.
    destruct (is_dot_S_A c1 c2 c3).
    + apply (IH (String.length rest)); [subst n; simpl; lia | reflexivity].
    + f_equal.
      change (String c2 (String c3 (rest ++ ".SA")))
        with ((String c2 (String c3 rest) ++ ".SA")%string).
      apply (IH (String.length (String c2 (String c3 rest))));
        [subst n; simpl; lia | reflexivity].
Qed.

Lemma prefix_cons (a b : ascii) (s1 s2 : string) :
  prefix (String a s1) (String b s2) = if ascii_dec a b then prefix s1 s2 else false.
Proof. reflexivity. Qed.

Lemma prefix_SA_cons3 (c1 c2 c3 : ascii) (rest : string) :
  prefix ".SA" (String c1 (String c2 (String c3 rest))) = is_dot_S_A c1 c2 c3.
Proof.
  unfold is_dot_S_A. rewrite !prefix_cons.
  destruct (ascii_dec "." c1) as [<-|H1].
  - rewrite Ascii.eqb_refl.
    destruct (ascii_dec "S" c2) as [<-|H2].
    + rewrite Ascii.eqb_refl.
      destruct (ascii_dec "A" c3) as [<-|H3].
      * rewrite Ascii.eqb_refl. now destruct rest.
      * assert (E : Ascii.eqb c3 "A" = false) by (apply Ascii.eqb_neq; congruence).
        now rewrite E.
    + assert (E : Ascii.eqb c2 "S" = false) by (apply Ascii.eqb_neq; congruence).
      now rewrite E.
  - assert (E : Ascii.eqb c1 "." = false) by (apply Ascii.eqb_neq; congruence).
    now rewrite E.
Qed.

(** A string without [.SA] inside is left as it is. *)
Lemma replace_SA_without_occurrence (s : string) :
  str_contains ".SA" s = false -> replace_SA s = s.
Proof.
  induction s as [|c1 rest IH]; [reflexivity|].
  intros H. cbn [str_contains] in H.
  apply orb_false_elim in H. destruct H as [Hp Hrest].
  specialize (IH Hrest).
  destruct rest as [|c2 [|c3 rest3]].
  - reflexivity.
  - reflexivity.
  - rewrite replace_SA_cons3. rewrite prefix_SA_cons3 in Hp. rewrite Hp.
    now rewrite IH.
Qed.

Lemma length_append (a b : string) :
  String.length (a ++ b) = (String.length a + String.length b)%nat.
Proof. induction a as [|x a IH]; cbn; [reflexivity | now rewrite IH]. Qed.

Lemma append_inv_tail (a b c : string) : (a ++ c = b ++ c)%string -> a = b.
Proof.
  revert b. induction a as [|x a IH]; intros [|y b] H; cbn in H.
  - reflexivity.
  - exfalso. apply (f_equal String.length) in H. cbn in H.
    rewrite length_append in H. lia.
  - exfalso. apply (f_equal String.length) in H. cbn in H.
    rewrite length_append in H. lia.
  - inversion H; subst. f_equal. now apply IH.
Qed.

(** Canonicalising twice changes nothing exactly when the first scan left
    nothing for a second scan to remove. *)
Lemma ticker_sa_idempotent_iff (t : string) :
  ticker_sa (ticker_sa t) = ticker_sa t <-> replace_SA (replace_SA t) = replace_SA t.
Proof.
  unfold ticker_sa. rewrite replace_SA_app_suffix. split.
  - apply append_inv_tail.
  - now intros ->.
Qed.

Lemma ticker_sa_idempotent_when_clean (t : string) :
  str_contains ".SA" (replace_SA t) = false ->
  ticker_sa (ticker_sa t) = ticker_sa t.
Proof.
  intros H. apply ticker_sa_idempotent_iff.
  now apply replace_SA_without_occurrence.
Qed.

Example ticker_sa_plain : ticker_sa "PETR4" = "PETR4.SA".
Proof. reflexivity. Qed.

Example ticker_sa_suffixed : ticker_sa "PETR4.SA" = "PETR4.SA".
Proof. reflexivity. Qed.

(** The rule the specification words (suffix only) is idempotent on every
    string. *)
Lemma removesuffix_SA_app (r : string) : removesuffix_SA (r ++ ".SA") = r.
Proof.
  induction r as [|c r IH]; [reflexivity|].
  cbn [append removesuffix_SA].
  assert (H : (String c (r ++ ".SA") =? ".SA") = false).
  { apply String.eqb_neq. intros E. apply (f_equal String.length) in E.
    cbn in E. rewrite length_append in E. cbn in E. lia. }
  rewrite H. now rewrite IH.
Qed.

Lemma canonical_by_suffix_idempotent (t : string) :
  canonical_by_suffix (canonical_by_suffix t) = canonical_by_suffix t.
Proof.
  unfold canonical_by_suffix. now rewrite removesuffix_SA_app.
Qed.

(** The code removes every occurrence, not the suffix alone. *)
Example ticker_sa_inner_occurrence :
  ticker_sa "A.SAB" = "AB.SA" /\ canonical_by_suffix "A.SAB" = "A.SAB.SA".
Proof. split; reflexivity. Qed.

(** C9 (the code departs from the claim).  On the ticker [A..SASA] the
    code's canonicalisation is not idempotent: removing the inner [.SA]
    leaves [A.SA], so one pass gives [A.SA.SA] and a second pass gives
    [A.SA]. *)
Theorem ticker_sa_not_idempotent_on_nested_suffix :
  ticker_sa "A..SASA" = "A.SA.SA" /\
  ticker_sa (ticker_sa "A..SASA") = "A.SA" /\
  ticker_sa (ticker_sa "A..SASA") <> ticker_sa "A..SASA".
Proof.
  repeat split; try reflexivity. cbv. discriminate.
Qed.

(** ** Ticker fan-out *)

Section FanOut.
Context {ext : Externals}.

Variables (range interval : string) (fundamental dividends : bool) (modules : value).

Local Abbreviation quote_step := (fetch_quote_step range interval fundamental dividends modules).
Local Abbreviation quote_body := (fetch_quote_body range interval fundamental dividends modules).
Local Abbreviation quote := (fetch_quote range interval fundamental dividends modules).

(** The type check raises inside the [try] block, and the handler of that
    block turns the exception into [None]. *)
Lemma fetch_quote_swallows_type_error (tickers : value) :
  bad_tickers_type tickers = true ->
  quote_body tickers = Raise ValueError /\ quote tickers = Ok Null.
Proof.
  unfold fetch_quote, fetch_quote_body.
  destruct tickers; cbn; intros H; try discriminate; auto.
Qed.

(** A turn of the quote loop leaves the dict alone or sets the entry of
    the ticker as the caller spelled it. *)
Lemma fetch_quote_step_effect (results results' : list (string * QuoteFrame))
    (ticker : value) :
  quote_step results ticker = Ok results' ->
  results' = results \/
  exists t df, ticker = VStr t /\ results' = dict_set t df results.
Proof.
  unfold fetch_quote_step.
  destruct ticker as [ | b | z | q | t | l | l | d];
    try (intros H; inversion H; now left).
  destruct (negb (truthy _)); [intros H; inversion H; now left|].
  match goal with |- (bind ?c _) = _ -> _ => destruct c as [h|e] end;
    cbn [bind]; [|discriminate].
  destruct (truthy h); [|intros H; inversion H; now left].
  destruct (quote_frame _ _ _ _ _) as [df|e]; cbn [bind]; [|discriminate].
  intros H; inversion H. right. eauto.
Qed.

Lemma fetch_quote_keys (l : list value) (results : list (string * QuoteFrame)) :
  for_each quote_step l [] = Ok results ->
  forall k, In k (dict_keys results) -> In (VStr k) l.
Proof.
  intros Hrun.
  apply (for_each_invariant
           (fun s : list (string * QuoteFrame) =>
              forall k, In k (dict_keys s) -> In (VStr k) l)
           quote_step l) with (s := []); auto.
  - intros s x s' Hx Hs Hstep k Hk.
    destruct (fetch_quote_step_effect _ _ _ Hstep) as [->|(t & df & -> & ->)]; auto.
    destruct (dict_keys_set _ _ _ _ Hk) as [->|Hin]; auto.
  - intros k [].
Qed.

Variables (thousands : bool) (module_key statements_key : string).

Local Abbreviation statements_step := (fetch_statements_step thousands module_key statements_key).
Local Abbreviation statements := (fetch_statements thousands module_key statements_key).

(** The same for a turn of a statement loop. *)
Lemma fetch_statements_step_effect (results results' : list (string * MetricMatrix))
    (ticker : value) :
  statements_step results ticker = Ok results' ->
  results' = results \/
  exists t df, ticker = VStr t /\ results' = dict_set t df results.
Proof.
  unfold fetch_statements_step.
  destruct ticker as [ | b | z | q | t | l | l | d];
    try (intros H; inversion H; now left).
  destruct (negb (truthy _)); [intros H; inversion H; now left|].
  match goal with
  | |- match ?r with _ => _ end = _ -> _ =>
      destruct r as [ | ? | ? | ? | ? | ? | ? | d0 ];
        try (intros H; inversion H; now left)
  end.
  destruct (statements_of _ _ d0) as [s|e]; cbn [bind]; [|discriminate].
  destruct (truthy s); [|intros H; inversion H; now left].
  destruct (py_iter s) as [items|e]; cbn [bind]; [|discriminate].
  destruct (for_each _ items []) as [dd|e]; cbn [bind]; [|discriminate].
  intros H; inversion H. right. eauto.
Qed.

Lemma fetch_statements_keys (l : list value) (results : list (string * MetricMatrix)) :
  for_each statements_step l [] = Ok results ->
  forall k, In k (dict_keys results) -> In (VStr k) l.
Proof.
  intros Hrun.
  apply (for_each_invariant
           (fun s : list (string * MetricMatrix) =>
              forall k, In k (dict_keys s) -> In (VStr k) l)
           statements_step l) with (s := []); auto.
  - intros s x s' Hx Hs Hstep k Hk.
    destruct (fetch_statements_step_effect _ _ _ Hstep) as [->|(t & df & -> & ->)]; auto.
    destruct (dict_keys_set _ _ _ _ Hk) as [->|Hin]; auto.
  - intros k [].
Qed.

Lemma fetch_quote_mapping_keys (l : list value) (k : string) :
  In k (mapping_keys (quote (VList l))) -> In (VStr k) l.
Proof.
  unfold fetch_quote, fetch_quote_body. cbn [bind].
  destruct (for_each quote_step l []) as [results|e] eqn:Hrun; cbn [bind try_except].
  - destruct (1 <? length l)%nat.
    + cbn. now apply fetch_quote_keys.
    + destruct results as [|r results]; cbn; [tauto|].
      destruct l as [|first l']; cbn; [tauto|].
      destruct (results_getitem (r :: results) first); cbn; tauto.
  - cbn. tauto.
Qed.

Lemma fetch_statements_mapping_keys (l : list value) (k : string) :
  In k (mapping_keys (statements (VList l))) -> In (VStr k) l.
Proof.
  unfold fetch_statements, fetch_statements_body. cbn [bind].
  destruct (for_each statements_step l []) as [results|e] eqn:Hrun;
    cbn [bind try_except].
  - destruct results as [|r results]; cbn [mapping_keys try_except]; [cbn; tauto|].
    now apply fetch_statements_keys.
  - cbn. tauto.
Qed.

(** What a single string ticker leaves in the dict. *)
Lemma fetch_quote_step_single (t : string) :
  quote_step [] (VStr t) = Ok [] \/
  (exists df, quote_step [] (VStr t) = Ok [(t, df)]) \/
  (exists e, quote_step [] (VStr t) = Raise e).
Proof.
  destruct (quote_step [] (VStr t)) as [results|e] eqn:E; [|eauto].
  destruct (fetch_quote_step_effect _ _ _ E) as [->|(t' & df & Ht & ->)]; auto.
  inversion Ht; subst t'. right; left. now exists df.
Qed.

Lemma fetch_statements_step_single (t : string) :
  statements_step [] (VStr t) = Ok [] \/
  (exists df, statements_step [] (VStr t) = Ok [(t, df)]) \/
  (exists e, statements_step [] (VStr t) = Raise e).
Proof.
  destruct (statements_step [] (VStr t)) as [results|e] eqn:E; [|eauto].
  destruct (fetch_statements_step_effect _ _ _ E) as [->|(t' & df & Ht & ->)]; auto.
  inversion Ht; subst t'. right; left. now exists df.
Qed.

Lemma fetch_quote_single_shape (t : string) :
  quote (VStr t) = Ok Null \/
  exists df, quote_step [] (VStr t) = Ok [(t, df)] /\ quote (VStr t) = Ok (Single df).
Proof.
  unfold fetch_quote, fetch_quote_body. cbn [bind for_each].
  destruct (fetch_quote_step_single t) as [E|[[df E]|[e E]]]; rewrite E; cbn.
  - now left.
  - right. exists df. split; [reflexivity|]. now rewrite String.eqb_refl.
  - now left.
Qed.

Lemma fetch_statements_single_shape (t : string) :
  statements (VStr t) = Ok Null \/
  exists df, statements_step [] (VStr t) = Ok [(t, df)] /\
             statements (VStr t) = Ok (Mapping [(t, df)]).
Proof.
  unfold fetch_statements, fetch_statements_body. cbn [bind for_each].
  destruct (fetch_statements_step_single t) as [E|[[df E]|[e E]]]; rewrite E; cbn.
  - now left.
  - right. now exists df.
  - now left.
Qed.

(** Whatever the tickers argument, the keys of a returned mapping are
    among the tickers as the fetcher normalised them. *)
Lemma fetch_quote_keys_given (tickers : value) (k : string) :
  In k (mapping_keys (quote tickers)) -> In (VStr k) (given_tickers tickers).
Proof.
  destruct tickers as [ | b | z | q | t | l | l | d];
    try (cbn; tauto).
  - destruct (fetch_quote_single_shape t) as [E|(df & _ & E)];
      rewrite E; cbn; tauto.
  - apply fetch_quote_mapping_keys.
  - change (quote (VTuple l)) with (quote (VList l)).
    apply fetch_quote_mapping_keys.
Qed.

Lemma fetch_statements_keys_given (tickers : value) (k : string) :
  In k (mapping_keys (statements tickers)) -> In (VStr k) (given_tickers tickers).
Proof.
  destruct tickers as [ | b | z | q | t | l | l | d];
    try (cbn; tauto).
  - destruct (fetch_statements_single_shape t) as [E|(df & _ & E)];
      rewrite E; cbn; [tauto|]. intros [<-|[]]. now left.
  - apply fetch_statements_mapping_keys.
  - change (statements (VTuple l)) with (statements (VList l)).
    apply fetch_statements_mapping_keys.
Qed.

End FanOut.

(** C2 (the code departs from the claim).  Called with the integer [123]
    as its tickers argument, [fetch_quote] does not raise: the [ValueError]
    of the type check is raised inside the [try] block, whose handler
    returns [None]. *)
Theorem fetch_quote_returns_null_on_integer_tickers :
  forall (ext : Externals) (range interval : string)
         (fundamental dividends : bool) (modules : value),
    fetch_quote_body range interval fundamental dividends modules (VInt 123)
      = Raise ValueError /\
    fetch_quote range interval fundamental dividends modules (VInt 123) = Ok Null.
Proof.
  intros. now apply fetch_quote_swallows_type_error.
Qed.

(** C3 as stated fails: asked for [PETR4] and [VALE3], both fetchers key
    their mapping by [PETR4], which is not among the canonicalised tickers
    [PETR4.SA], [VALE3.SA]. *)
Lemma mapping_keys_outside_canonical_tickers :
  In "PETR4" (mapping_keys (@fetch_balance_sheet_history Sample.online
                              (VList [VStr "PETR4"; VStr "VALE3"]))) /\
  In "PETR4" (mapping_keys (@fetch_quote Sample.online "1d" "1d" false false VNone
                              (VList [VStr "PETR4"; VStr "VALE3"]))) /\
  ~ In "PETR4" (canonical_tickers [VStr "PETR4"; VStr "VALE3"]).
Proof.
  repeat split.
  - vm_compute. now left.
  - vm_compute. now left.
  - cbn. intros [H|[H|[]]]; discriminate.
Qed.

(** C3, amended.  Whatever the tickers argument, every key of a returned
    mapping is a string among the tickers given (a list or tuple as it
    stands, a single string as a one-element list), spelled as the caller
    spelled it; so its canonical form is among the canonicalised tickers,
    and no other key appears. *)
Theorem mapping_keys_among_given_tickers :
  forall (ext : Externals) (range interval : string)
         (fundamental dividends : bool) (modules : value)
         (tickers : value) (k : string),
    In k (mapping_keys (fetch_quote range interval fundamental dividends modules
                          tickers)) \/
    In k (mapping_keys (fetch_balance_sheet_history tickers)) ->
    In (VStr k) (given_tickers tickers) /\
    In (ticker_sa k) (canonical_tickers (given_tickers tickers)).
Proof.
  intros ext range interval fundamental dividends modules tickers k H.
  assert (Hin : In (VStr k) (given_tickers tickers)).
  { destruct H as [H|H].
    - now apply fetch_quote_keys_given in H.
    - now apply fetch_statements_keys_given in H. }
  split; [exact Hin|].
  unfold canonical_tickers. apply in_flat_map.
  exists (VStr k). split; [exact Hin | now left].
Qed.

(** The property at the sample provider, asked for PETR4 and VALE3. *)
Lemma mapping_keys_among_given_tickers_witness :
  In (VStr "PETR4") [VStr "PETR4"; VStr "VALE3"] /\
  In (ticker_sa "PETR4") (canonical_tickers [VStr "PETR4"; VStr "VALE3"]).
Proof.
  apply (mapping_keys_among_given_tickers Sample.online "1d" "1d" false false VNone
           (VList [VStr "PETR4"; VStr "VALE3"]) "PETR4").
  right. vm_compute. left. reflexivity.
Defined.

(** C4 as stated fails: for the single ticker [PETR4] the balance-sheet
    fetcher returns a mapping. *)
Lemma balance_sheet_of_single_ticker_is_mapping :
  ~ null_or_single (@fetch_balance_sheet_history Sample.online (VStr "PETR4")).
Proof.
  intros H. vm_compute in H. exact H.
Qed.

(** C4, amended.  For a single string ticker [fetch_quote] returns [None]
    or the one table that the ticker's turn of the loop produced, never a
    mapping; [fetch_balance_sheet_history] returns [None] or the mapping
    whose only entry is that ticker, as given, with its table. *)
Theorem single_ticker_result_shape :
  forall (ext : Externals) (range interval : string)
         (fundamental dividends : bool) (modules : value) (t : string),
    (fetch_quote range interval fundamental dividends modules (VStr t) = Ok Null \/
     exists df,
       fetch_quote_step range interval fundamental dividends modules [] (VStr t)
         = Ok [(t, df)] /\
       fetch_quote range interval fundamental dividends modules (VStr t)
         = Ok (Single df)) /\
    (fetch_balance_sheet_history (VStr t) = Ok Null \/
     exists df,
       fetch_statements_step true "balanceSheetHistory" "balanceSheetStatements"
         [] (VStr t) = Ok [(t, df)] /\
       fetch_balance_sheet_history (VStr t) = Ok (Mapping [(t, df)])).
Proof.
  intros. split.
  - apply fetch_quote_single_shape.
  - apply fetch_statements_single_shape.
Qed.

Example fetch_quote_single_sample :
  null_or_single (@fetch_quote Sample.online "1d" "1d" false false VNone (VStr "PETR4")).
Proof. vm_compute. exact I. Qed.

(** ** Statement tabulation *)




Lemma cell_of_record_same (key date : string) (v : value)
    (dd : list (string * list (string * value))) :
  cell_of (record_cell key date v dd) key date = Some v.
Proof.
  unfold cell_of, record_cell.
  rewrite dict_get_set_same. apply dict_get_set_same.
Qed.

Lemma cell_of_record_other (key date key' date' : string) (v : value)
    (dd : list (string * list (string * value))) :
  key' <> key \/ date' <> date ->
  cell_of (record_cell key date v dd) key' date' = cell_of dd key' date'.
Proof.
  unfold cell_of, record_cell. intros H.
  destruct (string_dec key' key) as [->|Hk].
  - destruct H as [H|H]; [congruence|].
    rewrite dict_get_set_same, dict_get_set_other by assumption.
    now destruct (dict_get key dd).
  - now rewrite dict_get_set_other.
Qed.

Lemma label_lt_trans (a b c : string) : label_lt a b -> label_lt b c -> label_lt a c.
Proof.
  unfold label_lt. intros Hab Hbc.
  apply OrderedTypeEx.String_as_OT.cmp_lt.
  apply OrderedTypeEx.String_as_OT.lt_trans with (y := b);
    now apply OrderedTypeEx.String_as_OT.cmp_lt.
Qed.

Lemma insert_label_in (x z : string) (l : list string) :
  In z (insert_label x l) <-> z = x \/ In z l.
Proof.
  induction l as [|y l IH]; cbn [insert_label].
  - cbn. intuition.
  - destruct (String.compare x y) eqn:E.
    + apply String.compare_eq_iff in E. subst y. cbn. intuition.
    + cbn. intuition.
    + cbn [In]. rewrite IH. intuition.
Qed.

Lemma insert_label_sorted (x : string) (l : list string) :
  StronglySorted label_lt l -> StronglySorted label_lt (insert_label x l).
Proof.
  induction l as [|y l IH]; cbn [insert_label]; intros Hs.
  - repeat constructor.
  - inversion Hs as [|? ? Hl Hall]; subst.
    destruct (String.compare x y) eqn:E.
    + assumption.
    + constructor; [assumption|]. constructor; [exact E|].
      eapply Forall_impl; [|exact Hall]. intros z Hz. now apply label_lt_trans with (b := y).
    + constructor; [now apply IH|].
      apply Forall_forall. intros z Hz. apply insert_label_in in Hz.
      destruct Hz as [->|Hz].
      * unfold label_lt. rewrite String.compare_antisym, E. reflexivity.
      * rewrite Forall_forall in Hall. now apply Hall.
Qed.

Lemma sorted_labels_sorted (l : list string) : StronglySorted label_lt (sorted_labels l).
Proof.
  unfold sorted_labels. induction l as [|x l IH]; cbn [fold_right].
  - constructor.
  - now apply insert_label_sorted.
Qed.

Lemma sorted_labels_in (z : string) (l : list string) :
  In z (sorted_labels l) <-> In z l.
Proof.
  unfold sorted_labels. induction l as [|x l IH]; cbn [fold_right]; [reflexivity|].
  rewrite insert_label_in, IH. cbn. intuition.
Qed.

Lemma dict_get_in {V} (k : string) (v : V) (d : list (string * V)) :
  dict_get k d = Some v -> In (k, v) d.
Proof.
  induction d as [|[k0 v0] d IH]; simpl; [discriminate|].
  destruct (k0 =? k) eqn:E.
  - apply String.eqb_eq in E. intros H; inversion H; subst. now left.
  - auto.
Qed.

(** *** Binary64 division *)





Section Tabulation.
Context {ext : Externals}.

Variable thousands : bool.




(** What one field does to the pivot. *)
Lemma record_field_effect (date : string)
    (dd dd' : list (string * list (string * value))) (kv : string * value) :
  record_field thousands date dd kv = Ok dd' ->
  (fst kv = "endDate" /\ dd' = dd) \/
  (fst kv <> "endDate" /\
   exists w, rescale thousands (snd kv) = Ok w /\
             dd' = record_cell (fst kv) date w dd).
Proof.
  unfold record_field.
  destruct (fst kv =? "endDate") eqn:E.
  - intros H; inversion H. left. split; [now apply String.eqb_eq | reflexivity].
  - destruct (rescale thousands (snd kv)) as [w|e]; cbn [bind]; [|discriminate].
    intros H; inversion H. right. split; [now apply String.eqb_neq|]. eauto.
Qed.

(** Every cell of the pivot after a record is a cell from before, or the
    rescaled value of one of the record's fields at the record's period. *)
Lemma record_statement_sound (date : string) (fields : list (string * value)) :
  forall (dd dd' : list (string * list (string * value))) (key d : string) (w : value),
    record_statement thousands date fields dd = Ok dd' ->
    cell_of dd' key d = Some w ->
    cell_of dd key d = Some w \/
    (d = date /\ key <> "endDate" /\
     exists v, In (key, v) fields /\ rescale thousands v = Ok w).
Proof.
  unfold record_statement.
  induction fields as [|[k v] fields IH]; cbn [for_each]; intros dd dd' key d w Hrun H.
  - inversion Hrun; subst. now left.
  - destruct (record_field thousands date dd (k, v)) as [dd1|e] eqn:E;
      cbn [bind] in Hrun; [|discriminate].
    destruct (IH _ _ _ _ _ Hrun H) as [H1|(-> & Hk & v' & Hin & Hw)].
    + destruct (record_field_effect _ _ _ _ E) as [[_ ->]|(Hne & w1 & Hw1 & ->)];
        [now left|].
      cbn [fst snd] in *.
      destruct (string_dec key k) as [->|Hk].
      * destruct (string_dec d date) as [->|Hd].
        -- rewrite cell_of_record_same in H1. inversion H1; subst w1.
           right. repeat split; [assumption|].
           exists v. split; [now left | assumption].
        -- rewrite cell_of_record_other in H1 by now right. now left.
      * rewrite cell_of_record_other in H1 by now left. now left.
    + right. repeat split; auto. exists v'. split; [now right | assumption].
Qed.

(** The turn of a record that has its period tag. *)
Lemma pivot_statement_record (dd : list (string * list (string * value)))
    (fields : list (string * value)) (raw : value) (date : string) :
  dict_get "endDate" fields = Some raw ->
  end_date_label raw = Ok date ->
  pivot_statement thousands dd (VDict fields) = record_statement thousands date fields dd.
Proof.
  intros Hraw Hdate. unfold pivot_statement. cbn [py_contains_str bind].
  unfold dict_mem. rewrite Hraw. cbn [bind]. rewrite Hdate. reflexivity.
Qed.

(** What one turn of the statement loop does to the pivot. *)
Lemma pivot_statement_effect (dd dd' : list (string * list (string * value)))
    (statement : value) :
  pivot_statement thousands dd statement = Ok dd' ->
  dd' = dd \/
  exists fields raw date,
    statement = VDict fields /\ dict_get "endDate" fields = Some raw /\
    end_date_label raw = Ok date /\
    record_statement thousands date fields dd = Ok dd'.
Proof.
  unfold pivot_statement.
  destruct (py_contains_str "endDate" statement) as [[|]|e]; cbn [bind];
    [ | intros H; inversion H; now left | discriminate].
  destruct statement as [ | b | z | q | s | l | l | fields]; try discriminate.
  destruct (dict_get "endDate" fields) as [raw|] eqn:Eraw; cbn [bind]; [|discriminate].
  destruct (end_date_label raw) as [date|e] eqn:Edate; cbn [bind]; [|discriminate].
  intros H. right. exists fields, raw, date. auto.
Qed.

(** Every cell of the finished pivot is the rescaled value of a field of
    one of the statement records, at that record's period. *)
Lemma pivot_cells_sound (statements : list value)
    (dd : list (string * list (string * value))) :
  for_each (pivot_statement thousands) statements [] = Ok dd ->
  forall key date w,
    cell_of dd key date = Some w ->
    exists fields raw v,
      In (VDict fields) statements /\
      dict_get "endDate" fields = Some raw /\ end_date_label raw = Ok date /\
      In (key, v) fields /\ key <> "endDate" /\ rescale thousands v = Ok w.
Proof.
  apply (for_each_invariant
           (fun dd : list (string * list (string * value)) =>
              forall key date w,
                cell_of dd key date = Some w ->
                exists fields raw v,
                  In (VDict fields) statements /\
                  dict_get "endDate" fields = Some raw /\ end_date_label raw = Ok date /\
                  In (key, v) fields /\ key <> "endDate" /\ rescale thousands v = Ok w)).
  - intros s x s' Hx Hs Hstep key date w Hcell.
    destruct (pivot_statement_effect _ _ _ Hstep)
      as [->|(fields & raw & date' & -> & Hraw & Hdate & Hrec)]; [now apply Hs|].
    destruct (record_statement_sound _ _ _ _ _ _ _ Hrec Hcell)
      as [Hold|(-> & Hk & v & Hin & Hw)]; [now apply Hs|].
    exists fields, raw, v. auto 10.
  - intros key date w H. discriminate.
Qed.





(** Fields under other keys leave a metric's cells alone. *)
Lemma record_statement_other_keys (date : string) (fields : list (string * value)) :
  forall (dd dd' : list (string * list (string * value))) (key d : string),
    ~ In key (map fst fields) ->
    record_statement thousands date fields dd = Ok dd' ->
    cell_of dd' key d = cell_of dd key d.
Proof.
  unfold record_statement.
  induction fields as [|[k v] fields IH]; cbn [for_each map fst snd];
    intros dd dd' key d Hnot Hrun.
  - now inversion Hrun.
  - destruct (record_field thousands date dd (k, v)) as [dd1|e] eqn:E;
      cbn [bind] in Hrun; [|discriminate].
    rewrite (IH dd1 dd' key d) by (try assumption; intros H; apply Hnot; now right).
    destruct (record_field_effect _ _ _ _ E) as [[_ ->]|(_ & w & _ & ->)]; [reflexivity|].
    apply cell_of_record_other. left. cbn [fst]. intros ->. apply Hnot. now left.
Qed.

(** A record with distinct keys leaves, for each of its metrics, its own
    rescaled value at its period, whatever the pivot held there before. *)
Lemma record_statement_overrides (date : string) (fields : list (string * value)) :
  forall (dd dd' : list (string * list (string * value))) (key : string) (v : value),
    NoDup (map fst fields) ->
    In (key, v) fields ->
    key <> "endDate" ->
    record_statement thousands date fields dd = Ok dd' ->
    exists w, rescale thousands v = Ok w /\ cell_of dd' key date = Some w.
Proof.
  induction fields as [|[k v0] fields IH]; intros dd dd' key v Hnd Hin Hkey Hrun;
    [contradiction|].
  cbn [map fst] in Hnd. inversion Hnd as [|? ? Hk Hnd']; subst.
  unfold record_statement in Hrun. cbn [for_each] in Hrun.
  destruct (record_field thousands date dd (k, v0)) as [dd1|e] eqn:E;
    cbn [bind] in Hrun; [|discriminate].
  fold (record_statement thousands date fields dd1) in Hrun.
  destruct Hin as [Heq|Hin].
  - inversion Heq; subst k v0.
    destruct (record_field_effect _ _ _ _ E) as [[Hend _]|(_ & w & Hw & ->)];
      [cbn [fst] in Hend; contradiction|].
    cbn [fst snd] in *. exists w. split; [exact Hw|].
    rewrite (record_statement_other_keys date fields _ dd' key date Hk Hrun).
    apply cell_of_record_same.
  - now apply (IH dd1 dd' key v).
Qed.

(** A record leaves the cells of every other period alone. *)
Lemma record_statement_other_period (date' : string) (fields : list (string * value)) :
  forall (dd dd' : list (string * list (string * value))) (key date : string),
    date <> date' ->
    record_statement thousands date' fields dd = Ok dd' ->
    cell_of dd' key date = cell_of dd key date.
Proof.
  unfold record_statement.
  induction fields as [|[k v] fields IH]; cbn [for_each];
    intros dd dd' key date Hne Hrun.
  - now inversion Hrun.
  - destruct (record_field thousands date' dd (k, v)) as [dd1|e] eqn:E;
      cbn [bind] in Hrun; [|discriminate].
    rewrite (IH dd1 dd' key date Hne Hrun).
    destruct (record_field_effect _ _ _ _ E) as [[_ ->]|(_ & w & _ & ->)]; [reflexivity|].
    apply cell_of_record_other. now right.
Qed.

(** So do the turns of records that fall on other periods. *)
Lemma pivot_other_periods (later : list value) (key date : string) :
  (forall fields raw, In (VDict fields) later ->
                      dict_get "endDate" fields = Some raw ->
                      end_date_label raw <> Ok date) ->
  forall dd dd' : list (string * list (string * value)),
    for_each (pivot_statement thousands) later dd = Ok dd' ->
    cell_of dd' key date = cell_of dd key date.
Proof.
  intros Hlater dd dd' Hrun.
  apply (for_each_invariant
           (fun s : list (string * list (string * value)) =>
              cell_of s key date = cell_of dd key date)
           (pivot_statement thousands) later) with (s := dd); [|reflexivity|exact Hrun].
  intros s x s' Hx Hs Hstep.
  destruct (pivot_statement_effect _ _ _ Hstep)
    as [->|(fields & raw & date' & -> & Hraw & Hdate & Hrec)]; [exact Hs|].
  rewrite <- Hs. apply (record_statement_other_period date' fields s s').
  - intros ->. exact (Hlater fields raw Hx Hraw Hdate).
  - exact Hrec.
Qed.

(** A record none of whose fields overflows is recorded. *)
Lemma record_statement_returns (date : string) (fields : list (string * value)) :
  (forall key v, In (key, v) fields -> key <> "endDate" ->
                 exists w, rescale thousands v = Ok w) ->
  forall dd, exists dd', record_statement thousands date fields dd = Ok dd'.
Proof.
  unfold record_statement.
  induction fields as [|[k v] fields IH]; cbn [for_each]; intros Hok dd; [eauto|].
  unfold record_field at 1. cbn [fst snd].
  destruct (k =? "endDate") eqn:E; cbn [bind].
  - apply IH. intros key v' Hin. apply Hok. now right.
  - destruct (Hok k v) as [w Hw]; [now left | now apply String.eqb_neq|].
    rewrite Hw. cbn [bind]. apply IH. intros key v' Hin. apply Hok. now right.
Qed.

(** A field whose rescaling raises ends the record, whatever came before. *)
Lemma record_statement_raises (date : string) (fields : list (string * value))
    (key : string) (v : value) (e : exc) :
  In (key, v) fields -> key <> "endDate" ->
  rescale thousands v = Raise e ->
  forall dd, exists e', record_statement thousands date fields dd = Raise e'.
Proof.
  intros Hin Hkey Hraise. unfold record_statement.
  apply (for_each_raises (record_field thousands date) fields (key, v) Hin).
  intros s. exists e. unfold record_field. cbn [fst snd].
  apply String.eqb_neq in Hkey. rewrite Hkey, Hraise. reflexivity.
Qed.

(** The cell of the finished table under a metric and a period of the
    pivot is the coerced value recorded there. *)
Lemma row_cell_map (f : string -> cell) (date : string) (dates : list string) :
  In date dates -> row_cell date dates (map f dates) = Some (f date).
Proof.
  induction dates as [|c dates IH]; cbn [map row_cell]; [intros []|].
  intros Hin. destruct (c =? date) eqn:E.
  - apply String.eqb_eq in E. now subst c.
  - apply IH. destruct Hin as [->|Hin]; [|assumption].
    rewrite String.eqb_refl in E. discriminate.
Qed.

Lemma tabulate_cell (dd : list (string * list (string * value)))
    (key date : string) (w : value) :
  cell_of dd key date = Some w ->
  exists cells,
    In (metric_label key, cells) (mm_rows (tabulate dd)) /\
    row_cell date (mm_columns (tabulate dd)) cells = Some (to_numeric_coerce w).
Proof.
  unfold cell_of.
  destruct (dict_get key dd) as [by_date|] eqn:Ekey; [|discriminate].
  intros Hdate. apply dict_get_in in Ekey.
  unfold tabulate. cbn [mm_rows mm_columns].
  eexists. split.
  - apply in_map_iff. exists (key, by_date). split; [reflexivity | exact Ekey].
  - cbn [snd].
    rewrite (row_cell_map
               (fun date' => match dict_get date' by_date with
                             | Some v => to_numeric_coerce v
                             | None => None
                             end)).
    + now rewrite Hdate.
    + apply sorted_labels_in, in_flat_map. exists (key, by_date).
      split; [exact Ekey|]. cbn [snd]. eapply dict_get_in_keys. exact Hdate.
Qed.

End Tabulation.

Section EmptyStatements.
Context {ext : Externals}.

Variables (thousands : bool) (module_key statements_key : string).

Local Abbreviation statements_step := (fetch_statements_step thousands module_key statements_key).
Local Abbreviation statements := (fetch_statements thousands module_key statements_key).




End EmptyStatements.

Section WithStatements.
Context {ext : Externals}.

Variables (thousands : bool) (module_key statements_key : string).

(** The turn of an entity that has statements tabulates them. *)
Lemma fetch_statements_step_with_statements (t : string) (d : list (string * value))
    (first : value) (others : list value) (results : list (string * MetricMatrix)) :
  entity_record module_key t = VDict d ->
  statements_of module_key statements_key d = Ok (VList (first :: others)) ->
  fetch_statements_step thousands module_key statements_key results (VStr t) =
  (data_dict <- for_each (pivot_statement thousands) (first :: others) [] ;;
   Ok (dict_set t (tabulate data_dict) results)).
Proof.
  intros Hrec Hst.
  assert (Hd : truthy (VDict d) = true).
  { destruct d; [|reflexivity]. cbn in Hst. discriminate. }
  unfold fetch_statements_step. unfold entity_record in Hrec.
  destruct (make_request _ _) as [ | b | z | q | s0 | [|r l] | l | d0];
    try discriminate Hrec.
  - subst r. cbn [truthy negb]. rewrite Hst. reflexivity.
  - inversion Hrec; subst d0. rewrite Hd. cbn [negb]. rewrite Hst. reflexivity.
Qed.

(** A call for that entity alone returns its table, or [None] when a turn
    of the statement loop raises. *)
Lemma fetch_statements_of_one (t : string) (d : list (string * value))
    (first : value) (others : list value) :
  entity_record module_key t = VDict d ->
  statements_of module_key statements_key d = Ok (VList (first :: others)) ->
  fetch_statements thousands module_key statements_key (VStr t) =
  match for_each (pivot_statement thousands) (first :: others) [] with
  | Ok data_dict => Ok (Mapping [(t, tabulate data_dict)])
  | Raise _ => Ok Null
  end.
Proof.
  intros Hrec Hst. unfold fetch_statements, fetch_statements_body.
  cbn [bind]. change (for_each ?f [VStr t] []) with (bind (f [] (VStr t)) (for_each f [])).
  rewrite (fetch_statements_step_with_statements t d first others [] Hrec Hst).
  destruct (for_each (pivot_statement thousands) (first :: others) []) as [dd|e];
    reflexivity.
Qed.

End WithStatements.

(** C6 (the claim as worded does not hold).  The quotient is a binary64
    number, so it is the exact quotient only when a binary64 can hold it: a
    raw 9007199254740993 is recorded as 9007199254740.9921875, and a raw
    10^400, whose quotient lies beyond the binary64 range, makes the
    division raise, so that the call returns [None] and no cell at all. *)
Lemma balance_sheet_quotient_rounded_or_lost :
  @fetch_balance_sheet_history SampleOdd.online (VStr "WIDE3")
  = Ok (Mapping [("WIDE3",
                  {| mm_columns := ["2023-12-31"];
                     mm_rows := [("Cash", [Some (1152921504606847 # 128)])] |})]) /\
  ~ (1152921504606847 # 128 == 9007199254740993 / 1000)%Q /\
  @fetch_balance_sheet_history SampleOdd.online (VStr "HUGE3") = Ok Null.
Proof.
  split; [vm_compute; reflexivity|]. split; [|vm_compute; reflexivity].
  intros H. vm_compute in H. discriminate.
Qed.

(** C6, amended.  Take a statement record of an entity, its keys
    distinct and its period tag readable, the records before it tabulated
    and no record after it falling on the same period.  When the quotient
    of one of its numeric fields lies beyond the binary64 range, the
    division raises and the balance-sheet fetcher called for the entity
    returns [None].  Otherwise the call returns a table in which every
    metric of the record has a row whose cell under the record's period
    is: for a numeric value (for the code, an [int] or [float], [bool]
    included) the binary64 number nearest to the value divided by 1000;
    for any other value what the numeric coercion makes of the value as it
    came; unless a later record makes the loop raise, and the call returns
    [None].  A raw 5000 yields 5. *)
Theorem balance_sheet_cells_divided_by_thousand :
  forall (ext : Externals) (t : string) (d : list (string * value))
         (earlier later : list value)
         (data_dict : list (string * list (string * value)))
         (fields : list (string * value)) (raw : value) (date : string),
    entity_record "balanceSheetHistory" t = VDict d ->
    statements_of "balanceSheetHistory" "balanceSheetStatements" d
      = Ok (VList (earlier ++ VDict fields :: later)) ->
    for_each (pivot_statement true) earlier [] = Ok data_dict ->
    NoDup (map fst fields) ->
    dict_get "endDate" fields = Some raw ->
    end_date_label raw = Ok date ->
    (forall fields' raw', In (VDict fields') later ->
                          dict_get "endDate" fields' = Some raw' ->
                          end_date_label raw' <> Ok date) ->
    ((exists key v q, In (key, v) fields /\ key <> "endDate" /\
                      py_number v = Some q /\ binary64_nearest (q / 1000) = None) ->
     fetch_balance_sheet_history (VStr t) = Ok Null) /\
    ((forall key v q, In (key, v) fields -> key <> "endDate" ->
                      py_number v = Some q -> binary64_nearest (q / 1000) <> None) ->
     (exists df,
         fetch_balance_sheet_history (VStr t) = Ok (Mapping [(t, df)]) /\
         forall key v,
           In (key, v) fields -> key <> "endDate" ->
           exists cells,
             In (metric_label key, cells) (mm_rows df) /\
             row_cell date (mm_columns df) cells
             = Some (match py_number v with
                     | Some q => binary64_nearest (q / 1000)
                     | None => to_numeric_coerce v
                     end)) \/
     ((exists dd e, for_each (pivot_statement true) later dd = Raise e) /\
      fetch_balance_sheet_history (VStr t) = Ok Null)) /\
    binary64_nearest (5000 / 1000) = Some 5%Q.
Proof.
  intros ext t d earlier later data_dict fields raw date
         Hrec Hst Hearlier Hnd Hraw Hdate Hlater.
  assert (Hfetch : fetch_balance_sheet_history (VStr t) =
                   match (dd <- record_statement true date fields data_dict ;;
                          for_each (pivot_statement true) later dd) with
                   | Ok dd => Ok (Mapping [(t, tabulate dd)])
                   | Raise _ => Ok Null
                   end).
  { destruct (earlier ++ VDict fields :: later) as [|first others] eqn:El;
      [destruct earlier; discriminate|].
    unfold fetch_balance_sheet_history.
    rewrite (fetch_statements_of_one true _ _ t d first others Hrec Hst).
    rewrite <- El, for_each_app, Hearlier. cbn [bind for_each].
    rewrite (pivot_statement_record true _ _ _ _ Hraw Hdate). reflexivity. }
  split; [|split].
  - intros (key & v & q & Hin & Hkey & Hq & Hover).
    destruct (record_statement_raises true date fields key v OverflowError Hin Hkey)
      with (dd := data_dict) as [e He].
    { unfold rescale, per_thousand. now rewrite Hq, Hover. }
    now rewrite Hfetch, He.
  - intros Hfit.
    destruct (record_statement_returns true date fields) with (dd := data_dict)
      as [dd Hdd].
    { intros key v Hin Hkey. unfold rescale, per_thousand.
      destruct (py_number v) as [q|] eqn:Hq; [|eauto].
      destruct (binary64_nearest (q / 1000)) as [r|] eqn:Hr; [eauto|].
      exfalso. exact (Hfit key v q Hin Hkey Hq Hr). }
    rewrite Hfetch, Hdd. cbn [bind].
    destruct (for_each (pivot_statement true) later dd) as [dd'|e] eqn:Hlast;
      [left | right; split; [eauto | reflexivity]].
    exists (tabulate dd'). split; [reflexivity|].
    intros key v Hin Hkey.
    destruct (record_statement_overrides true date fields _ _ key v Hnd Hin Hkey Hdd)
      as (w & Hw & Hcell).
    rewrite <- (pivot_other_periods true later key date Hlater dd dd' Hlast) in Hcell.
    destruct (tabulate_cell dd' key date w Hcell) as (cells & Hrow & Hc).
    exists cells. split; [exact Hrow|]. rewrite Hc. f_equal.
    unfold rescale, per_thousand in Hw.
    destruct (py_number v) as [q|] eqn:Hq.
    + destruct (binary64_nearest (q / 1000)) as [r|]; inversion Hw. reflexivity.
    + inversion Hw. reflexivity.
  - vm_compute. reflexivity.
Qed.

(** The property at the sample providers: PETR4's record has a cash of
    5000, a number, and an auditor that is none; HUGE3's cash is 10^400. *)
Lemma balance_sheet_cells_divided_by_thousand_witness :
  (exists df,
      @fetch_balance_sheet_history Sample.online (VStr "PETR4")
        = Ok (Mapping [("PETR4", df)]) /\
      (exists cells, In ("Cash", cells) (mm_rows df) /\
                     row_cell "2023-12-31" (mm_columns df) cells = Some (Some 5%Q)) /\
      (exists cells, In ("Auditor", cells) (mm_rows df) /\
                     row_cell "2023-12-31" (mm_columns df) cells = Some None)) /\
  @fetch_balance_sheet_history SampleOdd.online (VStr "HUGE3") = Ok Null.
Proof.
  split.
  - assert (Hnd : NoDup (map fst [("endDate", VStr "2023-12-31T00:00:00.000Z");
                                  ("cash", VInt 5000);
                                  ("auditor", VStr "N/A")]))
      by (repeat constructor; cbn; intuition discriminate).
    pose proof (balance_sheet_cells_divided_by_thousand Sample.online "PETR4"
                  [("balanceSheetHistory",
                    VDict [("balanceSheetStatements", VList [Sample.one_statement])]);
                   ("historicalDataPrice",
                    VList [VDict [("date", VInt 1704067200);
                                  ("open", VFloat 10);
                                  ("close", VFloat 11)]])]
                  [] [] []
                  [("endDate", VStr "2023-12-31T00:00:00.000Z");
                   ("cash", VInt 5000);
                   ("auditor", VStr "N/A")]
                  (VStr "2023-12-31T00:00:00.000Z") "2023-12-31"
                  eq_refl eq_refl eq_refl Hnd eq_refl eq_refl
                  (fun fields' raw' (H : In (VDict fields') []) => match H with end))
      as (_ & Hcells & _).
    destruct Hcells as [(df & Hdf & Hrows)|((dd & e & Hraise) & _)].
    + intros key v q [H|[H|[H|[]]]] _ Hq; inversion H; subst; cbn in Hq;
        try discriminate Hq; inversion Hq; subst; vm_compute; discriminate.
    + exists df. split; [exact Hdf|]. split.
      * apply (Hrows "cash" (VInt 5000)); [simpl; tauto | discriminate].
      * apply (Hrows "auditor" (VStr "N/A")); [simpl; tauto | discriminate].
    + discriminate Hraise.
  - assert (Hnd : NoDup (map fst [("endDate", VStr "2023-12-31T00:00:00.000Z");
                                  ("cash", VInt (10 ^ 400))]))
      by (repeat constructor; cbn; intuition discriminate).
    pose proof (balance_sheet_cells_divided_by_thousand SampleOdd.online "HUGE3"
                  [("balanceSheetHistory",
                    VDict [("balanceSheetStatements",
                            VList [SampleOdd.statement_with_cash (10 ^ 400)])]);
                   ("historicalDataPrice",
                    VList [VDict [("date", VInt 1704067200);
                                  ("open", VFloat 10);
                                  ("close", VFloat 11)]])]
                  [] [] []
                  [("endDate", VStr "2023-12-31T00:00:00.000Z");
                   ("cash", VInt (10 ^ 400))]
                  (VStr "2023-12-31T00:00:00.000Z") "2023-12-31"
                  eq_refl eq_refl eq_refl Hnd eq_refl eq_refl
                  (fun fields' raw' (H : In (VDict fields') []) => match H with end))
      as (Hlost & _).
    apply Hlost. exists "cash", (VInt (10 ^ 400)), (inject_Z (10 ^ 400)).
    split; [simpl; tauto|]. split; [discriminate|]. split; [reflexivity|].
    vm_compute. reflexivity.
Defined.

(** The whole table of the sample record, through the fetcher. *)
Example balance_sheet_sample_table :
  @fetch_balance_sheet_history Sample.online (VStr "PETR4") =
  Ok (Mapping [("PETR4",
                {| mm_columns := ["2023-12-31"];
                   mm_rows := [("Cash", [Some 5%Q]);
                               ("Auditor", [None])] |})]).
Proof. vm_compute. reflexivity. Qed.



(** ** Price series extraction *)

Section PriceFieldFacts.
Context {ext : Externals}.

Variables (field range interval : string).

Local Abbreviation field_step := (fetch_field_step field range interval).
Local Abbreviation field_body := (fetch_field_body field range interval).
Local Abbreviation quote_field := (fetch_quote_field field range interval).

(** Whatever the body returns is a table. *)
Lemma fetch_field_body_returns_table (tickers : value) (r : fetched (frame cell)) :
  field_body tickers = Ok r -> exists f, r = Single f.
Proof.
  unfold fetch_field_body.
  match goal with |- (bind ?c _) = _ -> _ => destruct c as [l|e] end;
    cbn [bind]; [|discriminate].
  destruct (for_each field_step l []) as [[|kv all_data]|e]; cbn [bind];
    [ | | discriminate].
  - intros H; inversion H; eauto.
  - destruct (frame_of_series VNone true (kv :: all_data)) as [df|e]; cbn [bind];
      [|discriminate].
    intros H; inversion H; eauto.
Qed.

Lemma fetch_quote_field_returns_table (tickers : value) :
  exists f, quote_field tickers = Ok (Single f).
Proof.
  unfold fetch_quote_field.
  destruct (field_body tickers) as [r|e] eqn:E; cbn [try_except]; [|eauto].
  destruct (fetch_field_body_returns_table _ _ E) as [f ->]. eauto.
Qed.

(** [ticker.replace] on anything but a string raises. *)
Lemma fetch_field_step_non_string (all_data : list (string * list (Z * value)))
    (v : value) :
  is_str v = false -> field_step all_data v = Raise AttributeError.
Proof.
  destruct v; cbn; intros H; try discriminate; reflexivity.
Qed.

Lemma fetch_field_body_raises_on_non_string (tickers : list value) (v : value) :
  In v tickers -> is_str v = false ->
  exists e, field_body (VList tickers) = Raise e.
Proof.
  intros Hin Hv. unfold fetch_field_body. cbn [py_iter bind].
  destruct (for_each_raises field_step tickers v Hin) with (s := @nil (string * list (Z * value)))
    as [e He].
  - intros s. exists AttributeError. now apply fetch_field_step_non_string.
  - exists e. now rewrite He.
Qed.

(** With no usable response for any endpoint, nothing is collected. *)
Lemma fetch_quote_field_empty_without_data (tickers : value) :
  (forall endpoint params, truthy (make_request endpoint params) = false) ->
  quote_field tickers = Ok (Single empty_frame).
Proof.
  intros Hdown. unfold fetch_quote_field, fetch_field_body.
  match goal with |- try_except (bind ?c _) _ = _ => destruct c as [l|e] end;
    cbn [bind try_except]; [|reflexivity].
  destruct (for_each field_step l []) as [all_data|e] eqn:Hrun;
    cbn [bind try_except]; [|reflexivity].
  assert (Hnil : all_data = []).
  { apply (for_each_invariant
             (fun s : list (string * list (Z * value)) => s = [])
             field_step l) with (s := []); auto.
    intros s x s' _ -> Hstep. unfold fetch_field_step in Hstep.
    destruct x; try discriminate. rewrite Hdown in Hstep. cbn in Hstep.
    now inversion Hstep. }
  now subst all_data.
Qed.

End PriceFieldFacts.

(** C8.  Whatever the tickers argument and whatever the provider answers,
    a price-field extractor returns a table and never [None]; when no
    endpoint yields a usable response the table is the empty one.  (The
    five extractors are [fetch_quote_field] at [open], [high], [low],
    [close] and [volume].) *)
Theorem price_field_extractor_always_returns_table :
  forall (ext : Externals) (field range interval : string) (tickers : value),
    (exists f, fetch_quote_field field range interval tickers = Ok (Single f)) /\
    (exists f, fetch_quote_open range interval tickers = Ok (Single f)) /\
    (exists f, fetch_quote_high range interval tickers = Ok (Single f)) /\
    (exists f, fetch_quote_low range interval tickers = Ok (Single f)) /\
    (exists f, fetch_quote_close range interval tickers = Ok (Single f)) /\
    (exists f, fetch_quote_volume range interval tickers = Ok (Single f)) /\
    ((forall endpoint params, truthy (make_request endpoint params) = false) ->
     fetch_quote_field field range interval tickers = Ok (Single empty_frame)).
Proof.
  intros. repeat split; try apply fetch_quote_field_returns_table.
  apply fetch_quote_field_empty_without_data.
Qed.

(** The property when the provider cannot be reached. *)
Lemma price_field_extractor_always_returns_table_witness :
  @fetch_quote_field Sample.offline "open" "1d" "1d" (VList [VStr "PETR4"; VStr "VALE3"])
  = Ok (Single empty_frame).
Proof.
  apply (price_field_extractor_always_returns_table
           Sample.offline "open" "1d" "1d" (VList [VStr "PETR4"; VStr "VALE3"])).
  intros endpoint params. reflexivity.
Defined.

(** C10.  When the tickers list of a price-field extractor holds an element
    that is not a string, the turn of that element raises, the loop ends
    with an exception, the handler around the whole body returns the empty
    table, and nothing collected for the other tickers survives; a
    statement fetcher skips such an element and goes on. *)
Theorem price_field_extractor_drops_batch_on_non_string :
  forall (ext : Externals) (field range interval : string)
         (tickers : list value) (v : value),
    In v tickers ->
    is_str v = false ->
    (forall all_data, fetch_field_step field range interval all_data v
                      = Raise AttributeError) /\
    (exists e, fetch_field_body field range interval (VList tickers) = Raise e) /\
    fetch_quote_field field range interval (VList tickers) = Ok (Single empty_frame) /\
    (forall thousands module_key statements_key results,
        fetch_statements_step thousands module_key statements_key results v
        = Ok results).
Proof.
  intros ext field range interval tickers v Hin Hv. repeat split.
  - intros all_data. now apply fetch_field_step_non_string.
  - now apply fetch_field_body_raises_on_non_string with (v := v).
  - destruct (fetch_field_body_raises_on_non_string field range interval tickers v Hin Hv)
      as [e He].
    unfold fetch_quote_field. now rewrite He.
  - intros. destruct v; try discriminate; reflexivity.
Qed.

(** The property at the sample provider, with the integer 7 among the
    tickers. *)
Lemma price_field_extractor_drops_batch_on_non_string_witness :
  (forall all_data, @fetch_field_step Sample.online "open" "1d" "1d" all_data (VInt 7)
                    = Raise AttributeError) /\
  (exists e, @fetch_field_body Sample.online "open" "1d" "1d"
               (VList [VStr "PETR4"; VInt 7]) = Raise e) /\
  @fetch_quote_field Sample.online "open" "1d" "1d" (VList [VStr "PETR4"; VInt 7])
    = Ok (Single empty_frame) /\
  (forall thousands module_key statements_key results,
      @fetch_statements_step Sample.online thousands module_key statements_key
        results (VInt 7) = Ok results).
Proof.
  apply (price_field_extractor_drops_batch_on_non_string
           Sample.online "open" "1d" "1d" [VStr "PETR4"; VInt 7] (VInt 7)).
  - simpl. right. left. reflexivity.
  - reflexivity.
Defined.

(** Without the stray element the same provider yields PETR4's column. *)
Example fetch_quote_open_sample :
  @fetch_quote_open Sample.online "1d" "1d" (VList [VStr "PETR4"]) =
  Ok (Single {| tz_aware := true;
                columns := ["PETR4"];
                rows := [(1704067200%Z, [Some 10%Q])] |}) /\
  @fetch_quote_open Sample.online "1d" "1d" (VList [VStr "PETR4"; VInt 7]) =
  Ok (Single empty_frame).
Proof. split; reflexivity. Qed.

(** ** Series alignment *)

Lemma has_duplicates_false_iff (l : list Z) :
  has_duplicates l = false <-> NoDup l.
Proof.
  induction l as [|x l IH]; cbn [has_duplicates].
  - split; [constructor | reflexivity].
  - rewrite orb_false_iff, IH. split.
    + intros [Hx Hl]. constructor; [|assumption].
      intros Hin. assert (E : existsb (Z.eqb x) l = true).
      { apply existsb_exists. exists x. split; [assumption | apply Z.eqb_refl]. }
      congruence.
    + intros H. inversion H as [|? ? Hx Hl]; subst. split; [|assumption].
      destruct (existsb (Z.eqb x) l) eqn:E; [|reflexivity].
      apply existsb_exists in E. destruct E as (y & Hy & Hxy).
      apply Z.eqb_eq in Hxy. subst y. contradiction.
Qed.

Section Reindex.
Context {C : Type}.

Variable missing : C.

Lemma insert_row_permutation (r : Z * list C) (l : list (Z * list C)) :
  Permutation (insert_row r l) (r :: l).
Proof.
  induction l as [|r' l IH]; cbn [insert_row]; [reflexivity|].
  destruct (fst r <? fst r')%Z; [reflexivity|].
  rewrite IH. apply perm_swap.
Qed.

Lemma sorted_rows_permutation (l : list (Z * list C)) :
  Permutation (fold_right insert_row [] l) l.
Proof.
  induction l as [|r l IH]; cbn [fold_right]; [reflexivity|].
  rewrite insert_row_permutation. now constructor.
Qed.

Lemma insert_row_ascending (r : Z * list C) (l : list (Z * list C)) :
  ascending l -> ascending (insert_row r l).
Proof.
  unfold ascending.
  induction l as [|r' l IH]; cbn [insert_row]; intros Hs.
  - repeat constructor.
  - inversion Hs as [|? ? Hl Hall]; subst.
    destruct (fst r <? fst r')%Z eqn:E.
    + apply Z.ltb_lt in E. constructor; [assumption|].
      constructor; [lia|].
      eapply Forall_impl; [|exact Hall]. cbn. intros; lia.
    + apply Z.ltb_ge in E. constructor; [now apply IH|].
      eapply Permutation_Forall;
        [symmetry; apply insert_row_permutation|].
      constructor; [exact E | exact Hall].
Qed.

Lemma sorted_rows_ascending (l : list (Z * list C)) :
  ascending (fold_right insert_row [] l).
Proof.
  induction l as [|r l IH]; cbn [fold_right].
  - constructor.
  - now apply insert_row_ascending.
Qed.

(** In an ascending table [pad_row] finds nothing only when every row is
    dated after [d]. *)
Lemma pad_row_none (d : Z) (l : list (Z * list C)) :
  ascending l -> pad_row d l = None ->
  forall r, In r l -> (d < fst r)%Z.
Proof.
  unfold ascending.
  induction l as [|r0 l IH]; cbn [pad_row]; intros Hs Hpad r Hin; [contradiction|].
  inversion Hs as [|? ? Hl Hall]; subst.
  destruct (fst r0 <=? d)%Z eqn:E.
  - destruct (pad_row d l); discriminate.
  - apply Z.leb_gt in E. destruct Hin as [<-|Hin]; [assumption|].
    rewrite Forall_forall in Hall. specialize (Hall r Hin). cbn in Hall. lia.
Qed.

(** Otherwise it finds the cells of a row dated at or before [d] that no
    other such row is dated after. *)
Lemma pad_row_some (d : Z) (l : list (Z * list C)) (cells : list C) :
  ascending l -> pad_row d l = Some cells ->
  exists d0, In (d0, cells) l /\ (d0 <= d)%Z /\
             forall r, In r l -> (fst r <= d)%Z -> (fst r <= d0)%Z.
Proof.
  unfold ascending.
  induction l as [|r0 l IH]; cbn [pad_row]; intros Hs Hpad; [discriminate|].
  inversion Hs as [|? ? Hl Hall]; subst.
  destruct (fst r0 <=? d)%Z eqn:E; [|discriminate].
  apply Z.leb_le in E.
  destruct (pad_row d l) as [later|] eqn:Hlater.
  - inversion Hpad; subst later.
    destruct (IH Hl eq_refl) as (d0 & Hin & Hle & Hmax).
    exists d0. split; [now right|]. split; [assumption|].
    intros r [<-|Hr] Hrd.
    + rewrite Forall_forall in Hall. apply (Hall (d0, cells) Hin).
    + now apply Hmax.
  - inversion Hpad; subst cells.
    exists (fst r0). split; [left; now destruct r0|]. split; [assumption|].
    intros r [<-|Hr] Hrd; [lia|].
    pose proof (pad_row_none d l Hl Hlater r Hr). lia.
Qed.

End Reindex.

(** *** One ticker: the code's alignment is the specification's forward fill *)

Lemma latest_at_or_before_some {C} (d : Z) (s : list (Z * C)) (d1 : Z) (c1 : C) :
  latest_at_or_before d s = Some (d1, c1) ->
  In (d1, c1) s /\ (d1 <= d)%Z /\
  forall d' c', In (d', c') s -> (d' <= d)%Z -> (d' <= d1)%Z.
Proof.
  revert d1 c1.
  induction s as [|[d0 c0] s IH]; cbn [latest_at_or_before]; intros d1 c1 H;
    [discriminate|].
  destruct (d0 <=? d)%Z eqn:E0.
  - apply Z.leb_le in E0.
    destruct (latest_at_or_before d s) as [[d2 c2]|] eqn:Hlater.
    + destruct (IH d2 c2 eq_refl) as (Hin & Hle & Hmax).
      destruct (d0 <? d2)%Z eqn:E1; inversion H; subst.
      * apply Z.ltb_lt in E1. split; [now right|]. split; [assumption|].
        intros d' c' [Heq|Hin'] Hd'; [inversion Heq; subst; lia | eauto].
      * apply Z.ltb_ge in E1. split; [now left|]. split; [assumption|].
        intros d' c' [Heq|Hin'] Hd'; [inversion Heq; subst; lia|].
        specialize (Hmax d' c' Hin' Hd'). lia.
    + inversion H; subst. split; [now left|]. split; [assumption|].
      intros d' c' [Heq|Hin'] Hd'; [inversion Heq; subst; lia|].
      exfalso.
      assert (Hnone : forall d' c', In (d', c') s -> (d < d')%Z).
      { clear - Hlater. induction s as [|[d3 c3] s IHs]; [intros ? ? []|].
        cbn [latest_at_or_before] in Hlater.
        destruct (d3 <=? d)%Z eqn:E3.
        - destruct (latest_at_or_before d s) as [[d4 c4]|];
            [destruct (d3 <? d4)%Z|]; discriminate.
        - apply Z.leb_gt in E3. intros d' c' [Heq|Hin].
          + inversion Heq; subst; assumption.
          + eauto. }
      specialize (Hnone d' c' Hin'). lia.
  - apply Z.leb_gt in E0.
    destruct (IH d1 c1 H) as (Hin & Hle & Hmax).
    split; [now right|]. split; [assumption|].
    intros d' c' [Heq|Hin'] Hd'; [inversion Heq; subst; lia | eauto].
Qed.

Lemma latest_at_or_before_none {C} (d : Z) (s : list (Z * C)) :
  latest_at_or_before d s = None ->
  forall d' c', In (d', c') s -> (d < d')%Z.
Proof.
  induction s as [|[d0 c0] s IH]; cbn [latest_at_or_before]; intros H d' c' Hin;
    [contradiction|].
  destruct (d0 <=? d)%Z eqn:E0.
  - destruct (latest_at_or_before d s) as [[d2 c2]|];
      [destruct (d0 <? d2)%Z|]; discriminate.
  - apply Z.leb_gt in E0. destruct Hin as [Heq|Hin].
    + inversion Heq; subst; assumption.
    + eauto.
Qed.

Lemma series_value_unique {C} (s : list (Z * C)) (d : Z) (a b : C) :
  NoDup (map fst s) -> In (d, a) s -> In (d, b) s -> a = b.
Proof.
  induction s as [|[d0 c0] s IH]; cbn [map fst]; intros Hnd Ha Hb; [contradiction|].
  inversion Hnd as [|? ? Hd0 Hnd']; subst.
  destruct Ha as [Ha|Ha], Hb as [Hb|Hb].
  - congruence.
  - inversion Ha; subst. exfalso. apply Hd0.
    change d with (fst (d, b)). now apply in_map.
  - inversion Hb; subst. exfalso. apply Hd0.
    change d with (fst (d, a)). now apply in_map.
  - now apply IH.
Qed.

(** The one-column table of a series, sorted and padded, reads at every
    date what the specification's forward fill reads from the series. *)
Lemma pad_row_single_column (s : list (Z * cell)) (d : Z) :
  NoDup (map fst s) ->
  match pad_row d (fold_right insert_row []
                     (map (fun dc : Z * cell => (fst dc, [snd dc])) s)) with
  | Some cells => cells
  | None => [None]
  end
  = [match latest_at_or_before d s with
     | Some (_, c) => c
     | None => None
     end].
Proof.
  intros Hnd.
  set (table := map (fun dc : Z * cell => (fst dc, [snd dc])) s).
  assert (Hrows : forall d0 cells, In (d0, cells) table <->
                                   exists c, In (d0, c) s /\ cells = [c]).
  { intros d0 cells. unfold table. rewrite in_map_iff. split.
    - intros ([d' c'] & Heq & Hin). cbn in Heq. inversion Heq; subst. eauto.
    - intros (c & Hin & ->). exists (d0, c). auto. }
  pose proof (sorted_rows_ascending table) as Hasc.
  pose proof (sorted_rows_permutation table) as Hperm.
  destruct (pad_row d (fold_right insert_row [] table)) as [cells|] eqn:Hpad;
    destruct (latest_at_or_before d s) as [[d1 c1]|] eqn:Hlatest.
  - destruct (pad_row_some d _ cells Hasc Hpad) as (d0 & Hin0 & Hle0 & Hmax0).
    apply (Permutation_in _ Hperm) in Hin0. apply Hrows in Hin0.
    destruct Hin0 as (c & Hin0 & ->).
    destruct (latest_at_or_before_some d s d1 c1 Hlatest) as (Hin1 & Hle1 & Hmax1).
    assert (H01 : (d0 <= d1)%Z) by eauto.
    assert (H10 : (d1 <= d0)%Z).
    { apply (Hmax0 (d1, [c1])); [|assumption].
      apply (Permutation_in _ (Permutation_sym Hperm)). apply Hrows. eauto. }
    assert (d0 = d1) by lia. subst d1.
    f_equal. exact (series_value_unique s d0 c c1 Hnd Hin0 Hin1).
  - destruct (pad_row_some d _ cells Hasc Hpad) as (d0 & Hin0 & Hle0 & _).
    apply (Permutation_in _ Hperm) in Hin0. apply Hrows in Hin0.
    destruct Hin0 as (c & Hin0 & _).
    pose proof (latest_at_or_before_none d s Hlatest d0 c Hin0). lia.
  - destruct (latest_at_or_before_some d s d1 c1 Hlatest) as (Hin1 & Hle1 & _).
    assert (Hin : In (d1, [c1]) (fold_right insert_row [] table)).
    { apply (Permutation_in _ (Permutation_sym Hperm)). apply Hrows. eauto. }
    pose proof (pad_row_none d _ Hasc Hpad (d1, [c1]) Hin) as Hlt. cbn in Hlt. lia.
  - reflexivity.
Qed.

Lemma zip_rows_single_series (s : list (Z * cell)) :
  zip_rows None (map fst s) [map snd s]
  = map (fun dc : Z * cell => (fst dc, [snd dc])) s.
Proof.
  induction s as [|[d c] s IH]; [reflexivity|].
  cbn. apply f_equal. exact IH.
Qed.

Section AlignOne.
Context {ext : Externals}.

Lemma same_index_refl (i : list Z) : same_index i i = true.
Proof. unfold same_index. destruct (list_eq_dec Z.eq_dec i i); congruence. Qed.

(** X14.  A single balance sheet with one common-stock row and distinct
    period dates, aligned onto a one-column reference table whose column is
    the ticker's key.  When the index of the reference table is
    timezone-aware the result holds, at every reference date, the forward
    fill of the common-stock series; when it is naive, as the index of a
    table of [fetch_quote] is, the reindexing raises and the result is the
    empty table. *)
Lemma extract_common_stock_data_single_ticker
    (ticker stock_row key : string) (bs_df : MetricMatrix)
    (cells : list cell) (dates : list Z) (stock_data_df : frame cell) :
  find (fun name => existsb (fun r => fst r =? name) (mm_rows bs_df)) possible_names
    = Some stock_row ->
  loc_row stock_row bs_df = Ok cells ->
  map_res to_datetime (mm_columns bs_df) = Ok dates ->
  length cells = length dates ->
  NoDup dates ->
  columns stock_data_df = [key] ->
  key = (if str_contains ".SA" key then (replace_SA ticker ++ ".SA")%string
         else replace_SA ticker) ->
  extract_common_stock_data stock_data_df [(ticker, bs_df)]
  = Ok (if tz_aware stock_data_df
        then {| tz_aware := true;
                columns := [key];
                rows := map (fun d_c => (fst d_c, [snd d_c]))
                            (combine (index stock_data_df)
                                     (forward_fill (index stock_data_df)
                                                   (combine dates cells))) |}
        else empty_frame).
Proof.
  intros Hfind Hloc Hdates Hlen Hnd Hcols Hkey.
  assert (Hfst : map fst (combine dates cells) = dates).
  { clear - Hlen. revert cells Hlen.
    induction dates as [|d dates IH]; intros [|c cells] Hlen; cbn in *;
      try reflexivity; try discriminate.
    f_equal. apply IH. lia. }
  unfold extract_common_stock_data, extract_common_stock_body.
  cbn [for_each]. unfold common_stock_step. cbn [fst snd].
  rewrite Hfind, Hloc. cbn [bind]. rewrite Hdates. cbn [bind].
  rewrite Hcols. cbn [bind]. rewrite <- Hkey.
  cbn [dict_set bind]. unfold frame_of_series.
  cbn [map snd fst fold_left dict_keys map_res]. unfold align_series.
  rewrite same_index_refl. cbn [bind]. rewrite zip_rows_single_series.
  unfold select_columns. cbn [columns column_positions column_position].
  rewrite String.eqb_refl. cbn [bind rows tz_aware]. rewrite map_map.
  cbn [fst snd map nth].
  unfold reindex_ffill, sort_index. cbn [columns rows tz_aware].
  match goal with
  | |- try_except (if ?b then _ else _) _ = _ => assert (Hdup : b = false)
  end.
  { apply has_duplicates_false_iff. unfold index. cbn [rows].
    eapply Permutation_NoDup.
    - apply Permutation_map. symmetry. apply sorted_rows_permutation.
    - rewrite map_map. rewrite (map_ext _ fst) by (intros; reflexivity).
      now rewrite Hfst. }
  rewrite Hdup. destruct (tz_aware stock_data_df); cbn [Bool.eqb negb try_except];
    [|reflexivity].
  apply f_equal. apply f_equal.
  unfold forward_fill. cbn [map].
  induction (index stock_data_df) as [|d target IH]; [reflexivity|].
  cbn [map combine fst snd]. rewrite IH. apply (f_equal (fun x => x :: _)).
  apply f_equal. apply pad_row_single_column. now rewrite Hfst.
Qed.

End AlignOne.

(** The scenarios of the specification, one ticker at a time. *)
Example align_forward_fills_single_series :
  @extract_common_stock_data Sample.online (Sample.reference ["PETR4"])
    [("PETR4", Sample.common_stock_at "2024-01-01" 10)]
  = Ok {| tz_aware := true;
          columns := ["PETR4"];
          rows := [(Sample.d1, [Some 10%Q]);
                   (Sample.d2, [Some 10%Q]);
                   (Sample.d3, [Some 10%Q])] |}.
Proof. reflexivity. Qed.

Example align_null_before_first_value :
  @extract_common_stock_data Sample.online (Sample.reference ["PETR4"])
    [("PETR4", Sample.common_stock_at "2024-01-02" 5)]
  = Ok {| tz_aware := true;
          columns := ["PETR4"];
          rows := [(Sample.d1, [None]);
                   (Sample.d2, [Some 5%Q]);
                   (Sample.d3, [Some 5%Q])] |}.
Proof. reflexivity. Qed.

(** C5 (the code departs from the claim).  Two tickers whose statements
    fall on different dates: PETR4 has 10 at 2024-01-01, VALE3 has 5 at
    2024-01-02.  Forward fill gives PETR4 the column 10, 10, 10 over the
    reference dates 2024-01-01..03; the code returns 10, NaN, NaN, because
    the joint table has a row at VALE3's date in which PETR4's cell is NaN,
    and the reindexing copies cells of the latest row without looking at
    their values. *)
Theorem extract_common_stock_data_loses_value_across_tickers :
  let bs_data_dict := [("PETR4", Sample.common_stock_at "2024-01-01" 10);
                       ("VALE3", Sample.common_stock_at "2024-01-02" 5)] in
  let stock_data_df := Sample.reference ["PETR4"; "VALE3"] in
  forward_fill (index stock_data_df) [(Sample.d1, Some 10%Q)]
    = [Some 10%Q; Some 10%Q; Some 10%Q] /\
  exists result_df,
    @extract_common_stock_data Sample.online stock_data_df bs_data_dict = Ok result_df /\
    result_df = {| tz_aware := true;
                   columns := ["PETR4"; "VALE3"];
                   rows := [(Sample.d1, [Some 10%Q; None]);
                            (Sample.d2, [None; Some 5%Q]);
                            (Sample.d3, [None; Some 5%Q])] |} /\
    column None "PETR4" result_df = [Some 10%Q; None; None] /\
    column None "PETR4" result_df
      <> forward_fill (index stock_data_df) [(Sample.d1, Some 10%Q)].
Proof.
  cbv zeta. split; [reflexivity|].
  eexists. split; [reflexivity|]. split; [reflexivity|]. split; [reflexivity|].
  vm_compute. discriminate.
Qed.

(* ================================================================== *)
(** * Further properties of the wrapper *)
(* ================================================================== *)

(** ** Transport *)

(** X1.  [make_request] hands back something other than [None] only for a
    reply with status 200 whose body parsed as JSON and carries no truthy
    [error] entry at its top level, and what it hands back is that body
    routed. *)
Theorem make_request_result_comes_from_clean_200 :
  forall (ext : Externals) (endpoint : string) (params : list (string * value)),
    make_request endpoint params <> VNone ->
    exists payload,
      http_get (BASE_URL ++ endpoint) (with_token params) = Reply 200 (Some payload) /\
      (forall d e, payload = VDict d -> dict_get "error" d = Some e -> truthy e = false) /\
      make_request endpoint params = route_response payload.
Proof.
  intros ext endpoint params. unfold make_request.
  destruct (http_get _ _) as [|status json]; [intros H; now elim H|].
  destruct (status =? 400)%Z; [intros H; now elim H|].
  destruct (status =? 401)%Z; [intros H; now elim H|].
  destruct (status =? 402)%Z; [intros H; now elim H|].
  destruct (status =? 404)%Z; [intros H; now elim H|].
  destruct (status =? 417)%Z; [intros H; now elim H|].
  destruct (status =? 200)%Z eqn:E200; cbn [negb]; [|intros H; now elim H].
  apply Z.eqb_eq in E200. subst status.
  destruct json as [payload|]; [|intros H; now elim H].
  destruct payload as [ | b | z | q | s | l | l | d];
    try (intros _; eexists; split; [reflexivity|]; split; [discriminate|reflexivity]).
  destruct (dict_get "error" d) as [e|] eqn:Eerr.
  - destruct (truthy e) eqn:Et; [intros H; now elim H|].
    intros _. exists (VDict d). split; [reflexivity|]. split; [|reflexivity].
    intros d' e' Hd He. inversion Hd; subst d'. congruence.
  - intros _. exists (VDict d). split; [reflexivity|]. split; [|reflexivity].
    intros d' e' Hd He. inversion Hd; subst d'. congruence.
Qed.

(** The property at the sample provider, for PETR4's endpoint. *)
Lemma make_request_result_comes_from_clean_200_witness :
  exists payload,
    @http_get Sample.online (BASE_URL ++ "api/quote/PETR4.SA")
              (@with_token Sample.online []) = Reply 200 (Some payload) /\
    (forall d e, payload = VDict d -> dict_get "error" d = Some e -> truthy e = false) /\
    @make_request Sample.online "api/quote/PETR4.SA" [] = route_response payload.
Proof.
  apply (make_request_result_comes_from_clean_200 Sample.online "api/quote/PETR4.SA" []).
  vm_compute. discriminate.
Defined.

(** X2.  With a key configured, the query sent to the provider carries
    that key as [token], whatever token the caller put in the parameters,
    and every other parameter as the caller gave it. *)
Theorem with_token_overrides_caller_token :
  forall (ext : Externals) (key : string) (params : list (string * value)),
    API_KEY = Some key ->
    key <> "" ->
    dict_get "token" (with_token params) = Some (VStr key) /\
    forall name, name <> "token" ->
                 dict_get name (with_token params) = dict_get name params.
Proof.
  intros ext key params Hkey Hne. unfold with_token. rewrite Hkey.
  apply String.eqb_neq in Hne. rewrite Hne. split.
  - apply dict_get_set_same.
  - intros name Hname. now apply dict_get_set_other.
Qed.

(** ** One endpoint for both spellings of a ticker *)

Section SameEndpoint.
Context {ext : Externals}.

Variables (range interval : string) (fundamental dividends : bool) (modules : value).

Lemma fetch_quote_same_endpoint (t1 t2 : string) :
  ticker_sa t1 = ticker_sa t2 ->
  fetch_quote range interval fundamental dividends modules (VStr t1) =
  fetch_quote range interval fundamental dividends modules (VStr t2).
Proof.
  intros H. unfold fetch_quote, fetch_quote_body. cbn [bind for_each].
  unfold fetch_quote_step. rewrite H.
  destruct (negb (truthy _)); [reflexivity|].
  match goal with |- context [@bind value _ ?c _] => destruct c as [h|e] end;
    cbn [bind]; [|reflexivity].
  destruct (truthy h); [|reflexivity].
  destruct (quote_frame _ _ _ _ _) as [df|e]; cbn; [|reflexivity].
  now rewrite !String.eqb_refl.
Qed.

Variables (thousands : bool) (module_key statements_key : string).

Lemma fetch_statements_same_endpoint (t1 t2 : string) (df : MetricMatrix) :
  ticker_sa t1 = ticker_sa t2 ->
  fetch_statements thousands module_key statements_key (VStr t1)
    = Ok (Mapping [(t1, df)]) ->
  fetch_statements thousands module_key statements_key (VStr t2)
    = Ok (Mapping [(t2, df)]).
Proof.
  intros H. unfold fetch_statements, fetch_statements_body. cbn [bind for_each].
  unfold fetch_statements_step. rewrite H.
  destruct (negb (truthy _)); [discriminate|].
  match goal with
  | |- context [match ?r with VDict _ => _ | _ => _ end] =>
      destruct r as [ | ? | ? | ? | ? | ? | ? | d0 ]; try discriminate
  end.
  destruct (statements_of _ _ d0) as [s|e]; cbn [bind]; [|discriminate].
  destruct (truthy s); [|discriminate].
  destruct (py_iter s) as [items|e]; cbn [bind]; [|discriminate].
  destruct (for_each _ items []) as [dd|e]; cbn; [|discriminate].
  intros E. inversion E. reflexivity.
Qed.

End SameEndpoint.

(** X3.  A ticker and the same ticker with [.SA] appended are asked of the
    same endpoint: [fetch_quote] returns the same for both, and a statement
    fetcher returns the same table under the two spellings. *)
Theorem suffixed_ticker_fetches_the_same :
  forall (ext : Externals) (range interval : string)
         (fundamental dividends : bool) (modules : value) (t : string),
    ticker_sa (t ++ ".SA") = ticker_sa t /\
    fetch_quote range interval fundamental dividends modules (VStr (t ++ ".SA")) =
    fetch_quote range interval fundamental dividends modules (VStr t) /\
    forall (thousands : bool) (module_key statements_key : string) (df : MetricMatrix),
      fetch_statements thousands module_key statements_key (VStr t)
        = Ok (Mapping [(t, df)]) <->
      fetch_statements thousands module_key statements_key (VStr (t ++ ".SA"))
        = Ok (Mapping [((t ++ ".SA")%string, df)]).
Proof.
  intros ext range interval fundamental dividends modules t.
  assert (H : ticker_sa (t ++ ".SA") = ticker_sa t)
    by (unfold ticker_sa; now rewrite replace_SA_app_suffix).
  split; [exact H|]. split.
  - now apply fetch_quote_same_endpoint.
  - intros thousands module_key statements_key df. split.
    + apply fetch_statements_same_endpoint. now symmetry.
    + now apply fetch_statements_same_endpoint.
Qed.

(** X4.  Canonicalising a ticker twice gives what canonicalising it once
    gives whenever the first removal of [.SA] leaves no [.SA] behind. *)
Theorem ticker_sa_idempotent_on_clean_tickers :
  forall t : string,
    str_contains ".SA" (replace_SA t) = false ->
    ticker_sa (ticker_sa t) = ticker_sa t /\ ticker_sa t = (replace_SA t ++ ".SA")%string.
Proof.
  intros t H. split; [|reflexivity].
  apply ticker_sa_idempotent_iff. now apply replace_SA_without_occurrence.
Qed.

(** The property on a ticker given with its suffix. *)
Lemma ticker_sa_idempotent_on_clean_tickers_witness :
  ticker_sa (ticker_sa "PETR4.SA") = ticker_sa "PETR4.SA" /\
  ticker_sa "PETR4.SA" = (replace_SA "PETR4.SA" ++ ".SA")%string.
Proof.
  apply (ticker_sa_idempotent_on_clean_tickers "PETR4.SA"). reflexivity.
Defined.

(** ** Batches of tickers in the statement fetchers *)

Lemma dict_set_keys_nodup {V} (k : string) (v : V) (d : list (string * V)) :
  NoDup (dict_keys d) -> NoDup (dict_keys (dict_set k v d)).
Proof.
  unfold dict_keys.
  induction d as [|[k0 v0] d IH]; cbn [dict_set map fst]; intros Hnd.
  - constructor; [intros [] | constructor].
  - inversion Hnd as [|? ? Hk0 Hd]; subst.
    destruct (k0 =? k) eqn:E; cbn [map fst].
    + constructor; assumption.
    + constructor; [|now apply IH].
      intros Hin. apply (dict_keys_set k k0 v d) in Hin.
      apply String.eqb_neq in E. destruct Hin; [congruence | contradiction].
Qed.

Lemma dict_set_in {V} (k : string) (v : V) (d : list (string * V)) (k' : string) (v' : V) :
  In (k', v') (dict_set k v d) -> (k' = k /\ v' = v) \/ In (k', v') d.
Proof.
  induction d as [|[k0 v0] d IH]; cbn [dict_set].
  - intros [H|[]]. inversion H. auto.
  - destruct (k0 =? k) eqn:E.
    + apply String.eqb_eq in E. subst k0.
      intros [H|H]; [inversion H; auto | right; now right].
    + intros [H|H]; [right; now left|].
      destruct (IH H) as [?|?]; [now left | right; now right].
Qed.

Section Batches.
Context {ext : Externals}.

Variables (thousands : bool) (module_key statements_key : string).

Local Abbreviation statements_step := (fetch_statements_step thousands module_key statements_key).
Local Abbreviation statements := (fetch_statements thousands module_key statements_key).
Local Abbreviation own := (own_table thousands module_key statements_key).

(** A ticker's turn does to any dict what it does to the empty one. *)
Lemma fetch_statements_step_any_dict (results : list (string * MetricMatrix)) (t : string) :
  statements_step results (VStr t) =
  match statements_step [] (VStr t) with
  | Ok [] => Ok results
  | Ok ((_, df) :: _) => Ok (dict_set t df results)
  | Raise e => Raise e
  end.
Proof.
  unfold fetch_statements_step.
  destruct (negb (truthy _)); [reflexivity|].
  match goal with
  | |- context [match ?r with VDict _ => _ | _ => _ end] =>
      destruct r as [ | ? | ? | ? | ? | ? | ? | d0 ]; try reflexivity
  end.
  destruct (statements_of _ _ d0) as [s|e]; cbn [bind]; [|reflexivity].
  destruct (truthy s); [|reflexivity].
  destruct (py_iter s) as [items|e]; cbn [bind]; [|reflexivity].
  destruct (for_each _ items []) as [dd|e]; cbn [bind dict_set]; reflexivity.
Qed.

Lemma own_table_iff_single (t : string) (df : MetricMatrix) :
  own t = Some df <-> statements (VStr t) = Ok (Mapping [(t, df)]).
Proof.
  unfold own_table, fetch_statements, fetch_statements_body. cbn [bind for_each].
  destruct (fetch_statements_step_single thousands module_key statements_key t)
    as [E|[[df' E]|[e E]]]; rewrite E; cbn; split; intros H;
    try discriminate; inversion H; reflexivity.
Qed.

Lemma is_ticker_exists (t : string) (l : list value) :
  existsb (is_ticker t) l = true <-> In (VStr t) l.
Proof.
  rewrite existsb_exists. split.
  - intros (v & Hin & Hv). destruct v; try discriminate.
    cbn in Hv. apply String.eqb_eq in Hv. now subst.
  - intros Hin. exists (VStr t). split; [assumption|]. cbn. apply String.eqb_refl.
Qed.

(** After the loop a ticker's entry is its own table when it was asked for
    and has one, and what the dict held before otherwise. *)
Lemma fetch_statements_loop_lookup (l : list value) :
  forall (acc m : list (string * MetricMatrix)) (t : string),
    for_each statements_step l acc = Ok m ->
    dict_get t m =
    match (if existsb (is_ticker t) l then own t else None) with
    | Some df => Some df
    | None => dict_get t acc
    end.
Proof.
  induction l as [|x l IH]; intros acc m t Hrun; cbn [for_each] in Hrun.
  - inversion Hrun. reflexivity.
  - destruct (statements_step acc x) as [acc1|e] eqn:Hstep; cbn [bind] in Hrun;
      [|discriminate].
    rewrite (IH acc1 m t Hrun). cbn [existsb].
    destruct x as [ | b | z | q | s | l0 | l0 | d];
      try (cbn in Hstep; inversion Hstep; subst acc1; cbn [is_ticker orb]; reflexivity).
    rewrite fetch_statements_step_any_dict in Hstep.
    cbn [is_ticker]. unfold own_table at 2.
    destruct (s =? t) eqn:Est; cbn [orb].
    + apply String.eqb_eq in Est. subst s. unfold own_table.
      destruct (statements_step [] (VStr t)) as [[|[k df] rest]|e'] eqn:Hown;
        try discriminate; inversion Hstep; subst acc1.
      * now destruct (existsb (is_ticker t) l).
      * rewrite dict_get_set_same. now destruct (existsb (is_ticker t) l).
    + apply String.eqb_neq in Est.
      assert (Hsame : dict_get t acc1 = dict_get t acc).
      { destruct (statements_step [] (VStr s)) as [[|[k df] rest]|e'];
          try discriminate; inversion Hstep; subst acc1; [reflexivity|].
        apply dict_get_set_other. congruence. }
      now rewrite Hsame.
Qed.

Lemma fetch_statements_loop_nodup (l : list value) (m : list (string * MetricMatrix)) :
  for_each statements_step l [] = Ok m -> NoDup (dict_keys m).
Proof.
  apply (for_each_invariant (fun s : list (string * MetricMatrix) => NoDup (dict_keys s))).
  - intros s x s' _ Hs Hstep.
    destruct (fetch_statements_step_effect _ _ _ _ _ _ Hstep)
      as [->|(t & df & -> & ->)]; [assumption | now apply dict_set_keys_nodup].
  - constructor.
Qed.

Lemma fetch_statements_skips_non_strings (l : list value) :
  statements (VList l) = statements (VList (filter is_str l)).
Proof.
  unfold fetch_statements, fetch_statements_body. cbn [bind].
  rewrite (for_each_filter statements_step is_str l); [reflexivity|].
  intros s x Hx. destruct x; try discriminate; reflexivity.
Qed.

End Batches.

(** X5.  A statement fetcher ignores the elements of the list that are not
    strings: the result is what the list without them gives. *)
Theorem statement_fetcher_ignores_non_string_tickers :
  forall (ext : Externals) (tickers : list value),
    fetch_balance_sheet_history (VList tickers)
      = fetch_balance_sheet_history (VList (filter is_str tickers)) /\
    fetch_balance_sheet_history_quarterly (VList tickers)
      = fetch_balance_sheet_history_quarterly (VList (filter is_str tickers)) /\
    fetch_income_statement_history (VList tickers)
      = fetch_income_statement_history (VList (filter is_str tickers)) /\
    fetch_income_statement_history_quarterly (VList tickers)
      = fetch_income_statement_history_quarterly (VList (filter is_str tickers)).
Proof.
  intros. repeat split; apply fetch_statements_skips_non_strings.
Qed.

(** X6.  When a statement fetcher returns a mapping for a list, a ticker
    has an entry exactly when it is in the list and a call for it alone
    returns a table, and the entry is that table.  When the turn of one
    ticker of the list raises, the call for the list returns [None],
    whatever the other tickers would have given. *)
Theorem batch_entry_is_the_single_result :
  forall (ext : Externals) (thousands : bool) (module_key statements_key : string)
         (tickers : list value),
    (forall m : list (string * MetricMatrix),
        fetch_statements thousands module_key statements_key (VList tickers)
          = Ok (Mapping m) ->
        forall (t : string) (df : MetricMatrix),
          dict_get t m = Some df <->
          In (VStr t) tickers /\
          fetch_statements thousands module_key statements_key (VStr t)
            = Ok (Mapping [(t, df)])) /\
    (forall (t : string) (e : exc),
        In (VStr t) tickers ->
        fetch_statements_body thousands module_key statements_key (VStr t) = Raise e ->
        fetch_statements thousands module_key statements_key (VList tickers) = Ok Null).
Proof.
  intros ext thousands module_key statements_key tickers. split.
  - intros m Hm t df.
    unfold fetch_statements, fetch_statements_body in Hm. cbn [bind] in Hm.
    destruct (for_each _ tickers []) as [results|e] eqn:Hrun; cbn in Hm; [|discriminate].
    assert (results = m) by (destruct results; inversion Hm; reflexivity). subst results.
    rewrite (fetch_statements_loop_lookup thousands module_key statements_key
               tickers [] m t Hrun).
    rewrite <- own_table_iff_single. rewrite <- is_ticker_exists.
    destruct (existsb (is_ticker t) tickers); cbn [dict_get].
    + destruct (own_table thousands module_key statements_key t); split.
      * intros H; inversion H; auto.
      * intros [_ H]; exact H.
      * discriminate.
      * intros [_ H]; discriminate.
    + split; [discriminate | intros [H _]; discriminate].
  - intros t e Hin Hraise.
    assert (Hstep : exists e', fetch_statements_step thousands module_key statements_key
                                 [] (VStr t) = Raise e').
    { unfold fetch_statements_body in Hraise. cbn [bind for_each] in Hraise.
      destruct (fetch_statements_step thousands module_key statements_key [] (VStr t))
        as [[|r results]|e']; cbn in Hraise; try discriminate. eauto. }
    destruct Hstep as [e' He'].
    destruct (for_each_raises
                (fetch_statements_step thousands module_key statements_key)
                tickers (VStr t) Hin) with (s := @nil (string * MetricMatrix))
      as [e'' Hrun].
    { intros s. exists e'. rewrite fetch_statements_step_any_dict. now rewrite He'. }
    unfold fetch_statements, fetch_statements_body. cbn [bind]. now rewrite Hrun.
Qed.

(** The property at the sample providers: asked for PETR4 and EMPT3; and
    asked for WIDE3, which has a table, together with ODD3, whose turn
    raises. *)
Lemma batch_entry_is_the_single_result_witness :
  (dict_get "PETR4"
     [("PETR4", {| mm_columns := ["2023-12-31"];
                   mm_rows := [("Cash", [Some 5%Q]); ("Auditor", [None])] |})]
     = Some {| mm_columns := ["2023-12-31"];
               mm_rows := [("Cash", [Some 5%Q]); ("Auditor", [None])] |} <->
   In (VStr "PETR4") [VStr "PETR4"; VStr "EMPT3"] /\
   @fetch_balance_sheet_history Sample.online (VStr "PETR4")
     = Ok (Mapping [("PETR4",
                     {| mm_columns := ["2023-12-31"];
                        mm_rows := [("Cash", [Some 5%Q]);
                                    ("Auditor", [None])] |})])) /\
  @fetch_balance_sheet_history SampleOdd.online (VList [VStr "WIDE3"; VStr "ODD3"])
    = Ok Null.
Proof.
  split.
  - apply (proj1 (batch_entry_is_the_single_result Sample.online true
                    "balanceSheetHistory" "balanceSheetStatements"
                    [VStr "PETR4"; VStr "EMPT3"])).
    reflexivity.
  - apply (proj2 (batch_entry_is_the_single_result SampleOdd.online true
                    "balanceSheetHistory" "balanceSheetStatements"
                    [VStr "WIDE3"; VStr "ODD3"])
             "ODD3" TypeError).
    + simpl. right. left. reflexivity.
    + reflexivity.
Defined.

(** X7.  A statement fetcher returns [None] or a mapping that is not
    empty and has no key twice; it never returns an empty mapping or a bare
    table. *)
Theorem statement_fetcher_returns_null_or_nonempty_mapping :
  forall (ext : Externals) (thousands : bool) (module_key statements_key : string)
         (tickers : value),
    fetch_statements thousands module_key statements_key tickers = Ok Null \/
    exists m,
      fetch_statements thousands module_key statements_key tickers = Ok (Mapping m) /\
      m <> [] /\ NoDup (dict_keys m).
Proof.
  intros ext thousands module_key statements_key tickers.
  unfold fetch_statements, fetch_statements_body.
  match goal with |- context [@bind (list value) _ ?c _] => destruct c as [l|e] end;
    cbn [bind try_except]; [|now left].
  destruct (for_each _ l []) as [[|r results]|e] eqn:Hrun; cbn [bind try_except];
    [now left | | now left].
  right. exists (r :: results). split; [reflexivity|]. split; [discriminate|].
  exact (fetch_statements_loop_nodup _ _ _ _ _ Hrun).
Qed.

(** ** The shape of what [fetch_quote] returns *)

Section QuoteShape.
Context {ext : Externals}.

Variables (range interval : string) (fundamental dividends : bool) (modules : value).

Local Abbreviation quote_step := (fetch_quote_step range interval fundamental dividends modules).
Local Abbreviation quote := (fetch_quote range interval fundamental dividends modules).

Lemma fetch_quote_loop_nodup (l : list value) (m : list (string * QuoteFrame)) :
  for_each quote_step l [] = Ok m -> NoDup (dict_keys m).
Proof.
  apply (for_each_invariant (fun s : list (string * QuoteFrame) => NoDup (dict_keys s))).
  - intros s x s' _ Hs Hstep.
    destruct (fetch_quote_step_effect _ _ _ _ _ _ _ _ Hstep)
      as [->|(t & df & -> & ->)]; [assumption | now apply dict_set_keys_nodup].
  - constructor.
Qed.

Lemma fetch_quote_shape_of_list (l : list value) :
  (forall m, quote (VList l) = Ok (Mapping m) ->
             (2 <= length l)%nat /\ NoDup (dict_keys m)) /\
  (forall df, quote (VList l) = Ok (Single df) ->
              exists t, l = [VStr t] /\ quote_step [] (VStr t) = Ok [(t, df)]).
Proof.
  unfold fetch_quote, fetch_quote_body. cbn [bind].
  destruct (for_each quote_step l []) as [results|e] eqn:Hrun; cbn [bind try_except];
    [|split; intros ? H; discriminate].
  destruct (1 <? length l)%nat eqn:Hlen.
  - split; [|intros ? H; discriminate].
    intros m H. inversion H; subst m. apply Nat.ltb_lt in Hlen. split; [lia|].
    now apply fetch_quote_loop_nodup with (l := l).
  - apply Nat.ltb_ge in Hlen.
    destruct results as [|r results]; [split; intros ? H; discriminate|].
    destruct l as [|x [|y l]]; cbn in Hlen; try lia.
    + cbn in Hrun. discriminate.
    + cbn [for_each] in Hrun.
      destruct (quote_step [] x) as [s1|e] eqn:Hstep; cbn [bind] in Hrun; [|discriminate].
      inversion Hrun; subst s1.
      destruct (fetch_quote_step_effect _ _ _ _ _ _ _ _ Hstep)
        as [Heq|(t & df & -> & Heq)]; [discriminate|].
      cbn [dict_set] in Heq. rewrite Heq. cbn. rewrite String.eqb_refl. cbn.
      split; [intros ? H; discriminate|].
      intros df0 H. inversion H; subst df0. exists t. split; [reflexivity|].
      now rewrite <- Heq.
Qed.

(** Turns that find no usable response leave the dict as it is. *)
Lemma fetch_quote_loop_without_data (l : list value)
    (acc : list (string * QuoteFrame)) :
  (forall endpoint params, truthy (make_request endpoint params) = false) ->
  for_each quote_step l acc = Ok acc.
Proof.
  intros Hdown. induction l as [|x l IH]; cbn [for_each]; [reflexivity|].
  assert (Hx : quote_step acc x = Ok acc).
  { unfold fetch_quote_step. destruct x; try reflexivity. now rewrite Hdown. }
  rewrite Hx. exact IH.
Qed.

End QuoteShape.

(** X8.  [fetch_quote] returns a mapping only when given two or more
    tickers, and then without a key twice; it returns a bare table only
    when given exactly one ticker, a string, and the table is the one that
    ticker's turn produced.  A one-element list is treated like the single
    string. *)
Theorem fetch_quote_shape_follows_ticker_count :
  forall (ext : Externals) (range interval : string)
         (fundamental dividends : bool) (modules : value) (tickers : value),
    (forall m,
        fetch_quote range interval fundamental dividends modules tickers
          = Ok (Mapping m) ->
        (2 <= length (given_tickers tickers))%nat /\ NoDup (dict_keys m)) /\
    (forall df,
        fetch_quote range interval fundamental dividends modules tickers
          = Ok (Single df) ->
        exists t,
          given_tickers tickers = [VStr t] /\
          fetch_quote_step range interval fundamental dividends modules [] (VStr t)
            = Ok [(t, df)]).
Proof.
  intros ext range interval fundamental dividends modules tickers.
  destruct tickers as [ | b | z | q | t | l | l | d];
    try (split; intros ? H; discriminate).
  - apply (fetch_quote_shape_of_list range interval fundamental dividends modules
             [VStr t]).
  - apply fetch_quote_shape_of_list.
  - apply (fetch_quote_shape_of_list range interval fundamental dividends modules l).
Qed.

(** The property at the sample provider, asked for PETR4 and VALE3. *)
Lemma fetch_quote_shape_follows_ticker_count_witness :
  (2 <= length (given_tickers (VList [VStr "PETR4"; VStr "VALE3"])))%nat /\
  NoDup (dict_keys
           [("PETR4", [VDict [("date", VInt 1704067200); ("open", VFloat 10);
                              ("close", VFloat 11)]]);
            ("VALE3", [VDict [("date", VInt 1704067200); ("open", VFloat 10);
                              ("close", VFloat 11)]])]).
Proof.
  apply (proj1 (fetch_quote_shape_follows_ticker_count Sample.online "1d" "1d"
                  false false VNone (VList [VStr "PETR4"; VStr "VALE3"]))).
  reflexivity.
Defined.

(** X9.  When no endpoint yields a usable response, [fetch_quote] returns
    an empty mapping for two or more tickers and [None] otherwise, and the
    statement fetchers return [None] however many tickers they were given. *)
Theorem fetchers_without_data :
  forall (ext : Externals) (range interval : string)
         (fundamental dividends : bool) (modules : value)
         (thousands : bool) (module_key statements_key : string) (tickers : value),
    (forall endpoint params, truthy (make_request endpoint params) = false) ->
    fetch_quote range interval fundamental dividends modules tickers
      = (if (2 <=? length (given_tickers tickers))%nat then Ok (Mapping [])
         else Ok Null) /\
    fetch_statements thousands module_key statements_key tickers = Ok Null.
Proof.
  intros ext range interval fundamental dividends modules thousands
         module_key statements_key tickers Hdown.
  assert (Hst : forall l acc,
             for_each (fetch_statements_step thousands module_key statements_key) l acc
             = Ok acc).
  { induction l as [|x l IH]; intros acc; cbn [for_each]; [reflexivity|].
    assert (Hx : fetch_statements_step thousands module_key statements_key acc x = Ok acc).
    { unfold fetch_statements_step. destruct x; try reflexivity. now rewrite Hdown. }
    rewrite Hx. apply IH. }
  assert (Hq : forall l,
             fetch_quote range interval fundamental dividends modules (VList l)
             = (if (2 <=? length l)%nat then Ok (Mapping []) else Ok Null)).
  { intros l. unfold fetch_quote, fetch_quote_body. cbn [bind].
    rewrite (fetch_quote_loop_without_data range interval fundamental dividends
               modules l [] Hdown).
    cbn [bind]. destruct l as [|x [|y l]]; reflexivity. }
  split.
  - destruct tickers as [ | b | z | q | t | l | l | d]; try reflexivity.
    + apply (Hq [VStr t]).
    + apply Hq.
    + apply (Hq l).
  - unfold fetch_statements, fetch_statements_body.
    destruct tickers as [ | b | z | q | t | l | l | d]; try reflexivity;
      cbn [bind]; rewrite Hst; reflexivity.
Qed.

(** The property when the provider cannot be reached. *)
Lemma fetchers_without_data_witness :
  @fetch_quote Sample.offline "1d" "1d" false false VNone
     (VList [VStr "PETR4"; VStr "VALE3"])
    = (if (2 <=? length (given_tickers (VList [VStr "PETR4"; VStr "VALE3"])))%nat
       then Ok (Mapping []) else Ok Null) /\
  @fetch_statements Sample.offline true "balanceSheetHistory" "balanceSheetStatements"
     (VList [VStr "PETR4"; VStr "VALE3"]) = Ok Null.
Proof.
  apply (fetchers_without_data Sample.offline "1d" "1d" false false VNone true
           "balanceSheetHistory" "balanceSheetStatements"
           (VList [VStr "PETR4"; VStr "VALE3"])).
  intros endpoint params. reflexivity.
Defined.

(** ** The table of a price-field extractor *)

Section SeriesTable.
Context {ext : Externals} {C : Type}.

Variable missing : C.

Lemma zip_rows_width (idx : list Z) :
  forall (cells : list (list C)) (r : Z * list C),
    In r (zip_rows missing idx cells) -> length (snd r) = length cells.
Proof.
  induction idx as [|d idx IH]; intros cells r; cbn [zip_rows]; [intros []|].
  intros [<-|Hin].
  - cbn [snd]. apply length_map.
  - rewrite (IH _ _ Hin). apply length_map.
Qed.

Lemma map_res_length {A B} (f : A -> res B) (l : list A) (bs : list B) :
  map_res f l = Ok bs -> length bs = length l.
Proof.
  revert bs. induction l as [|a l IH]; cbn [map_res]; intros bs.
  - intros H; inversion H. reflexivity.
  - destruct (f a) as [b|e]; cbn [bind]; [|discriminate].
    destruct (map_res f l) as [bs'|e]; cbn [bind]; [|discriminate].
    intros H; inversion H. cbn [length]. now rewrite (IH bs' eq_refl).
Qed.

(** A table built from a dict of series has the dict's keys as columns and
    one cell per column in every row. *)
Lemma frame_of_series_shape (tz : bool) (all_data : list (string * list (Z * C)))
    (df : frame C) :
  frame_of_series missing tz all_data = Ok df ->
  columns df = dict_keys all_data /\
  forall r, In r (rows df) -> length (snd r) = length (columns df).
Proof.
  unfold frame_of_series.
  destruct all_data as [|kv all_data]; cbn [map].
  - intros H; inversion H. split; [reflexivity | intros r []].
  - match goal with
    | |- context [map_res ?f ?l] => destruct (map_res f l) as [cells|e] eqn:Hcells
    end; cbn [bind]; [|discriminate].
    intros H; inversion H. cbn [columns rows]. split; [reflexivity|].
    intros r Hin. rewrite (zip_rows_width _ _ _ Hin).
    rewrite (map_res_length _ _ _ Hcells).
    unfold dict_keys. cbn [map length]. now rewrite !length_map.
Qed.

End SeriesTable.

Section PriceTable.
Context {ext : Externals}.

Variables (field range interval : string).

Local Abbreviation field_step := (fetch_field_step field range interval).

Lemma fetch_field_step_effect (all_data all_data' : list (string * list (Z * value)))
    (ticker : value) :
  field_step all_data ticker = Ok all_data' ->
  exists t, ticker = VStr t /\
            (all_data' = all_data \/ exists series, all_data' = dict_set t series all_data).
Proof.
  unfold fetch_field_step.
  destruct ticker as [ | b | z | q | t | l | l | d]; try discriminate.
  intros H. exists t. split; [reflexivity|]. revert H.
  destruct (negb (truthy _)); [intros H; inversion H; now left|].
  match goal with |- context [@bind value _ ?c _] => destruct c as [h|e] end;
    cbn [bind]; [|discriminate].
  destruct (truthy h); [|intros H; inversion H; now left].
  destruct (history_series field h) as [series|e]; cbn [bind]; [|discriminate].
  intros H; inversion H. right. eauto.
Qed.

Lemma fetch_field_loop_facts (l : list value) (all_data : list (string * list (Z * value))) :
  for_each field_step l [] = Ok all_data ->
  NoDup (dict_keys all_data) /\
  (forall k, In k (dict_keys all_data) -> In (VStr k) l) /\
  (forall v, In v l -> is_str v = true).
Proof.
  intros Hrun. split; [|split].
  - revert Hrun.
    apply (for_each_invariant
             (fun s : list (string * list (Z * value)) => NoDup (dict_keys s))).
    + intros s x s' _ Hs Hstep.
      destruct (fetch_field_step_effect _ _ _ Hstep) as (t & -> & [->|[series ->]]);
        [assumption | now apply dict_set_keys_nodup].
    + constructor.
  - revert Hrun.
    apply (for_each_invariant
             (fun s : list (string * list (Z * value)) =>
                forall k, In k (dict_keys s) -> In (VStr k) l)).
    + intros s x s' Hx Hs Hstep k Hk.
      destruct (fetch_field_step_effect _ _ _ Hstep) as (t & -> & [->|[series ->]]);
        [now apply Hs|].
      destruct (dict_keys_set _ _ _ _ Hk) as [->|Hin]; auto.
    + intros k [].
  - intros v Hin. destruct (is_str v) eqn:Ev; [reflexivity|].
    destruct (for_each_raises field_step l v Hin) with (s := @nil (string * list (Z * value)))
      as [e He].
    + intros s. exists AttributeError. now apply fetch_field_step_non_string.
    + congruence.
Qed.

End PriceTable.

(** X10.  The table a price-field extractor returns for a list has one
    column per distinct ticker that yielded data, named as the caller
    spelled it, and as many cells in every row as it has columns; and it has
    columns at all only if every element of the list is a string. *)
Theorem price_table_columns_are_given_tickers :
  forall (ext : Externals) (field range interval : string)
         (tickers : list value) (f : frame cell),
    fetch_quote_field field range interval (VList tickers) = Ok (Single f) ->
    NoDup (columns f) /\
    (forall c, In c (columns f) -> In (VStr c) tickers) /\
    (forall r, In r (rows f) -> length (snd r) = length (columns f)) /\
    (columns f <> [] -> forall v, In v tickers -> is_str v = true).
Proof.
  intros ext field range interval tickers f.
  assert (Hempty : NoDup (columns (@empty_frame cell)) /\
                   (forall c, In c (columns (@empty_frame cell)) -> In (VStr c) tickers) /\
                   (forall r, In r (rows (@empty_frame cell)) ->
                              length (snd r) = length (columns (@empty_frame cell))) /\
                   (columns (@empty_frame cell) <> [] ->
                    forall v, In v tickers -> is_str v = true)).
  { cbn. repeat split; try constructor; try tauto. }
  unfold fetch_quote_field, fetch_field_body. cbn [py_iter bind].
  destruct (for_each _ tickers []) as [all_data|e] eqn:Hrun; cbn [bind try_except];
    [|intros H; inversion H; exact Hempty].
  destruct all_data as [|kv all_data]; [intros H; inversion H; exact Hempty|].
  destruct (frame_of_series VNone true (kv :: all_data)) as [df|e] eqn:Hdf;
    cbn [bind try_except]; [|intros H; inversion H; exact Hempty].
  intros H; inversion H; subst f. clear H.
  destruct (frame_of_series_shape VNone _ _ _ Hdf) as [Hcols Hrows].
  destruct (fetch_field_loop_facts field range interval _ _ Hrun) as (Hnd & Hkeys & Hstr).
  unfold _convert_to_float64. cbn [columns rows]. rewrite Hcols.
  repeat split; auto.
  intros r Hin. apply in_map_iff in Hin. destruct Hin as (r0 & <- & Hin0).
  cbn [snd]. rewrite length_map. rewrite (Hrows r0 Hin0). now rewrite Hcols.
Qed.

(** The property at the sample provider, asked for PETR4 and VALE3. *)
Lemma price_table_columns_are_given_tickers_witness :
  NoDup ["PETR4"; "VALE3"] /\
  (forall c, In c ["PETR4"; "VALE3"] -> In (VStr c) [VStr "PETR4"; VStr "VALE3"]) /\
  (forall r, In r [(1704067200%Z, [Some 10%Q; Some 10%Q])] ->
             length (snd r) = length ["PETR4"; "VALE3"]) /\
  (["PETR4"; "VALE3"] <> [] ->
   forall v, In v [VStr "PETR4"; VStr "VALE3"] -> is_str v = true).
Proof.
  apply (price_table_columns_are_given_tickers Sample.online "open" "1d" "1d"
           [VStr "PETR4"; VStr "VALE3"]
           {| tz_aware := true;
              columns := ["PETR4"; "VALE3"];
              rows := [(1704067200%Z, [Some 10%Q; Some 10%Q])] |}).
  reflexivity.
Defined.

(** A ticker whose history repeats an instant, beside one that has it
    once: the repeated index is the union, and the other column is read at
    it twice. *)
Example fetch_quote_open_repeated_instant :
  @fetch_quote_open SampleOdd.online "1d" "1d" (VList [VStr "TWICE3"; VStr "ONCE3"])
  = Ok (Single {| tz_aware := true;
                  columns := ["TWICE3"; "ONCE3"];
                  rows := [(1704067200%Z, [Some 1%Q; Some 3%Q]);
                           (1704067200%Z, [Some 2%Q; Some 3%Q])] |}).
Proof. reflexivity. Qed.

(** ** The tables of the statement fetchers *)

(** The table of any pivot: period columns strictly ascending and exactly
    the periods recorded, one row per metric with one cell per period. *)
Lemma tabulate_shape {ext : Externals} (dd : list (string * list (string * value))) :
  StronglySorted label_lt (mm_columns (tabulate dd)) /\
  (forall d, In d (mm_columns (tabulate dd)) <->
             exists key by_date, In (key, by_date) dd /\ In d (dict_keys by_date)) /\
  (forall row, In row (mm_rows (tabulate dd)) ->
               length (snd row) = length (mm_columns (tabulate dd))) /\
  map fst (mm_rows (tabulate dd)) = map metric_label (dict_keys dd).
Proof.
  unfold tabulate. cbn [mm_columns mm_rows].
  split; [|split; [|split]].
  - apply sorted_labels_sorted.
  - intros d. rewrite sorted_labels_in, in_flat_map. split.
    + intros ([key by_date] & Hin & Hd). eauto.
    + intros (key & by_date & Hin & Hd). exists (key, by_date). auto.
  - intros row Hin. apply in_map_iff in Hin. destruct Hin as (kv & <- & _).
    cbn [snd]. apply length_map.
  - unfold dict_keys. rewrite !map_map. reflexivity.
Qed.

(** X11.  Every table in the mapping a statement fetcher returns has its
    period columns in strictly ascending order, hence none twice, and in
    every row as many cells as there are periods. *)
Theorem statement_tables_are_sorted_and_rectangular :
  forall (ext : Externals) (thousands : bool) (module_key statements_key : string)
         (tickers : value) (m : list (string * MetricMatrix))
         (t : string) (df : MetricMatrix),
    fetch_statements thousands module_key statements_key tickers = Ok (Mapping m) ->
    In (t, df) m ->
    StronglySorted label_lt (mm_columns df) /\
    (forall row, In row (mm_rows df) -> length (snd row) = length (mm_columns df)).
Proof.
  intros ext thousands module_key statements_key tickers m t df Hm Hin.
  unfold fetch_statements, fetch_statements_body in Hm.
  match type of Hm with
  | context [@bind (list value) _ ?c _] => destruct c as [l|e]
  end; cbn [bind try_except] in Hm; [|discriminate].
  destruct (for_each _ l []) as [results|e] eqn:Hrun; cbn [bind try_except] in Hm;
    [|discriminate].
  assert (results = m) by (destruct results; inversion Hm; reflexivity). subst results.
  revert t df Hin.
  apply (for_each_invariant
           (fun s : list (string * MetricMatrix) =>
              forall t df, In (t, df) s ->
                StronglySorted label_lt (mm_columns df) /\
                (forall row, In row (mm_rows df) ->
                             length (snd row) = length (mm_columns df)))
           (fetch_statements_step thousands module_key statements_key) l)
    with (s := []); [| intros ? ? [] | exact Hrun].
  intros s x s' _ Hs Hstep t df Hin.
  unfold fetch_statements_step in Hstep.
  destruct x as [ | b | z | q | tk | l0 | l0 | d];
    try (inversion Hstep; subst s'; now apply Hs with (t := t)).
  destruct (negb (truthy _)); [inversion Hstep; subst s'; now apply Hs with (t := t)|].
  match type of Hstep with
  | context [match ?r with VDict _ => _ | _ => _ end] =>
      destruct r as [ | ? | ? | ? | ? | ? | ? | d0 ];
        try (inversion Hstep; subst s'; now apply Hs with (t := t))
  end.
  destruct (statements_of _ _ d0) as [st|e]; cbn [bind] in Hstep; [|discriminate].
  destruct (truthy st); [|inversion Hstep; subst s'; now apply Hs with (t := t)].
  destruct (py_iter st) as [items|e]; cbn [bind] in Hstep; [|discriminate].
  destruct (for_each _ items []) as [dd|e]; cbn [bind] in Hstep; [|discriminate].
  inversion Hstep; subst s'.
  apply dict_set_in in Hin. destruct Hin as [[_ ->]|Hin]; [|now apply Hs with (t := t)].
  destruct (tabulate_shape dd) as (H1 & _ & H3 & _). now split.
Qed.

(** The property at the sample provider, for PETR4's table. *)
Lemma statement_tables_are_sorted_and_rectangular_witness :
  StronglySorted label_lt ["2023-12-31"] /\
  (forall row, In row [("Cash", [Some 5%Q]); ("Auditor", [None])] ->
               length (snd row) = length ["2023-12-31"]).
Proof.
  apply (statement_tables_are_sorted_and_rectangular Sample.online true
           "balanceSheetHistory" "balanceSheetStatements" (VStr "PETR4")
           [("PETR4", {| mm_columns := ["2023-12-31"];
                         mm_rows := [("Cash", [Some 5%Q]);
                                     ("Auditor", [None])] |})]
           "PETR4"
           {| mm_columns := ["2023-12-31"];
              mm_rows := [("Cash", [Some 5%Q]); ("Auditor", [None])] |}).
  - reflexivity.
  - simpl. left. reflexivity.
Defined.


(** X12.  When several statement records fall on the same period, the last
    one wins: after the loop every metric of the last record (its keys
    being distinct) holds that record's rescaled value at that record's
    period. *)
Theorem last_statement_record_wins :
  forall (ext : Externals) (thousands : bool) (earlier : list value)
         (fields : list (string * value)) (raw : value) (date : string)
         (data_dict : list (string * list (string * value)))
         (key : string) (v : value),
    for_each (pivot_statement thousands) (earlier ++ [VDict fields]) [] = Ok data_dict ->
    NoDup (map fst fields) ->
    dict_get "endDate" fields = Some raw ->
    end_date_label raw = Ok date ->
    In (key, v) fields ->
    key <> "endDate" ->
    exists w, rescale thousands v = Ok w /\ cell_of data_dict key date = Some w.
Proof.
  intros ext thousands earlier fields raw date data_dict key v Hrun Hnd Hraw Hdate Hin Hkey.
  rewrite for_each_app in Hrun.
  destruct (for_each (pivot_statement thousands) earlier []) as [dd|e];
    cbn [bind for_each] in Hrun; [|discriminate].
  rewrite (pivot_statement_record thousands _ _ _ _ Hraw Hdate) in Hrun.
  destruct (record_statement thousands date fields dd) as [dd'|e] eqn:Hrec;
    cbn [bind] in Hrun; [|discriminate].
  inversion Hrun; subst dd'.
  now apply (record_statement_overrides thousands date fields dd).
Qed.

(** The property on two records of the same day, the later carrying 5000. *)
Lemma last_statement_record_wins_witness :
  exists w, @rescale true (VInt 5000) = Ok w /\
            cell_of [("cash", [("2023-12-31", VFloat 5)])] "cash" "2023-12-31" = Some w.
Proof.
  apply (last_statement_record_wins Sample.online true
           [VDict [("endDate", VStr "2023-12-31"); ("cash", VInt 1)]]
           [("endDate", VStr "2023-12-31T00:00:00.000Z"); ("cash", VInt 5000)]
           (VStr "2023-12-31T00:00:00.000Z") "2023-12-31"
           [("cash", [("2023-12-31", VFloat 5)])]
           "cash" (VInt 5000)).
  - reflexivity.
  - repeat constructor; cbn; intuition discriminate.
  - reflexivity.
  - reflexivity.
  - simpl. right. left. reflexivity.
  - discriminate.
Defined.

(** ** Alignment: shape and reconciliation *)

(** The single-ticker alignment at the sample provider. *)
Lemma extract_common_stock_data_single_ticker_witness :
  @extract_common_stock_data Sample.online (Sample.reference ["PETR4"])
    [("PETR4", Sample.common_stock_at "2024-01-01" 10)]
  = Ok {| tz_aware := true;
          columns := ["PETR4"];
          rows := map (fun d_c => (fst d_c, [snd d_c]))
                      (combine (index (Sample.reference ["PETR4"]))
                               (forward_fill (index (Sample.reference ["PETR4"]))
                                             (combine [Sample.d1] [Some 10%Q]))) |} /\
  @extract_common_stock_data Sample.online (Sample.naive_reference ["PETR4"])
    [("PETR4", Sample.common_stock_at "2024-01-01" 10)]
  = Ok empty_frame.
Proof.
  assert (Hnd : NoDup [Sample.d1]) by (repeat constructor; simpl; tauto).
  split.
  - exact (@extract_common_stock_data_single_ticker Sample.online
             "PETR4" "Common Stock" "PETR4" (Sample.common_stock_at "2024-01-01" 10)
             [Some 10%Q] [Sample.d1] (Sample.reference ["PETR4"])
             eq_refl eq_refl eq_refl eq_refl Hnd eq_refl eq_refl).
  - exact (@extract_common_stock_data_single_ticker Sample.online
             "PETR4" "Common Stock" "PETR4" (Sample.common_stock_at "2024-01-01" 10)
             [Some 10%Q] [Sample.d1] (Sample.naive_reference ["PETR4"])
             eq_refl eq_refl eq_refl eq_refl Hnd eq_refl eq_refl).
Defined.

Section SelectFacts.
Context {C : Type}.

Variable missing : C.

Lemma column_position_in (name : string) (cols : list string) (p : nat) :
  column_position name cols = Some p -> In name cols.
Proof.
  revert p. induction cols as [|c cols IH]; cbn [column_position]; intros p; [discriminate|].
  destruct (c =? name) eqn:E.
  - apply String.eqb_eq in E. now left.
  - destruct (column_position name cols) as [n|]; [|discriminate].
    intros _. right. now apply IH with (p := n).
Qed.

Lemma column_positions_facts (names cols : list string) (ps : list nat) :
  column_positions names cols = Ok ps ->
  length ps = length names /\ forall n, In n names -> In n cols.
Proof.
  revert ps. induction names as [|n names IH]; cbn [column_positions]; intros ps.
  - intros H; inversion H. split; [reflexivity | intros ? []].
  - destruct (column_position n cols) as [p|] eqn:Ep; [|discriminate].
    destruct (column_positions names cols) as [ps'|e]; cbn [bind]; [|discriminate].
    intros H; inversion H. destruct (IH ps' eq_refl) as [Hlen Hin].
    split; [cbn; now rewrite Hlen|].
    intros n' [<-|Hn']; [now apply column_position_in with (p := p) | now apply Hin].
Qed.

Lemma select_columns_facts (names : list string) (f g : frame C) :
  select_columns missing names f = Ok g ->
  columns g = names /\
  (forall n, In n names -> In n (columns f)) /\
  forall r, In r (rows g) -> length (snd r) = length names.
Proof.
  unfold select_columns.
  destruct (column_positions names (columns f)) as [ps|e] eqn:E; cbn [bind]; [|discriminate].
  destruct (column_positions_facts _ _ _ E) as [Hlen Hin].
  intros H; inversion H. cbn [columns rows]. split; [reflexivity|]. split; [exact Hin|].
  intros r Hr. apply in_map_iff in Hr. destruct Hr as (r0 & <- & _).
  cbn [snd]. now rewrite length_map.
Qed.

Lemma pad_row_in (d : Z) (l : list (Z * list C)) (cells : list C) :
  pad_row d l = Some cells -> exists r, In r l /\ snd r = cells.
Proof.
  induction l as [|r0 l IH]; cbn [pad_row]; [discriminate|].
  destruct (fst r0 <=? d)%Z; [|discriminate].
  destruct (pad_row d l) as [later|].
  - intros H; inversion H; subst later.
    destruct (IH eq_refl) as (r & Hin & Hr). exists r. split; [now right | assumption].
  - intros H; inversion H. exists r0. split; [now left | reflexivity].
Qed.

Lemma reindex_ffill_facts (target_tz : bool) (target : list Z) (f g : frame C)
    (w : nat) :
  reindex_ffill missing target_tz target f = Ok g ->
  length (columns f) = w ->
  (forall r, In r (rows f) -> length (snd r) = w) ->
  columns g = columns f /\ index g = target /\
  forall r, In r (rows g) -> length (snd r) = w.
Proof.
  unfold reindex_ffill. destruct (has_duplicates (index f)).
  { destruct (Bool.eqb (tz_aware f) target_tz && same_index (index f) target) eqn:E;
      [|discriminate].
    intros H Hw Hrows; inversion H; subst g.
    apply andb_true_iff in E. destruct E as [_ E]. unfold same_index in E.
    destruct (list_eq_dec Z.eq_dec (index f) target) as [Heq|]; [|discriminate].
    split; [reflexivity|]. split; [exact Heq | exact Hrows]. }
  destruct (negb (Bool.eqb (tz_aware f) target_tz)); [discriminate|].
  intros H Hw Hrows; inversion H. cbn [columns rows]. split; [reflexivity|]. split.
  - unfold index. cbn [rows]. rewrite map_map. cbn [fst]. apply map_id.
  - intros r Hr. apply in_map_iff in Hr. destruct Hr as (d & <- & _). cbn [snd].
    destruct (pad_row d (rows f)) as [cells|] eqn:Hpad.
    + destruct (pad_row_in _ _ _ Hpad) as (r0 & Hin & <-). now apply Hrows.
    + now rewrite length_map.
Qed.

End SelectFacts.

Section AlignShape.
Context {ext : Externals}.

Variable stock_data_df : frame cell.

Lemma common_stock_step_effect (acc acc' : list (string * list (Z * cell)))
    (entry : string * MetricMatrix) :
  common_stock_step stock_data_df acc entry = Ok acc' ->
  acc' = acc \/
  exists series, acc' = dict_set (reconciled_key stock_data_df (fst entry)) series acc.
Proof.
  unfold common_stock_step, reconciled_key.
  destruct (find _ possible_names) as [stock_row|]; [|intros H; inversion H; now left].
  destruct (loc_row stock_row (snd entry)) as [cells|e]; cbn [bind]; [|discriminate].
  destruct (map_res to_datetime _) as [dates|e]; cbn [bind]; [|discriminate].
  destruct (columns stock_data_df) as [|c cols]; cbn [bind]; [discriminate|].
  intros H; inversion H. right. eauto.
Qed.

Lemma common_stock_loop_keys (bs_data_dict : list (string * MetricMatrix))
    (common_stock_data : list (string * list (Z * cell))) :
  for_each (common_stock_step stock_data_df) bs_data_dict [] = Ok common_stock_data ->
  forall k, In k (dict_keys common_stock_data) ->
            exists entry, In entry bs_data_dict /\
                          k = reconciled_key stock_data_df (fst entry).
Proof.
  apply (for_each_invariant
           (fun s : list (string * list (Z * cell)) =>
              forall k, In k (dict_keys s) ->
                        exists entry, In entry bs_data_dict /\
                                      k = reconciled_key stock_data_df (fst entry))).
  - intros s x s' Hx Hs Hstep k Hk.
    destruct (common_stock_step_effect _ _ _ Hstep) as [->|[series ->]]; [now apply Hs|].
    destruct (dict_keys_set _ _ _ _ Hk) as [->|Hin]; [eauto | now apply Hs].
  - intros k [].
Qed.

Lemma sort_index_width (f : frame cell) (w : nat) :
  (forall r, In r (rows f) -> length (snd r) = w) ->
  forall r, In r (rows (sort_index f)) -> length (snd r) = w.
Proof.
  intros Hrows r Hr. apply Hrows.
  eapply Permutation_in; [apply sorted_rows_permutation | exact Hr].
Qed.

End AlignShape.

(** X15.  [extract_common_stock_data] never raises and never returns
    [None]: it returns the empty table, or a table with exactly the columns
    and the dates of the reference table and one cell per column in every
    row. *)
Theorem extract_common_stock_data_is_empty_or_reference_shaped :
  forall (ext : Externals) (stock_data_df : frame cell)
         (bs_data_dict : list (string * MetricMatrix)),
  exists f,
    extract_common_stock_data stock_data_df bs_data_dict = Ok f /\
    (f = empty_frame \/
     (columns f = columns stock_data_df /\
      index f = index stock_data_df /\
      forall r, In r (rows f) -> length (snd r) = length (columns f))).
Proof.
  intros ext stock_data_df bs_data_dict.
  unfold extract_common_stock_data, extract_common_stock_body.
  destruct (for_each _ bs_data_dict []) as [[|kv data]|e]; cbn [bind try_except];
    try (eexists; split; [reflexivity | now left]).
  destruct (frame_of_series None true (kv :: data)) as [df|e] eqn:Hdf; cbn [bind try_except];
    [|eexists; split; [reflexivity | now left]].
  destruct (select_columns None (columns stock_data_df) df) as [sel|e] eqn:Hsel;
    cbn [bind try_except]; [|eexists; split; [reflexivity | now left]].
  destruct (select_columns_facts _ _ _ _ Hsel) as (Hcols & _ & Hwidth).
  destruct (reindex_ffill None (tz_aware stock_data_df) (index stock_data_df) (sort_index sel)) as [g|e] eqn:Hg;
    cbn [try_except]; [|eexists; split; [reflexivity | now left]].
  exists g. split; [reflexivity|]. right.
  assert (Hw1 : length (columns (sort_index sel)) = length (columns stock_data_df))
    by (cbn [sort_index columns]; now rewrite Hcols).
  assert (Hw2 : forall r, In r (rows (sort_index sel)) ->
                          length (snd r) = length (columns stock_data_df))
    by (apply sort_index_width; exact Hwidth).
  destruct (reindex_ffill_facts None _ _ _ _ _ Hg Hw1 Hw2) as (Hgc & Hgi & Hgw).
  cbn [sort_index columns] in Hgc.
  pose proof (eq_trans Hgc Hcols) as Hc'.
  split; [exact Hc'|]. split; [exact Hgi|].
  intros r Hr. transitivity (length (columns stock_data_df)).
  - now apply Hgw.
  - symmetry. exact (f_equal (@length string) Hc').
Qed.

(** X16.  The reconciliation is strict: when the reference table has a
    column that is the reconciled key of no balance sheet given, the result
    is the empty table, whatever the other columns could have been given. *)
Theorem extract_common_stock_data_empty_on_unmatched_column :
  forall (ext : Externals) (stock_data_df : frame cell)
         (bs_data_dict : list (string * MetricMatrix)) (c : string),
    In c (columns stock_data_df) ->
    (forall entry, In entry bs_data_dict ->
                   reconciled_key stock_data_df (fst entry) <> c) ->
    extract_common_stock_data stock_data_df bs_data_dict = Ok empty_frame.
Proof.
  intros ext stock_data_df bs_data_dict c Hc Hnone.
  unfold extract_common_stock_data, extract_common_stock_body.
  destruct (for_each _ bs_data_dict []) as [[|kv data]|e] eqn:Hrun;
    cbn [bind try_except]; try reflexivity.
  destruct (frame_of_series None true (kv :: data)) as [df|e] eqn:Hdf; cbn [bind try_except];
    [|reflexivity].
  destruct (select_columns None (columns stock_data_df) df) as [sel|e] eqn:Hsel;
    cbn [bind try_except]; [|reflexivity].
  exfalso.
  destruct (select_columns_facts _ _ _ _ Hsel) as (_ & Hin & _).
  destruct (frame_of_series_shape None _ _ _ Hdf) as [Hcols _].
  specialize (Hin c Hc). rewrite Hcols in Hin.
  destruct (common_stock_loop_keys stock_data_df _ _ Hrun c Hin) as (entry & Hentry & Hk).
  apply (Hnone entry Hentry). now symmetry.
Qed.

(** The property on a reference table that spells one ticker with the
    suffix and one without: the first column decides for both, so [VALE3]
    is matched by nothing. *)
Lemma extract_common_stock_data_empty_on_unmatched_column_witness :
  @extract_common_stock_data Sample.online (Sample.reference ["PETR4.SA"; "VALE3"])
    [("PETR4", Sample.common_stock_at "2024-01-01" 10);
     ("VALE3", Sample.common_stock_at "2024-01-01" 5)]
  = Ok empty_frame.
Proof.
  apply (extract_common_stock_data_empty_on_unmatched_column Sample.online
           (Sample.reference ["PETR4.SA"; "VALE3"])
           [("PETR4", Sample.common_stock_at "2024-01-01" 10);
            ("VALE3", Sample.common_stock_at "2024-01-01" 5)]
           "VALE3").
  - simpl. right. left. reflexivity.
  - intros entry [<-|[<-|[]]]; vm_compute; discriminate.
Defined.

(** The token property with the key [k3y] configured and a caller who
    brings a token of their own. *)
Lemma with_token_overrides_caller_token_witness :
  dict_get "token" (@with_token SampleMore.keyed [("token", VStr "mine")])
    = Some (VStr "k3y") /\
  forall name, name <> "token" ->
               dict_get name (@with_token SampleMore.keyed [("token", VStr "mine")])
               = dict_get name [("token", VStr "mine")].
Proof.
  apply (with_token_overrides_caller_token SampleMore.keyed "k3y"
           [("token", VStr "mine")]).
  - reflexivity.
  - discriminate.
Defined.

(** The two spellings of PETR4 at the sample provider. *)
Lemma suffixed_ticker_fetches_the_same_witness :
  @fetch_statements Sample.online true "balanceSheetHistory" "balanceSheetStatements"
     (VStr ("PETR4" ++ ".SA"))
  = Ok (Mapping [(("PETR4" ++ ".SA")%string,
                  {| mm_columns := ["2023-12-31"];
                     mm_rows := [("Cash", [Some 5%Q]);
                                 ("Auditor", [None])] |})]).
Proof.
  apply (proj2 (proj2 (suffixed_ticker_fetches_the_same Sample.online "1d" "1d"
                         false false VNone "PETR4"))).
  reflexivity.
Defined.

(** ** Profile tables *)




Section ProfileFacts.
Context {ext : Externals}.

Variable module_key : string.

Local Abbreviation profiles_step := (fetch_profiles_step module_key).

(** A record that carries a given ticker. *)
Local Abbreviation tagged :=
  (fun (d : list (string * value)) (t : string) => dict_get "ticker" d = Some (VStr t)).





End ProfileFacts.


(** The company profiles of the sample provider: the index keeps a ticker
    asked for twice, under each spelling. *)
Example fetch_summary_profile_sample :
  @fetch_summary_profile SampleMore.online
     (VList [VStr "PETR4"; VInt 3; VStr "XXXX"; VStr "VALE3"; VStr "PETR4.SA"])
  = Ok (Single {| rt_index := [VStr "PETR4"; VStr "VALE3"; VStr "PETR4.SA"];
                  rt_columns := ["sector"];
                  rt_rows := [[Some (VStr "Energy")]; [Some (VStr "Mining")];
                              [Some (VStr "Energy")]] |}).
Proof. reflexivity. Qed.

(** ** Listings and exchange rates *)

Lemma add_if_truthy_in (key : string) (option : value)
    (params : list (string * value)) (k : string) (v : value) :
  In (k, v) (add_if_truthy key option params) ->
  (k = key /\ v = option /\ truthy option = true) \/ In (k, v) params.
Proof.
  unfold add_if_truthy. destruct (truthy option) eqn:E; [|now right].
  intros H. apply dict_set_in in H. destruct H as [[-> ->]|H]; auto.
Qed.

(** X18.  [fetch_quote_list] sends an option only when it is truthy and
    under its own name, so a limit of 0 or an empty search is not sent; it
    always returns a dict with the one key [stocks], and
    [fetch_available_tickers] always returns a table, never [None]. *)
Theorem listings_send_truthy_options_and_always_return :
  forall (ext : Externals) (pd : Pandas)
         (search sortBy sortOrder limit sector : value),
    (forall k v,
        In (k, v) (quote_list_params search sortBy sortOrder limit sector) ->
        truthy v = true /\
        ((k = "search" /\ v = search) \/ (k = "sortBy" /\ v = sortBy) \/
         (k = "sortOrder" /\ v = sortOrder) \/ (k = "limit" /\ v = limit) \/
         (k = "sector" /\ v = sector))) /\
    (exists df, fetch_quote_list search sortBy sortOrder limit sector
                = Ok [("stocks", df)]) /\
    (exists df, fetch_available_tickers search = Ok df).
Proof.
  intros ext pd search sortBy sortOrder limit sector. split; [|split].
  - intros k v H. unfold quote_list_params in H.
    repeat (apply add_if_truthy_in in H;
            destruct H as [(Hk & Hv & Ht)|H];
            [subst k v; split; [exact Ht|];
             first [ left; split; reflexivity
                   | right; left; split; reflexivity
                   | right; right; left; split; reflexivity
                   | right; right; right; left; split; reflexivity
                   | right; right; right; right; split; reflexivity ]|]).
    destruct H.
  - unfold fetch_quote_list.
    destruct (truthy _); cbn [try_except]; [|eexists; reflexivity].
    destruct (records_table _) as [df|e]; cbn [bind try_except]; eexists; reflexivity.
  - unfold fetch_available_tickers.
    destruct (truthy _ && is_list _); cbn [try_except]; [|eexists; reflexivity].
    destruct (records_table _) as [df|e]; cbn [bind try_except];
      [|eexists; reflexivity].
    destruct (existsb _ _); cbn [try_except]; [|eexists; reflexivity].
    destruct (tidy_listing df); cbn [try_except]; eexists; reflexivity.
Qed.

(** The property for a call that asks for the order [desc] and a limit of
    0: only the order is sent. *)
Lemma listings_send_truthy_options_and_always_return_witness :
  truthy (VStr "desc") = true /\
  (("sortOrder" = "search" /\ VStr "desc" = VNone) \/
   ("sortOrder" = "sortBy" /\ VStr "desc" = VNone) \/
   ("sortOrder" = "sortOrder" /\ VStr "desc" = VStr "desc") \/
   ("sortOrder" = "limit" /\ VStr "desc" = VInt 0) \/
   ("sortOrder" = "sector" /\ VStr "desc" = VNone)).
Proof.
  apply (proj1 (listings_send_truthy_options_and_always_return
                  SampleMore.online SampleMore.pandas
                  VNone VNone (VStr "desc") (VInt 0) VNone)
               "sortOrder" (VStr "desc")).
  simpl. left. reflexivity.
Defined.

Section Rates.
Context {ext : Externals} {pd : Pandas}.

Lemma fetch_rates_table (endpoint : string) (params : list (string * value))
    (df : Table) :
  fetch_rates endpoint params = Ok (Some df) ->
  ~ In "date" (table_columns df) /\
  exists first others,
    make_request endpoint params = VList (first :: others) /\
    records_table (VList (first :: others)) = Ok df.
Proof.
  unfold fetch_rates.
  destruct (make_request endpoint params) as [ | b | z | q | s | [|first others] | l | d];
    cbn [truthy is_list andb try_except]; rewrite ?andb_false_r;
    cbn [try_except]; try discriminate.
  destruct (records_table _) as [df0|e] eqn:Hdf; cbn [bind try_except]; [|discriminate].
  destruct (existsb (String.eqb "date") (table_columns df0)) eqn:Hdate;
    cbn [try_except]; [discriminate|].
  intros H; inversion H; subst df0. split.
  - intros Hin. assert (E : existsb (String.eqb "date") (table_columns df) = true).
    { apply existsb_exists. exists "date". split; [assumption | reflexivity]. }
    congruence.
  - eauto.
Qed.

Lemma fetch_rates_none_with_date (endpoint : string) (params : list (string * value))
    (df : Table) :
  records_table (make_request endpoint params) = Ok df ->
  In "date" (table_columns df) ->
  fetch_rates endpoint params = Ok None.
Proof.
  intros Hdf Hin. unfold fetch_rates.
  destruct (truthy _ && is_list _); [|reflexivity].
  rewrite Hdf. cbn [bind].
  assert (E : existsb (String.eqb "date") (table_columns df) = true).
  { apply existsb_exists. exists "date". split; [assumption | reflexivity]. }
  now rewrite E.
Qed.

End Rates.

(** X19.  [fetch_currency] and [fetch_crypto] return a table only for a
    response that is a non-empty list, and never a table with a [date]
    column: whenever the table built from the response has one, the date
    conversion raises inside the function and the result is [None]. *)
Theorem rates_never_return_a_dated_table :
  forall (ext : Externals) (pd : Pandas) (endpoint : string)
         (params : list (string * value)) (currencies token coins currency : value),
    (forall df,
        fetch_rates endpoint params = Ok (Some df) ->
        ~ In "date" (table_columns df) /\
        exists first others,
          make_request endpoint params = VList (first :: others) /\
          records_table (VList (first :: others)) = Ok df) /\
    (forall df,
        records_table (make_request endpoint params) = Ok df ->
        In "date" (table_columns df) ->
        fetch_rates endpoint params = Ok None) /\
    (forall df, fetch_currency currencies token = Ok (Some df) ->
                ~ In "date" (table_columns df)) /\
    (forall df, fetch_crypto coins currency = Ok (Some df) ->
                ~ In "date" (table_columns df)).
Proof.
  intros ext pd endpoint params currencies token coins currency.
  split; [|split; [|split]].
  - intros df. apply fetch_rates_table.
  - intros df. apply fetch_rates_none_with_date.
  - intros df H. now apply fetch_rates_table in H.
  - intros df H. now apply fetch_rates_table in H.
Qed.

(** The property at the sample provider, whose coin prices carry a date. *)
Lemma rates_never_return_a_dated_table_witness :
  @fetch_rates SampleMore.online SampleMore.pandas "/api/v2/crypto"
     [("coin", VStr "BTC"); ("currency", VStr "BRL")] = Ok None.
Proof.
  apply (proj1 (proj2 (rates_never_return_a_dated_table
                         SampleMore.online SampleMore.pandas "/api/v2/crypto"
                         [("coin", VStr "BTC"); ("currency", VStr "BRL")]
                         VNone VNone VNone VNone))
               [[("coin", VStr "BTC"); ("date", VStr "2024-01-01")]]).
  - reflexivity.
  - simpl. right. left. reflexivity.
Defined.

(** ** Metric labels *)

Lemma nat_of_ascii_of_nat (n : nat) : (n < 256)%nat -> nat_of_ascii (ascii_of_nat n) = n.
Proof. apply nat_ascii_embedding. Qed.

Lemma to_upper_of_lower (c : ascii) :
  is_lower c = true ->
  is_upper (to_upper c) = true /\ to_upper (to_upper c) = to_upper c /\
  Ascii.eqb (to_upper c) "_" = false.
Proof.
  unfold to_upper. intros H. rewrite H.
  unfold is_lower in H. apply andb_true_iff in H. destruct H as [H1 H2].
  apply Nat.leb_le in H1. apply Nat.leb_le in H2.
  assert (Hn : nat_of_ascii (ascii_of_nat (nat_of_ascii c - 32)) = (nat_of_ascii c - 32)%nat)
    by (apply nat_of_ascii_of_nat; lia).
  assert (Hu : is_upper (ascii_of_nat (nat_of_ascii c - 32)) = true).
  { unfold is_upper. rewrite Hn. apply andb_true_iff.
    split; apply Nat.leb_le; lia. }
  assert (Hl : is_lower (ascii_of_nat (nat_of_ascii c - 32)) = false).
  { unfold is_lower. rewrite Hn. apply andb_false_iff. left. apply Nat.leb_gt. lia. }
  split; [exact Hu|]. split; [now rewrite Hl|].
  apply Ascii.eqb_neq. intros E. apply (f_equal nat_of_ascii) in E.
  rewrite Hn in E. cbn in E. lia.
Qed.

Lemma to_lower_of_upper (c : ascii) :
  is_upper c = true ->
  is_lower (to_lower c) = true /\ to_lower (to_lower c) = to_lower c /\
  Ascii.eqb (to_lower c) "_" = false.
Proof.
  unfold to_lower. intros H. rewrite H.
  unfold is_upper in H. apply andb_true_iff in H. destruct H as [H1 H2].
  apply Nat.leb_le in H1. apply Nat.leb_le in H2.
  assert (Hn : nat_of_ascii (ascii_of_nat (nat_of_ascii c + 32)) = (nat_of_ascii c + 32)%nat)
    by (apply nat_of_ascii_of_nat; lia).
  assert (Hl : is_lower (ascii_of_nat (nat_of_ascii c + 32)) = true).
  { unfold is_lower. rewrite Hn. apply andb_true_iff.
    split; apply Nat.leb_le; lia. }
  assert (Hu : is_upper (ascii_of_nat (nat_of_ascii c + 32)) = false).
  { unfold is_upper. rewrite Hn. apply andb_false_iff. right. apply Nat.leb_gt. lia. }
  split; [exact Hl|]. split; [now rewrite Hu|].
  apply Ascii.eqb_neq. intros E. apply (f_equal nat_of_ascii) in E.
  rewrite Hn in E. cbn in E. lia.
Qed.

Lemma letter_not_underscore (c : ascii) :
  is_upper c || is_lower c = true -> Ascii.eqb c "_" = false.
Proof.
  intros H. apply Ascii.eqb_neq. intros ->. cbn in H. discriminate.
Qed.

Lemma upper_lower_disjoint (c : ascii) : is_upper c = true -> is_lower c = false.
Proof.
  unfold is_upper, is_lower. intros H. apply andb_true_iff in H. destruct H as [_ H].
  apply Nat.leb_le in H. apply andb_false_iff. left. apply Nat.leb_gt. lia.
Qed.

(** The character [title] writes for a letter is a letter that [title]
    would write again in the same place, and is no underscore. *)
Lemma title_char_stable (b : bool) (c : ascii) :
  is_upper c || is_lower c = true ->
  let c' := if b then to_lower c else to_upper c in
  is_upper c' || is_lower c' = true /\
  (if b then to_lower c' else to_upper c') = c' /\
  Ascii.eqb c' "_" = false.
Proof.
  intros H. cbv zeta.
  pose proof (letter_not_underscore c H) as Hus.
  destruct (is_upper c) eqn:Eu.
  - pose proof (upper_lower_disjoint c Eu) as El.
    destruct b.
    + destruct (to_lower_of_upper c Eu) as (H1 & H2 & H3).
      split; [rewrite H1; apply orb_true_r | auto].
    + assert (Hc : to_upper c = c) by (unfold to_upper; now rewrite El).
      rewrite !Hc. split; [now rewrite Eu|]. split; [reflexivity | exact Hus].
  - cbn [orb] in H. destruct b.
    + assert (Hc : to_lower c = c) by (unfold to_lower; now rewrite Eu).
      rewrite !Hc. split; [now rewrite Eu, H|]. split; [reflexivity | exact Hus].
    + destruct (to_upper_of_lower c H) as (H1 & H2 & H3).
      split; [now rewrite H1 | auto].
Qed.

Lemma title_from_idempotent (s : string) :
  forall b, title_from b (title_from b s) = title_from b s.
Proof.
  induction s as [|c rest IH]; intros b; cbn [title_from]; [reflexivity|].
  destruct (is_upper c || is_lower c) eqn:E.
  - destruct (title_char_stable b c E) as (H1 & H2 & _).
    cbn [title_from]. rewrite H1, H2, IH. reflexivity.
  - cbn [title_from]. rewrite E, IH. reflexivity.
Qed.

Lemma replace_underscore_after_title (s : string) :
  forall b, replace_underscore (title_from b (replace_underscore s))
            = title_from b (replace_underscore s).
Proof.
  induction s as [|c rest IH]; intros b; cbn [replace_underscore title_from];
    [reflexivity|].
  set (c0 := if Ascii.eqb c "_" then " "%char else c).
  assert (Hc0 : Ascii.eqb c0 "_" = false).
  { unfold c0. destruct (Ascii.eqb c "_") eqn:E; [reflexivity | exact E]. }
  destruct (is_upper c0 || is_lower c0) eqn:E.
  - destruct (title_char_stable b c0 E) as (_ & _ & H3).
    cbn [replace_underscore]. rewrite H3, IH. reflexivity.
  - cbn [replace_underscore]. rewrite Hc0, IH. reflexivity.
Qed.

Lemma title_from_length (s : string) :
  forall b, String.length (title_from b s) = String.length s.
Proof.
  induction s as [|c rest IH]; intros b; cbn [title_from]; [reflexivity|].
  destruct (is_upper c || is_lower c); cbn [String.length]; now rewrite IH.
Qed.

Lemma replace_underscore_length (s : string) :
  String.length (replace_underscore s) = String.length s.
Proof.
  induction s as [|c rest IH]; cbn; [reflexivity | now rewrite IH].
Qed.

Lemma letter_is_ascii (c : ascii) :
  is_upper c || is_lower c = true -> (nat_of_ascii c <? 128)%nat = true.
Proof.
  unfold is_upper, is_lower. intros H. apply Nat.ltb_lt.
  apply orb_true_iff in H. destruct H as [H|H];
    apply andb_true_iff in H; destruct H as [_ H]; apply Nat.leb_le in H; lia.
Qed.

Lemma is_ascii_replace_underscore (s : string) :
  is_ascii (replace_underscore s) = is_ascii s.
Proof.
  induction s as [|c rest IH]; cbn [replace_underscore is_ascii]; [reflexivity|].
  rewrite IH. destruct (Ascii.eqb c "_") eqn:E; [|reflexivity].
  apply Ascii.eqb_eq in E. subst c. reflexivity.
Qed.

Lemma is_ascii_title_from (s : string) :
  forall b, is_ascii s = true -> is_ascii (title_from b s) = true.
Proof.
  induction s as [|c rest IH]; intros b; cbn [title_from is_ascii]; [reflexivity|].
  intros H. apply andb_true_iff in H. destruct H as [Hc Hrest].
  destruct (is_upper c || is_lower c) eqn:E; cbn [is_ascii].
  - destruct (title_char_stable b c E) as (H1 & _ & _). cbv zeta in H1.
    rewrite (letter_is_ascii _ H1). now apply IH.
  - rewrite Hc. now apply IH.
Qed.

(** The label of a key of ASCII characters. *)
Lemma metric_label_ascii {ext : Externals} (idx : string) :
  is_ascii idx = true ->
  metric_label idx = title_from false (replace_underscore idx).
Proof.
  intros H. unfold metric_label. now rewrite is_ascii_replace_underscore, H.
Qed.

(** X20.  Relabelling a key of ASCII characters is stable: the label of a
    label is that label, a label is as long as the key it comes from, and
    replacing underscores in a label changes nothing, for it has none. *)
Theorem metric_label_is_stable :
  forall (ext : Externals) (idx : string),
    is_ascii idx = true ->
    metric_label (metric_label idx) = metric_label idx /\
    String.length (metric_label idx) = String.length idx /\
    replace_underscore (metric_label idx) = metric_label idx.
Proof.
  intros ext idx Hidx. rewrite (metric_label_ascii idx Hidx).
  assert (Hlabel : is_ascii (title_from false (replace_underscore idx)) = true).
  { apply is_ascii_title_from. now rewrite is_ascii_replace_underscore. }
  split; [|split].
  - rewrite (metric_label_ascii _ Hlabel).
    rewrite replace_underscore_after_title. apply title_from_idempotent.
  - now rewrite title_from_length, replace_underscore_length.
  - apply replace_underscore_after_title.
Qed.

(** The property for the key [total_current_assets]. *)
Lemma metric_label_is_stable_witness :
  @metric_label Sample.online (@metric_label Sample.online "total_current_assets")
    = @metric_label Sample.online "total_current_assets" /\
  String.length (@metric_label Sample.online "total_current_assets")
    = String.length "total_current_assets" /\
  replace_underscore (@metric_label Sample.online "total_current_assets")
    = @metric_label Sample.online "total_current_assets".
Proof.
  apply (metric_label_is_stable Sample.online "total_current_assets").
  reflexivity.
Defined.

Example metric_label_samples :
  @metric_label Sample.online "commonStock" = "Commonstock" /\
  @metric_label Sample.online "total_current_assets" = "Total Current Assets".
Proof. split; reflexivity. Qed.

(** ** Arguments of the wrong type, records without a period *)

(** X21.  No statement or profile fetcher raises on a tickers argument
    that is neither a string nor a list or tuple: the [ValueError] of the
    type check is raised inside the function's [try] block and the call
    returns [None].  A price-field extractor has no such check: it returns
    the empty table for an argument it cannot iterate. *)
Theorem fetchers_return_null_on_bad_tickers_type :
  forall (ext : Externals) (thousands : bool) (module_key statements_key : string)
         (T : Type) (finish : RecordTable (option value) -> T) (profile_key : string)
         (field range interval : string) (tickers : value),
    bad_tickers_type tickers = true ->
    fetch_statements_body thousands module_key statements_key tickers
      = Raise ValueError /\
    fetch_statements thousands module_key statements_key tickers = Ok Null /\
    fetch_profiles_body T finish profile_key tickers = Raise ValueError /\
    fetch_profiles T finish profile_key tickers = Ok Null /\
    (is_dict tickers = false ->
     fetch_field_body field range interval tickers = Raise TypeError /\
     fetch_quote_field field range interval tickers = Ok (Single empty_frame)).
Proof.
  intros ext thousands module_key statements_key T finish profile_key
         field range interval tickers Hbad.
  destruct tickers; try discriminate; repeat split; try reflexivity; discriminate.
Qed.

(** The property for the integer 123. *)
Lemma fetchers_return_null_on_bad_tickers_type_witness :
  @fetch_statements_body Sample.online true "balanceSheetHistory"
     "balanceSheetStatements" (VInt 123) = Raise ValueError /\
  @fetch_statements Sample.online true "balanceSheetHistory"
     "balanceSheetStatements" (VInt 123) = Ok Null /\
  @fetch_profiles_body Sample.online (RecordTable (option value)) (fun df => df)
     "summaryProfile" (VInt 123) = Raise ValueError /\
  @fetch_profiles Sample.online (RecordTable (option value)) (fun df => df)
     "summaryProfile" (VInt 123) = Ok Null /\
  (is_dict (VInt 123) = false ->
   @fetch_field_body Sample.online "open" "1d" "1d" (VInt 123) = Raise TypeError /\
   @fetch_quote_field Sample.online "open" "1d" "1d" (VInt 123)
     = Ok (Single empty_frame)).
Proof.
  apply (fetchers_return_null_on_bad_tickers_type Sample.online true
           "balanceSheetHistory" "balanceSheetStatements"
           (RecordTable (option value)) (fun df => df) "summaryProfile"
           "open" "1d" "1d" (VInt 123)).
  reflexivity.
Defined.

(** X22.  Statement records that carry no [endDate] contribute nothing:
    the pivot of a statement sequence is the pivot of the sequence without
    the dict records that lack the key. *)
Theorem statements_without_end_date_are_skipped :
  forall (ext : Externals) (thousands : bool) (statements : list value),
    for_each (pivot_statement thousands) statements [] =
    for_each (pivot_statement thousands)
             (filter (fun s => match s with
                               | VDict fields => dict_mem "endDate" fields
                               | _ => true
                               end)
                     statements)
             [].
Proof.
  intros ext thousands statements.
  apply for_each_filter.
  intros dd x Hx. destruct x; try discriminate.
  unfold pivot_statement. cbn [py_contains_str bind]. now rewrite Hx.
Qed.

(** The shape property at the sample provider, for PETR4 alone. *)
Lemma extract_common_stock_data_is_empty_or_reference_shaped_witness :
  exists f,
    @extract_common_stock_data Sample.online (Sample.reference ["PETR4"])
       [("PETR4", Sample.common_stock_at "2024-01-01" 10)] = Ok f /\
    (f = empty_frame \/
     (columns f = columns (Sample.reference ["PETR4"]) /\
      index f = index (Sample.reference ["PETR4"]) /\
      forall r, In r (rows f) -> length (snd r) = length (columns f))).
Proof.
  apply (extract_common_stock_data_is_empty_or_reference_shaped Sample.online
           (Sample.reference ["PETR4"])
           [("PETR4", Sample.common_stock_at "2024-01-01" 10)]).
Defined.

